(** * TBCModLoader: pack catalog, pack ciphers and game-data records

    A shallow embedding of the parts of the mod loader that resolve, encrypt
    and re-emit game files ([tbcml/game_data/pack.py], [tbcml/crypto.py]),
    the stage partition enum and map import ([tbcml/core/game_data/map/map.py])
    and the unit records ([bcml/core/game_data/cat_base/cats.py]). *)

From Stdlib Require Import ZArith List String Ascii Bool Lia.
From Stdlib Require Import Strings.Byte.
From stdpp Require Import base option list gmap strings pretty.

Local Open Scope string_scope.
Local Open Scope list_scope.
Local Open Scope Z_scope.

(** ** Python values shared by the modules below *)

(** Exceptions the modelled code raises. *)
Inductive exn : Type :=
  | ValueError
  | FileNotFoundError
  | IndexError.

(** A computation that returns a value or raises. *)
Inductive result (A : Type) : Type :=
  | Ok (a : A)
  | Raise (e : exn).
Arguments Ok {A} a.
Arguments Raise {A} e.

#[global] Instance result_ret : MRet result := fun A a => Ok a.
#[global] Instance result_bind : MBind result := fun A B f m =>
  match m with
  | Ok a => f a
  | Raise e => Raise e
  end.

(** The results of a list of computations, in order; the first to raise
    decides. *)
Fixpoint collect {A : Type} (l : list (result A)) : result (list A) :=
  match l with
  | [] => Ok []
  | r :: l' => a ← r; rest ← collect l'; Ok (a :: rest)
  end.

(** [bytes] objects; [tbcml.Data] is a wrapper around one. *)
Definition bytes : Type := list byte.

#[global] Instance byte_eq_decision : EqDecision byte := Byte.byte_eq_dec.

(** [l[i]] for a Python list and an integer index: a negative index counts
    from the end, anything out of range raises [IndexError]. *)
Definition py_getitem {A : Type} (l : list A) (i : Z) : result A :=
  let n := Z.of_nat (length l) in
  let j := if i <? 0 then i + n else i in
  if (j <? 0) || (n <=? j) then Raise IndexError
  else match l !! Z.to_nat j with
       | Some x => Ok x
       | None => Raise IndexError
       end.

(** [sorted(xs, key=key)]: a stable sort, here by insertion. *)
Fixpoint insert_by {A : Type} (key : A -> Z) (x : A) (l : list A) : list A :=
  match l with
  | [] => [x]
  | y :: l' => if key x <? key y then x :: y :: l' else y :: insert_by key x l'
  end.

Definition sorted_by {A : Type} (key : A -> Z) (l : list A) : list A :=
  fold_left (fun acc x => insert_by key x acc) l [].

(** ** Stage partitions: [MapIndexType] *)

Module MapIndexType.

Inductive t : Type :=
  | SOL
  | REGULAR_EVENT
  | COLLAB
  | STORY
  | EXTRA
  | DOJO_CATCLAW
  | TOWER
  | CHALLENGE
  | UNCANNY
  | DRINK
  | LEGEND_QUEST
  | OUTBREAKS_EOC
  | OUTBREAKS_ITF
  | OUTBREAKS_COTC
  | FILIBUSTER
  | GAUNTLET
  | ENGIMA
  | COLLAB_GAUNTLET
  | BEHEMOTH.

(** The enum's [value]: the partition marker. *)
Definition value (x : t) : Z :=
  match x with
  | SOL => 0
  | REGULAR_EVENT => 1000
  | COLLAB => 2000
  | STORY => 3000
  | EXTRA => 4000
  | DOJO_CATCLAW => 6000
  | TOWER => 7000
  | CHALLENGE => 12000
  | UNCANNY => 13000
  | DRINK => 14000
  | LEGEND_QUEST => 16000
  | OUTBREAKS_EOC => 20000
  | OUTBREAKS_ITF => 21000
  | OUTBREAKS_COTC => 22000
  | FILIBUSTER => 23000
  | GAUNTLET => 24000
  | ENGIMA => 25000
  | COLLAB_GAUNTLET => 27000
  | BEHEMOTH => 31000
  end.

(** Iterating the enum class yields its members in definition order. *)
Definition members : list t :=
  [SOL; REGULAR_EVENT; COLLAB; STORY; EXTRA; DOJO_CATCLAW; TOWER; CHALLENGE;
   UNCANNY; DRINK; LEGEND_QUEST; OUTBREAKS_EOC; OUTBREAKS_ITF; OUTBREAKS_COTC;
   FILIBUSTER; GAUNTLET; ENGIMA; COLLAB_GAUNTLET; BEHEMOTH].

Definition get_all : list t := sorted_by value members.

(** The body of [for i in range(len(types_sorted))] of [from_index], over
    the remaining values [is_] of [i]. An [IndexError] cannot arise (the
    indices are [i] and [i - 1] with [i] in range); it is mapped to [None]
    only to keep the function's [Optional] return type. *)
Fixpoint from_index_loop (types_sorted : list t) (index : Z) (is_ : list nat)
  : option t :=
  match is_ with
  | [] => None
  | i :: rest =>
      match py_getitem types_sorted (Z.of_nat i) with
      | Raise _ => None
      | Ok ti =>
          if index <? value ti then
            match py_getitem types_sorted (Z.of_nat i - 1) with
            | Ok tp => Some tp
            | Raise _ => None
            end
          else if index =? value ti then Some ti
          else from_index_loop types_sorted index rest
      end
  end.

Definition from_index (index : Z) : option t :=
  let types_sorted := sorted_by value members in
  from_index_loop types_sorted index (seq 0 (length types_sorted)).

(** The enum's [name]. *)
Definition name (x : t) : string :=
  match x with
  | SOL => "SOL"
  | REGULAR_EVENT => "REGULAR_EVENT"
  | COLLAB => "COLLAB"
  | STORY => "STORY"
  | EXTRA => "EXTRA"
  | DOJO_CATCLAW => "DOJO_CATCLAW"
  | TOWER => "TOWER"
  | CHALLENGE => "CHALLENGE"
  | UNCANNY => "UNCANNY"
  | DRINK => "DRINK"
  | LEGEND_QUEST => "LEGEND_QUEST"
  | OUTBREAKS_EOC => "OUTBREAKS_EOC"
  | OUTBREAKS_ITF => "OUTBREAKS_ITF"
  | OUTBREAKS_COTC => "OUTBREAKS_COTC"
  | FILIBUSTER => "FILIBUSTER"
  | GAUNTLET => "GAUNTLET"
  | ENGIMA => "ENGIMA"
  | COLLAB_GAUNTLET => "COLLAB_GAUNTLET"
  | BEHEMOTH => "BEHEMOTH"
  end.

(** The partition the specification asks for: the member with the greatest
    marker that is at most [index]. *)
Definition greatest_marker_le (index : Z) (x : t) : Prop :=
  value x <= index /\ forall y : t, value y <= index -> value y <= value x.

End MapIndexType.

(** ** Python [str] methods used by the pack code

    A [str] is held as the bytes of its UTF-8 encoding. [strip] removes
    every character of [str.isspace()]. [contains], [endswith], [split]
    and [replace] are called with ASCII arguments, for which searching the
    bytes is searching the characters. [lower] lowers the ASCII letters,
    which is what the pack names and country codes it is applied to hold. *)

Module Str.

Definition chars (s : string) : list ascii := list_ascii_of_string s.
Definition of_chars (l : list ascii) : string := string_of_list_ascii l.

Fixpoint starts_with (p l : list ascii) : bool :=
  match p, l with
  | [], _ => true
  | _ :: _, [] => false
  | a :: p', b :: l' => Ascii.eqb a b && starts_with p' l'
  end.

Fixpoint contains_chars (sub l : list ascii) : bool :=
  starts_with sub l ||
  match l with
  | [] => false
  | _ :: l' => contains_chars sub l'
  end.

(** [sub in s] *)
Definition contains (sub s : string) : bool :=
  contains_chars (chars sub) (chars s).

(** [s.endswith(suffix)] *)
Definition endswith (s suffix : string) : bool :=
  starts_with (rev (chars suffix)) (rev (chars s)).

Definition lower_char (c : ascii) : ascii :=
  let n := nat_of_ascii c in
  if (65 <=? n)%nat && (n <=? 90)%nat then ascii_of_nat (n + 32) else c.

(** [s.lower()] *)
Definition lower (s : string) : string := of_chars (map lower_char (chars s)).

(** The code points that [str.isspace()] accepts, which are the
    characters [str.strip()] removes: the ASCII controls 9..13 and 28..31,
    the space, NEL, the no-break space, the Ogham space mark, the spaces
    U+2000..U+200A, the line and paragraph separators, the narrow no-break
    space, the medium mathematical space and the ideographic space. *)
Definition whitespace_code_points : list N :=
  [0x9; 0xa; 0xb; 0xc; 0xd; 0x1c; 0x1d; 0x1e; 0x1f; 0x20; 0x85; 0xa0;
   0x1680; 0x2000; 0x2001; 0x2002; 0x2003; 0x2004; 0x2005; 0x2006; 0x2007;
   0x2008; 0x2009; 0x200a; 0x2028; 0x2029; 0x202f; 0x205f; 0x3000]%N.

(** The UTF-8 bytes of a code point below 0x10000. *)
Definition utf8 (c : N) : list ascii :=
  if (c <? 0x80)%N then [ascii_of_N c]
  else if (c <? 0x800)%N then
    [ascii_of_N (0xc0 + c / 0x40); ascii_of_N (0x80 + c mod 0x40)]
  else
    [ascii_of_N (0xe0 + c / 0x1000);
     ascii_of_N (0x80 + (c / 0x40) mod 0x40);
     ascii_of_N (0x80 + c mod 0x40)].

Definition whitespace : list (list ascii) := map utf8 whitespace_code_points.

(** The number of bytes of the character [l] starts with, when that
    character is one of [encodings]. *)
Definition space_width (encodings : list (list ascii)) (l : list ascii)
  : option nat :=
  match List.find (fun e => starts_with e l) encodings with
  | Some e => Some (length e)
  | None => None
  end.

(** [l] without the characters of [encodings] it starts with. [skip] counts
    the bytes of a matched character still to be dropped. *)
Fixpoint lstrip_chars (encodings : list (list ascii)) (skip : nat)
    (l : list ascii) : list ascii :=
  match l with
  | [] => []
  | c :: l' =>
      match skip with
      | S k => lstrip_chars encodings k l'
      | O =>
          match space_width encodings l with
          | Some (S k) => lstrip_chars encodings k l'
          | _ => l
          end
      end
  end.

(** [s.strip()]: whitespace is dropped at the front, and at the back by
    reading the reversed bytes against the reversed encodings. *)
Definition strip (s : string) : string :=
  of_chars
    (rev (lstrip_chars (map (@rev ascii) whitespace) 0
            (rev (lstrip_chars whitespace 0 (chars s))))).

(** [s.split(sep)] for a one-character separator: the pieces between
    separators, empty pieces included. [cur] is the piece being read,
    reversed. *)
Fixpoint split_chars (sep : ascii) (cur : list ascii) (l : list ascii)
  : list string :=
  match l with
  | [] => [of_chars (rev cur)]
  | c :: l' =>
      if Ascii.eqb c sep then of_chars (rev cur) :: split_chars sep [] l'
      else split_chars sep (c :: cur) l'
  end.

Definition split (sep : ascii) (s : string) : list string :=
  split_chars sep [] (chars s).

(** [s.replace(old, new)] for a non-empty [old]: every occurrence, left to
    right, without overlap. [skip] counts the characters of a matched
    occurrence still to be dropped. *)
Fixpoint replace_chars (old new : list ascii) (skip : nat) (l : list ascii)
  : list ascii :=
  match l with
  | [] => []
  | c :: l' =>
      match skip with
      | S k => replace_chars old new k l'
      | O =>
          if starts_with old l
          then new ++ replace_chars old new (length old - 1) l'
          else c :: replace_chars old new 0 l'
      end
  end.

Definition replace (s old new : string) : string :=
  of_chars (replace_chars (chars old) (chars new) 0 (chars s)).

(** [str(n)] for a length or an offset. *)
Definition of_nat (n : nat) : string := pretty n.

End Str.

(** ** [tbcml.Data] *)

Module Data.

(** Modelled from the spec: the [Data] class is not under src/. It is "an
    owned byte buffer" built from a [str] by UTF-8 encoding; two buffers
    with the same bytes compare equal. *)
Definition of_str (s : string) : bytes := list_byte_of_string s.

Definition eqb (a b : bytes) : bool := bool_decide (a = b).

(** [data == other] where [other] may be [None]: a buffer equals no
    non-buffer. *)
Definition eqb_opt (a : bytes) (b : option bytes) : bool :=
  match b with
  | Some b' => eqb a b'
  | None => false
  end.

(** Modelled from the spec: PKCS#7 padding to a block of 16 bytes. A whole
    block is added to a buffer that is already aligned. *)
Definition pad_pkcs7 (d : bytes) : bytes :=
  let pad := (16 - length d mod 16)%nat in
  d ++ repeat (default x00 (Byte.of_nat pad)) pad.

(** Modelled from the spec: PKCS#7 unpadding; raises [ValueError] when the
    buffer is empty or does not end in [n] bytes of value [n], [n >= 1]. *)
Definition unpad_pkcs7 (d : bytes) : result bytes :=
  match last d with
  | None => Raise ValueError
  | Some b =>
      let pad := Byte.to_nat b in
      if (pad =? 0)%nat || (length d <? pad)%nat then Raise ValueError
      else if bool_decide (drop (length d - pad) d = repeat b pad)
           then Ok (take (length d - pad) d)
           else Raise ValueError
  end.

Definition hex_digit (n : nat) : ascii :=
  if (n <? 10)%nat then ascii_of_nat (48 + n) else ascii_of_nat (87 + n).

(** [to_hex()]: two lowercase hexadecimal digits per byte. *)
Definition to_hex (d : bytes) : string :=
  Str.of_chars
    (flat_map (fun b => [hex_digit (Byte.to_nat b / 16);
                         hex_digit (Byte.to_nat b mod 16)]) d).

(** [Data.from_many]: the buffers one after the other. *)
Definition from_many (ds : list bytes) : bytes := concat ds.

End Data.

(** ** Country codes, game versions, languages *)

Module CountryCode.

Inductive t : Type := EN | JP | KR | TW.

#[global] Instance eq_dec : EqDecision t.
Proof. solve_decision. Defined.

Definition value (cc : t) : string :=
  match cc with
  | EN => "en"
  | JP => "jp"
  | KR => "kr"
  | TW => "tw"
  end.

(** The members in definition order, as iterating the enum gives them. *)
Definition members : list t := [EN; JP; KR; TW].

Definition get_code (self : t) : string := value self.

Definition get_patching_code (self : t) : string :=
  Str.replace (get_code self) "jp" "".

Definition get_request_code (self : t) : string :=
  Str.replace (get_code self) "jp" "ja".

(** [from_code]: the first member with the lower-cased code, [JP] when there
    is none. *)
Definition from_code (code : string) : t :=
  let code := Str.lower code in
  default JP
    (List.find (fun country_code => String.eqb (get_code country_code) code)
               members).

Definition from_patching_code (code : string) : t :=
  if String.eqb code "" then JP else from_code code.

(** [from_package_name]: the first member whose code ends the package
    name, [JP] when there is none. *)
Definition from_package_name (package_name : string) : t :=
  default JP
    (List.find (fun country_code =>
                  Str.endswith package_name (get_code country_code))
               members).

Definition get_language (self : t) : string :=
  if decide (self = EN) then "en"
  else if decide (self = JP) then "ja"
  else if decide (self = KR) then "ko"
  else if decide (self = TW) then "tw"
  else "en".

End CountryCode.

Module GameVersion.

(** Modelled from the spec: the [GameVersion] class is not under src/. It
    is "an ordered version triple with comparison". *)
Record t : Type := mk { major : Z; minor : Z; patch : Z }.

#[global] Instance eq_dec : EqDecision t.
Proof. solve_decision. Defined.

Definition ltb (a b : t) : bool :=
  (major a <? major b)
  || ((major a =? major b)
      && ((minor a <? minor b)
          || ((minor a =? minor b) && (patch a <? patch b)))).

(** [a >= b] *)
Definition geb (a b : t) : bool := negb (ltb a b).

(** The value of [GameVersion.from_string("8.9.0")]. *)
Definition v8_9_0 : t := mk 8 9 0.

End GameVersion.

Module Languages.

(** Modelled from the spec: the [Languages] class is not under src/. Its
    known set of language codes is [{en, ja, ko, tw, de, es, fr, it, th}]. *)
Definition get_all_strings : list string :=
  ["en"; "ja"; "ko"; "tw"; "de"; "es"; "fr"; "it"; "th"].

(** [x in Languages.get_all_strings()] *)
Definition mem (x : string) : bool := bool_decide (x ∈ get_all_strings).

End Languages.

(** ** Pack names: the static predicates of [PackFile] *)

(** [PackFile.is_server_pack] *)
Definition is_server_pack (pack_name : string) : bool :=
  Str.contains "Server" pack_name.

(** [PackFile.is_image_data_local_pack] *)
Definition is_image_data_local_pack (pack_name : string) : bool :=
  Str.contains "imagedatalocal" (Str.lower pack_name).

(** ** Library primitives

    What the code calls but this repository does not define: PyCryptodome's
    AES, [hashlib.md5], [bytes.fromhex]; and two helpers of the repository
    that are not under src/: the serialisation of a [CSV] and
    [GameVersion.is_java]. *)

Inductive AesMode : Type := MODE_ECB | MODE_CBC.

#[global] Instance AesMode_eq_dec : EqDecision AesMode.
Proof. solve_decision. Defined.

Record Primitives : Type := {
  (** [AES.new(key, mode[, iv]).encrypt(data)]; raises [ValueError] on a
      key, iv or data of the wrong length *)
  AES_encrypt : AesMode -> bytes -> option bytes -> bytes -> result bytes;
  (** [AES.new(key, mode[, iv]).decrypt(data)] *)
  AES_decrypt : AesMode -> bytes -> option bytes -> bytes -> result bytes;
  (** [hashlib.md5(data).digest()] *)
  md5_digest : bytes -> bytes;
  (** [bytes.fromhex(s)]; raises [ValueError] on a malformed string *)
  bytes_fromhex : string -> result bytes;
  (** [CSV.to_data()] of a table given by its lines *)
  CSV_to_data : list (list string) -> bytes;
  (** [GameVersion.is_java()] *)
  is_java : GameVersion.t -> bool
}.

(** ** [tbcml/crypto.py] *)

Module Hash.

(** [Hash(HashAlgorithm.MD5).get_hash(data, length)]: the first [length]
    bytes of the digest, or the whole digest. *)
Definition get_hash (P : Primitives) (data : bytes) (length : option nat)
  : bytes :=
  match length with
  | None => md5_digest P data
  | Some n => take n (md5_digest P data)
  end.

End Hash.

Module AesCipher.

Record t : Type := mk {
  key : bytes;
  iv : option bytes;
  mode : AesMode;
  enable : bool
}.

(** [AesCipher.__init__]: without a mode, ECB when there is no iv and CBC
    otherwise. *)
Definition init (key : bytes) (iv : option bytes) (mode : option AesMode)
    (enable : bool) : t :=
  let mode :=
    match mode with
    | Some m => m
    | None => match iv with None => MODE_ECB | Some _ => MODE_CBC end
    end in
  mk key iv mode enable.

Section WithPrimitives.
Context (P : Primitives).

Definition encrypt (self : t) (data : bytes) : result bytes :=
  if negb (enable self) then Ok data
  else AES_encrypt P (mode self) (key self) (iv self) data.

Definition decrypt (self : t) (data : bytes) : result bytes :=
  if negb (enable self) then Ok data
  else AES_decrypt P (mode self) (key self) (iv self) data.

Definition get_key_iv_from_cc (cc : CountryCode.t) : string * string :=
  match cc with
  | CountryCode.JP =>
      ("d754868de89d717fa9e7b06da45ae9e3", "40b2131a9f388ad4e5002a98118f6128")
  | CountryCode.EN =>
      ("0ad39e4aeaf55aa717feb1825edef521", "d1d7e708091941d90cdf8aa5f30bb0c2")
  | CountryCode.KR =>
      ("bea585eb993216ef4dcb88b625c3df98", "9b13c2121d39f1353a125fed98696649")
  | CountryCode.TW =>
      ("313d9858a7fb939def1d7d859629087d", "0e3743eb53bf5944d1ae7e10c2e54bdf")
  end.

(** The key of the legacy cipher: the first 8 bytes of md5("battlecats") as
    a hexadecimal string, encoded as UTF-8. *)
Definition server_key : bytes :=
  Data.of_str
    (Data.to_hex (Hash.get_hash P (Data.of_str "battlecats") (Some 8%nat))).

Definition get_cipher_from_pack (cc : CountryCode.t) (pack_name : string)
    (gv : GameVersion.t) (force_server : bool) (key iv : option string)
  : result t :=
  let aes_mode := MODE_CBC in
  let '(key_, iv_) := get_key_iv_from_cc cc in
  let key := match key with None => key_ | Some k => k end in
  let iv := match iv with None => iv_ | Some v => v end in
  let enable := negb (is_image_data_local_pack pack_name) in
  let enable := if force_server then true else enable in
  if is_server_pack pack_name
     || GameVersion.ltb gv GameVersion.v8_9_0
     || force_server
  then
    let aes_mode := MODE_ECB in
    Ok (init server_key None (Some aes_mode) enable)
  else
    kb ← bytes_fromhex P key;
    ivb ← bytes_fromhex P iv;
    Ok (init kb (Some ivb) (Some aes_mode) enable).

End WithPrimitives.

End AesCipher.

(** ** Insertion-ordered dictionaries with string keys

    [PackFile.files] and [GamePacks.packs] are iterated in insertion order,
    so they are association lists; a key occurs at most once. *)

Module Dict.

Definition t (V : Type) : Type := list (string * V).

(** [d.get(k)] *)
Fixpoint get {V : Type} (d : t V) (k : string) : option V :=
  match d with
  | [] => None
  | (k', v) :: d' => if String.eqb k' k then Some v else get d' k
  end.

(** [d[k] = v]: an existing key keeps its place, a new one goes last. *)
Fixpoint set {V : Type} (d : t V) (k : string) (v : V) : t V :=
  match d with
  | [] => [(k, v)]
  | (k', v') :: d' =>
      if String.eqb k' k then (k', v) :: d' else (k', v') :: set d' k v
  end.

Definition keys {V : Type} (d : t V) : list string := map fst d.
Definition values {V : Type} (d : t V) : list V := map snd d.

End Dict.

(** ** [GameFile] *)

Module GameFile.

Record t : Type := mk {
  enc_data : option bytes;
  file_name : string;
  pack_name : string;
  cc : CountryCode.t;
  gv : GameVersion.t;
  key : option string;
  iv : option string;
  (** the private [__dec_data]: the cached plaintext *)
  dec_data_ : option bytes;
  original_dec_data : option bytes
}.

#[global] Instance eq_dec : EqDecision t.
Proof. solve_decision. Defined.

(** [GameFile.__init__]: [original_dec_data] starts as [None]. *)
Definition init (enc_data : option bytes) (file_name pack_name : string)
    (cc : CountryCode.t) (gv : GameVersion.t) (key iv : option string)
    (dec_data : option bytes) : t :=
  mk enc_data file_name pack_name cc gv key iv dec_data None.

Definition with_dec_data (self : t) (d : option bytes) : t :=
  mk (enc_data self) (file_name self) (pack_name self) (cc self) (gv self)
     (key self) (iv self) d (original_dec_data self).

(** The [dec_data] setter. *)
Definition set_dec_data (self : t) (data : bytes) : t :=
  with_dec_data self (Some data).

Section WithPrimitives.
Context (P : Primitives).

(** The [dec_data] property: the cached plaintext, or else the decrypted
    [enc_data], which is then cached. Returns the plaintext and the file
    as the read leaves it. *)
Definition dec_data (self : t) : result (bytes * t) :=
  match dec_data_ self with
  | Some d => Ok (d, self)
  | None =>
      cipher ← AesCipher.get_cipher_from_pack P (cc self) (pack_name self)
                 (gv self) false (key self) (iv self);
      match enc_data self with
      | None => Raise ValueError
      | Some enc =>
          data ← AesCipher.decrypt P cipher enc;
          let data :=
            match Data.unpad_pkcs7 data with
            | Ok d => d
            | Raise _ => data
            end in
          Ok (data, with_dec_data self (Some data))
      end
  end.

(** [__dec_data == original_dec_data], where either may be [None]. *)
Definition unmodified (self : t) : bool :=
  match dec_data_ self with
  | None => true
  | Some d => Data.eqb_opt d (original_dec_data self)
  end.

(** [encrypt]: the original ciphertext when there is one and the file
    counts as unmodified or its pack is stored in the clear; otherwise the
    padded plaintext under the pack's cipher. *)
Definition encrypt (self : t) (force_server : bool) (key iv : option string)
  : result bytes :=
  let reencrypt :=
    match dec_data_ self with
    | None => Raise ValueError
    | Some d =>
        cipher ← AesCipher.get_cipher_from_pack P (cc self) (pack_name self)
                   (gv self) force_server key iv;
        AesCipher.encrypt P cipher (Data.pad_pkcs7 d)
    end in
  match enc_data self with
  | Some enc =>
      if unmodified self then Ok enc
      else if is_image_data_local_pack (pack_name self) && negb force_server
      then Ok enc
      else reencrypt
  | None => reencrypt
  end.

End WithPrimitives.

(** [GameFile.is_anim] *)
Definition is_anim (file_name : string) : bool :=
  existsb (fun ext => Str.endswith file_name ext)
          [".maanim"; ".mamodel"; ".imgcut"].

End GameFile.

(** ** [PackFile] *)

Module PackFile.

Record t : Type := mk {
  pack_name : string;
  country_code : CountryCode.t;
  gv : GameVersion.t;
  files : Dict.t GameFile.t;
  modified : bool
}.

#[global] Instance eq_dec : EqDecision t.
Proof. solve_decision. Defined.

(** [PackFile.__init__]: no files, not modified. *)
Definition init (pack_name : string) (country_code : CountryCode.t)
    (gv : GameVersion.t) : t :=
  mk pack_name country_code gv [] false.

Definition set_files (self : t) (files : Dict.t GameFile.t) : t :=
  mk (pack_name self) (country_code self) (gv self) files (modified self).

Definition add_file (self : t) (file : GameFile.t) : t :=
  set_files self (Dict.set (files self) (GameFile.file_name file) file).

Definition set_modified (self : t) (modified : bool) : t :=
  mk (pack_name self) (country_code self) (gv self) (files self) modified.

(** [set_file]: the file of that name gets the new plaintext, or a new
    file holding it is added. Returns the file and the pack. *)
Definition set_file (self : t) (file_name : string) (file_data : bytes)
  : GameFile.t * t :=
  match Dict.get (files self) file_name with
  | None =>
      let file :=
        GameFile.init None file_name (pack_name self) (country_code self)
                      (gv self) None None (Some file_data) in
      (file, add_file self file)
  | Some file =>
      let file := GameFile.set_dec_data file file_data in
      (file, set_files self (Dict.set (files self) file_name file))
  end.

(** [convert_pack_name_server_local]. The first [for] stops at the first
    listed pack occurring in the name and yields that pack with "Server"
    replaced; the second stops at the first language whose tag occurs.
    Modelled from the spec for [Languages.get_all()]: the tags are an
    underscore and a language code. *)
Definition server_packs : list string :=
  ["MapServer"; "NumberServer"; "UnitServer"; "ImageServer"; "ImageDataServer"].

Definition convert_pack_name_server_local (pack_name : string) : string :=
  let file_name := pack_name in
  let file_name :=
    match find (fun pack => Str.contains pack file_name) server_packs with
    | Some pack => Str.replace pack "Server" "Local"
    | None => file_name
    end in
  match find (fun lang => Str.contains ("_" +:+ lang) file_name)
             Languages.get_all_strings with
  | Some lang => Str.replace file_name ("_" +:+ lang) ""
  | None => file_name
  end.

Section WithPrimitives.
Context (P : Primitives).

(** The key of the list cipher that [to_pack_list_file] uses. *)
Definition list_key : bytes :=
  Data.of_str (Data.to_hex (Hash.get_hash P (Data.of_str "pack") (Some 8%nat))).

(** The loop of [to_pack_list_file] over the files still to be written:
    [lines] and [pack_data_ls] are the lists built so far, [offset] the
    running sum of the ciphertext lengths. *)
Fixpoint to_pack_list_file_loop (fs : list GameFile.t) (key iv : option string)
    (lines : list (list string)) (offset : nat) (pack_data_ls : list bytes)
  : result (list (list string) * list bytes) :=
  match fs with
  | [] => Ok (lines, pack_data_ls)
  | file :: fs' =>
      data ← GameFile.encrypt P file false key iv;
      to_pack_list_file_loop fs' key iv
        (lines ++ [[GameFile.file_name file; Str.of_nat offset;
                    Str.of_nat (length data)]])
        (offset + length data)%nat
        (pack_data_ls ++ [data])
  end.

Definition to_pack_list_file (self : t) (key iv : option string)
  : result (string * bytes * bytes) :=
  let lines := [[Str.of_nat (length (files self))]] in
  '(lines, pack_data_ls) ←
     to_pack_list_file_loop (Dict.values (files self)) key iv lines 0%nat [];
  let pack_data := Data.from_many pack_data_ls in
  let ls_data := Data.pad_pkcs7 (CSV_to_data P lines) in
  ls_data ← AesCipher.encrypt P (AesCipher.init list_key None None true) ls_data;
  Ok (pack_name self, pack_data, ls_data).

End WithPrimitives.

End PackFile.

(** ** [GamePacks]: the catalog *)

Module GamePacks.

(** The catalog. Its [csv_cache] and [localizable], which none of the
    methods below reads or writes, are left out. *)
Record t : Type := mk {
  packs : Dict.t PackFile.t;
  country_code : CountryCode.t;
  gv : GameVersion.t;
  modified_packs : gmap string bool
}.

Definition set_packs (self : t) (packs : Dict.t PackFile.t) : t :=
  mk packs (country_code self) (gv self) (modified_packs self).

(** [get_pack] *)
Definition get_pack (self : t) (pack_name : string) : option PackFile.t :=
  Dict.get (packs self) pack_name.

(** [to_java_name] *)
Definition to_java_name (name : string) : string := Str.lower name +:+ "1".

(** The test of [find_file] on a pack name: its second piece between
    underscores is a language code. *)
Definition language_suffixed (pack_name : string) : bool :=
  let split_pack_name := Str.split "_" pack_name in
  if (1 <? length split_pack_name)%nat then
    match split_pack_name !! 1%nat with
    | Some x => Languages.mem x
    | None => false
    end
  else false.

(** The first loop of [find_file]: the files of that name, each with the
    key of its pack, in pack order, language-suffixed packs left out. *)
Fixpoint found_files (packs : Dict.t PackFile.t) (file_name : string)
  : list (string * GameFile.t) :=
  match packs with
  | [] => []
  | (pack_name, pack) :: rest =>
      match Dict.get (PackFile.files pack) file_name with
      | None => found_files rest file_name
      | Some file =>
          if language_suffixed pack_name then found_files rest file_name
          else (pack_name, file) :: found_files rest file_name
      end
  end.

(** A file object belongs to the pack that holds it: writing back the file
    found under [file_name] in the pack under [pack_key] (after a read of
    [dec_data] cached its plaintext) updates that pack. *)
Definition store_file (self : t) (pack_key file_name : string)
    (file : GameFile.t) : t :=
  match Dict.get (packs self) pack_key with
  | None => self
  | Some pack =>
      set_packs self
        (Dict.set (packs self) pack_key
           (PackFile.set_files pack
              (Dict.set (PackFile.files pack) file_name file)))
  end.

(** The file bound to [file_name] in the pack under [pack_key]. *)
Definition file_at (self : t) (pack_key file_name : string)
  : option GameFile.t :=
  match get_pack self pack_key with
  | Some pack => Dict.get (PackFile.files pack) file_name
  | None => None
  end.

(** The keys of the packs whose file of that name [find_file] reads: both
    candidates when they are two server files, whose plaintext lengths are
    compared, and none otherwise. *)
Definition compared (self : t) (file_name : string) : list string :=
  match found_files (packs self) file_name with
  | [(k0, f0); (k1, f1)] =>
      if is_server_pack (GameFile.pack_name f0)
         && is_server_pack (GameFile.pack_name f1)
      then [k0; k1]
      else []
  | _ => []
  end.

Section WithPrimitives.
Context (P : Primitives).

(** [get_pack_gv] *)
Definition get_pack_gv (self : t) (pack_name : string) : option PackFile.t :=
  let pack_name :=
    if negb (Str.endswith pack_name "1") then
      if is_java P (gv self) then to_java_name pack_name else pack_name
    else pack_name in
  get_pack self pack_name.

(** [find_file]: the file found, with the key of its pack, and the catalog
    as the lookup leaves it (comparing the plaintext lengths of two server
    files reads, and so caches, the plaintext of both). [show_error] only
    prints. *)
Definition find_file (self : t) (file_name : string)
  : result (option (string * GameFile.t) * t) :=
  match found_files (packs self) file_name with
  | [] => Ok (None, self)
  | [f0] => Ok (Some f0, self)
  | [(k0, f0); (k1, f1)] =>
      if negb (is_server_pack (GameFile.pack_name f0)) then
        Ok (Some (k0, f0), self)
      else if negb (is_server_pack (GameFile.pack_name f1)) then
        Ok (Some (k1, f1), self)
      else
        '(d0, f0) ← GameFile.dec_data P f0;
        '(d1, f1) ← GameFile.dec_data P f1;
        let self :=
          store_file (store_file self k0 file_name f0) k1 file_name f1 in
        if (length d1 <? length d0)%nat then Ok (Some (k0, f0), self)
        else if (length d0 <? length d1)%nat then Ok (Some (k1, f1), self)
        else Ok (Some (k0, f0), self)
  | _ => Ok (None, self)
  end.

(** [should_reencrypt] of [to_packs_lists] *)
Definition should_reencrypt (self : t) (key iv : option string) : bool :=
  (bool_decide (key ≠ None) || bool_decide (iv ≠ None))
  && GameVersion.geb (gv self) GameVersion.v8_9_0.

(** The loop of [to_packs_lists] over the packs still to be visited. *)
Fixpoint to_packs_lists_loop (self : t) (key iv : option string)
    (ps : Dict.t PackFile.t) (packs_lists : list (string * bytes * bytes))
  : result (list (string * bytes * bytes)) :=
  match ps with
  | [] => Ok packs_lists
  | (pack_name, pack) :: rest =>
      if bool_decide (is_Some (modified_packs self !! pack_name))
         || PackFile.modified pack
         || should_reencrypt self key iv
      then
        if is_server_pack pack_name
        then to_packs_lists_loop self key iv rest packs_lists
        else
          entry ← PackFile.to_pack_list_file P pack key iv;
          to_packs_lists_loop self key iv rest (packs_lists ++ [entry])
      else to_packs_lists_loop self key iv rest packs_lists
  end.

Definition to_packs_lists (self : t) (key iv : option string)
  : result (list (string * bytes * bytes)) :=
  to_packs_lists_loop self key iv (packs self) [].

(** A pack is marked dirty: its name is a key of [modified_packs], or its
    [modified] flag is set. *)
Definition dirty (self : t) (pack_name : string) (pack : PackFile.t) : bool :=
  bool_decide (is_Some (modified_packs self !! pack_name))
  || PackFile.modified pack.

(** [set_file]. Returns the file written (or found unchanged) and the
    catalog after the call. *)
Definition set_file (self : t) (file_name : string) (data : bytes)
  : result (GameFile.t * t) :=
  if bool_decide (Str.strip file_name = "") then Raise FileNotFoundError
  else
    '(found, self) ← find_file self file_name;
    let continue_ (self : t) (file : GameFile.t) : result (GameFile.t * t) :=
      let new_pack_name :=
        PackFile.convert_pack_name_server_local (GameFile.pack_name file) in
      let pack_key :=
        if negb (Str.endswith new_pack_name "1") then
          if is_java P (gv self) then to_java_name new_pack_name
          else new_pack_name
        else new_pack_name in
      match get_pack_gv self new_pack_name with
      | None => Raise FileNotFoundError
      | Some pack =>
          let '(file, pack) := PackFile.set_file pack file_name data in
          Ok (file,
              mk (Dict.set (packs self) pack_key pack) (country_code self)
                 (gv self)
                 (<[GameFile.pack_name file := true]> (modified_packs self)))
      end in
    match found with
    | None =>
        let pack :=
          if GameFile.is_anim file_name then get_pack_gv self "ImageDataLocal"
          else if Str.endswith file_name ".png"
          then get_pack_gv self "ImageLocal"
          else get_pack_gv self "DataLocal" in
        match pack with
        | None => Raise FileNotFoundError
        | Some pack =>
            let file :=
              GameFile.init None file_name (PackFile.pack_name pack)
                            (country_code self) (gv self) None None (Some data) in
            continue_ self file
        end
    | Some (k, file) =>
        '(d, file) ← GameFile.dec_data P file;
        let self := store_file self k file_name file in
        if Data.eqb d data then Ok (file, self)
        else continue_ self file
    end.

End WithPrimitives.

End GamePacks.

(** ** The layout of a list file *)

Module Layout.

(** The lines of a list file for the files [fs] with ciphertexts [cs], the
    first at offset [offset]: name, offset and length of each. *)
Fixpoint rows (fs : list GameFile.t) (cs : list bytes) (offset : nat)
  : list (list string) :=
  match fs, cs with
  | f :: fs', c :: cs' =>
      [GameFile.file_name f; Str.of_nat offset; Str.of_nat (length c)]
      :: rows fs' cs' (offset + length c)
  | _, _ => []
  end.

End Layout.

(** ** What a call may change in a catalog

    Reading [dec_data] fills the plaintext cache of a file; the relations
    below say that a file, a pack or a catalog is as before up to such
    fills. *)

Module Frame.

Definition cache_filled (P : Primitives) (f f' : GameFile.t) : Prop :=
  f' = f
  \/ (GameFile.dec_data_ f = None
      /\ exists d, GameFile.dec_data P f = Ok (d, f')).

Definition same_pack_but_cache (P : Primitives) (p p' : PackFile.t) : Prop :=
  PackFile.pack_name p' = PackFile.pack_name p
  /\ PackFile.country_code p' = PackFile.country_code p
  /\ PackFile.gv p' = PackFile.gv p
  /\ PackFile.modified p' = PackFile.modified p
  /\ Forall2 (fun kf kf' => kf'.1 = kf.1 /\ cache_filled P kf.2 kf'.2)
             (PackFile.files p) (PackFile.files p').

Definition same_but_cache (P : Primitives) (s s' : GamePacks.t) : Prop :=
  GamePacks.country_code s' = GamePacks.country_code s
  /\ GamePacks.gv s' = GamePacks.gv s
  /\ GamePacks.modified_packs s' = GamePacks.modified_packs s
  /\ Forall2 (fun kp kp' => kp'.1 = kp.1 /\ same_pack_but_cache P kp.2 kp'.2)
             (GamePacks.packs s) (GamePacks.packs s').

(** Every file of the catalog has its plaintext in memory. *)
Definition all_cached (s : GamePacks.t) : Prop :=
  Forall (fun kp =>
            Forall (fun kf => GameFile.dec_data_ kf.2 <> None)
                   (PackFile.files kp.2))
         (GamePacks.packs s).

End Frame.

(** ** Sample inputs

    A stand-in for the library primitives and a few small catalogs, to run
    the code on concrete inputs. *)

Module Sample.

Definition flip (b : byte) : byte :=
  default x00 (Byte.of_nat (255 - Byte.to_nat b)).

(** In place of AES: an involution on bytes that, like AES in ECB and CBC
    mode, takes whole blocks of 16 bytes only and preserves the length. *)
Definition block_cipher (mode : AesMode) (key : bytes) (iv : option bytes)
    (data : bytes) : result bytes :=
  if (length data mod 16 =? 0)%nat then Ok (map flip data)
  else Raise ValueError.

Definition hex_value (c : ascii) : option nat :=
  let n := nat_of_ascii c in
  if (48 <=? n)%nat && (n <=? 57)%nat then Some (n - 48)%nat
  else if (97 <=? n)%nat && (n <=? 102)%nat then Some (n - 87)%nat
  else if (65 <=? n)%nat && (n <=? 70)%nat then Some (n - 55)%nat
  else None.

Fixpoint fromhex_chars (l : list ascii) : result bytes :=
  match l with
  | [] => Ok []
  | a :: b :: l' =>
      match hex_value a, hex_value b with
      | Some h, Some lo =>
          rest ← fromhex_chars l';
          Ok (default x00 (Byte.of_nat (16 * h + lo)) :: rest)
      | _, _ => Raise ValueError
      end
  | _ => Raise ValueError
  end.

Definition primitives : Primitives := {|
  AES_encrypt := block_cipher;
  AES_decrypt := block_cipher;
  md5_digest := fun d => take 16 (d ++ repeat x00 16);
  bytes_fromhex := fun s => fromhex_chars (Str.chars s);
  CSV_to_data := fun lines =>
    Data.of_str (String.concat (String "010" "")
                   (map (String.concat ",") lines));
  is_java := fun v => GameVersion.ltb v (GameVersion.mk 7 0 0)
|}.

Definition gv : GameVersion.t := GameVersion.mk 12 0 0.

(** A file written by a mod: plaintext only. *)
Definition plain_file (file_name pack_name : string) (data : bytes)
  : GameFile.t :=
  GameFile.init None file_name pack_name CountryCode.EN gv None None
    (Some data).

(** A file as loaded from a pack: ciphertext only. *)
Definition loaded_file (file_name pack_name : string) (enc : bytes)
  : GameFile.t :=
  GameFile.init (Some enc) file_name pack_name CountryCode.EN gv None None None.

Definition pack (pack_name : string) (files : list GameFile.t)
  : string * PackFile.t :=
  (pack_name,
   PackFile.mk pack_name CountryCode.EN gv
     (map (fun f => (GameFile.file_name f, f)) files) false).

Definition catalog (packs : Dict.t PackFile.t) : GamePacks.t :=
  GamePacks.mk packs CountryCode.EN gv ∅.

(** Two Local packs with a file of the same name, the second one longer. *)
Definition short_file : GameFile.t := plain_file "foo.csv" "DataLocal" [x01].
Definition long_file : GameFile.t := plain_file "foo.csv" "NumberLocal" [x01; x02].
Definition two_local : GamePacks.t :=
  catalog [pack "DataLocal" [short_file]; pack "NumberLocal" [long_file]].

(** A plain pack and two language packs of an English catalog with a file
    of the same name. *)
Definition plain_copy : GameFile.t := plain_file "foo.csv" "DataLocal" [x01].
Definition fr_copy : GameFile.t := plain_file "foo.csv" "DataLocal_fr" [x02].
Definition en_copy : GameFile.t := plain_file "foo.csv" "DataLocal_en" [x03].
Definition three_languages : GamePacks.t :=
  catalog [pack "DataLocal" [plain_copy]; pack "DataLocal_fr" [fr_copy];
           pack "DataLocal_en" [en_copy]].

(** A pack with a file whose name is a single space. *)
Definition blank_file : GameFile.t := plain_file " " "DataLocal" [x01].
Definition blank_name : GamePacks.t := catalog [pack "DataLocal" [blank_file]].

(** A file loaded from a pack whose plaintext does not end in PKCS#7
    padding: under the stand-in cipher, sixteen bytes 0xff decrypt to
    sixteen bytes 0x00. *)
Definition unpadded_enc : bytes := repeat xff 16.
Definition unpadded_file : GameFile.t :=
  loaded_file "bar.csv" "DataLocal" unpadded_enc.
Definition one_loaded : GamePacks.t := catalog [pack "DataLocal" [unpadded_file]].

(** The catalog of the two Local packs with the second marked dirty. *)
Definition two_local_dirty : GamePacks.t :=
  GamePacks.mk (GamePacks.packs two_local) CountryCode.EN gv
    {["NumberLocal" := true]}.

(** A new key and iv for rewriting a pack. *)
Definition new_key : string := "000102030405060708090a0b0c0d0e0f".
Definition new_iv : string := "0f0e0d0c0b0a09080706050403020100".

End Sample.

(** ** [Map] and [Maps] ([tbcml/core/game_data/map/map.py]) *)

Module Maps.

(** [a == b] for two dictionaries with integer keys: the same keys, bound
    to equal values. *)
Definition dict_eqb {V : Type} (eqb : V -> V -> bool) (a b : gmap Z V) : bool :=
  bool_decide (dom a = dom b)
  && forallb (fun kv => match b !! kv.1 with
                        | Some v' => eqb kv.2 v'
                        | None => false
                        end) (map_to_list a).

Section WithComponents.

(** The components of a map and their [__eq__]; the import treats them as
    opaque values. [GameData] is the catalog type and [from_game_data] is
    [Maps.from_game_data], which reads the base maps from it. *)
Context {MapOption MapStageData Stage MapNameImage StageOptionSet : Type}.
Context (MapOption_eqb : MapOption -> MapOption -> bool)
        (MapStageData_eqb : MapStageData -> MapStageData -> bool)
        (Stage_eqb : Stage -> Stage -> bool)
        (MapNameImage_eqb : MapNameImage -> MapNameImage -> bool).

Record Map : Type := mkMap {
  stage_id : Z;
  map_option : MapOption;
  map_stage_data : MapStageData;
  stages : gmap Z Stage;
  map_name_image : MapNameImage;
  restriction : option StageOptionSet
}.

(** [Map.__eq__]: every attribute but [restriction]. *)
Definition Map_eqb (self other : Map) : bool :=
  (stage_id self =? stage_id other)
  && MapOption_eqb (map_option self) (map_option other)
  && MapStageData_eqb (map_stage_data self) (map_stage_data other)
  && dict_eqb Stage_eqb (stages self) (stages other)
  && MapNameImage_eqb (map_name_image self) (map_name_image other).

(** [Map.__ne__] *)
Definition Map_neb (self other : Map) : bool := negb (Map_eqb self other).

Record t : Type := mk { maps : gmap Z Map }.

(** [Maps.get] *)
Definition get (self : t) (stage_id : Z) : option Map := maps self !! stage_id.

(** The body of the [for id in all_keys] loop of [import_maps], on the
    dictionary [self.maps]. *)
Definition import_step (gd_maps other : t) (self_maps : gmap Z Map) (id : Z)
  : gmap Z Map :=
  let gd_map := get gd_maps id in
  let other_map := get other id in
  match other_map with
  | None => self_maps
  | Some other_map =>
      match gd_map with
      | Some gd_map =>
          if Map_neb gd_map other_map then <[id := other_map]> self_maps
          else self_maps
      | None => <[id := other_map]> self_maps
      end
  end.

(** [import_maps] once [gd_maps = Maps.from_game_data(game_data)] has been
    read: the loop over the union of the three key sets. *)
Definition import_maps_from (self other gd_maps : t) : t :=
  let all_keys : gset Z :=
    dom (maps gd_maps) ∪ dom (maps other) ∪ dom (maps self) in
  mk (fold_left (import_step gd_maps other) (elements all_keys) (maps self)).

(** What the claim about the import says is left under one id, given what
    was there: the mod's map when it exists and the base has none or a
    different one, and otherwise what was there. *)
Definition merged (gd_maps other : t) (id : Z) (current : option Map)
  : option Map :=
  match maps other !! id with
  | Some m =>
      match maps gd_maps !! id with
      | Some b => if Map_neb b m then Some m else current
      | None => Some m
      end
  | None => current
  end.

Context {GameData : Type} (from_game_data : GameData -> t).

Definition import_maps (self other : t) (game_data : GameData) : t :=
  import_maps_from self other (from_game_data game_data).

End WithComponents.

End Maps.

(** A base map and a mod's map that differ in their restriction only, with
    one-valued stand-ins for the component classes and a number for the
    restriction. *)
Module MapsSample.

Definition same (_ _ : unit) : bool := true.

Definition base_map : @Maps.Map unit unit unit unit Z :=
  Maps.mkMap 0 tt tt ∅ tt None.

Definition restricted_map : @Maps.Map unit unit unit unit Z :=
  Maps.mkMap 0 tt tt ∅ tt (Some 7).

Definition base : @Maps.t unit unit unit unit Z := Maps.mk {[0 := base_map]}.

Definition mod_maps : @Maps.t unit unit unit unit Z :=
  Maps.mk {[0 := restricted_map]}.

Definition empty : @Maps.t unit unit unit unit Z := Maps.mk ∅.

End MapsSample.

(** ** Unit value classes ([bcml/core/game_data/cat_base/unit.py]) *)

(** Modelled from the spec: [unit.py] is not under src/. The spec fixes
    the slot map that reader and writer of [Stats] mirror; the classes here
    are the wrappers that slot map goes through, with the attributes that
    [cats.py] reads and the constructors it calls: each [from_values] and
    [from_raw] stores its arguments, a probability as a [Prob] and a
    duration as [Frames]. [Frames] counts frames and converts to and from
    pairs of frames ("real value is 2x what is stored"). *)
Module Unit.

Module Frames.
Record t : Type := mk { frames : Z }.
Definition pair_frames (self : t) : Z := frames self / 2.
Definition from_pair_frames (pair_frames : Z) : t := mk (pair_frames * 2).
End Frames.

Module Speed.
Record t : Type := mk { raw : Z }.
Definition from_raw (raw : Z) : t := mk raw.
End Speed.

Module Range.
Record t : Type := mk { raw : Z }.
Definition from_raw (raw : Z) : t := mk raw.
End Range.

Module Prob.
Record t : Type := mk { percent : Z }.
End Prob.

Module ZLayers.
Record t : Type := mk { min : Z; max : Z }.
Definition from_values (min max : Z) : t := mk min max.
End ZLayers.

Module Knockback.
Record t : Type := mk { prob : Prob.t }.
Definition from_values (prob : Z) : t := mk (Prob.mk prob).
End Knockback.

Module Freeze.
Record t : Type := mk { prob : Prob.t; time : Frames.t }.
Definition from_values (prob time : Z) : t := mk (Prob.mk prob) (Frames.mk time).
End Freeze.

Module Slow.
Record t : Type := mk { prob : Prob.t; time : Frames.t }.
Definition from_values (prob time : Z) : t := mk (Prob.mk prob) (Frames.mk time).
End Slow.

Module Crit.
Record t : Type := mk { prob : Prob.t }.
Definition from_values (prob : Z) : t := mk (Prob.mk prob).
End Crit.

Module Wave.
Record t : Type := mk { prob : Prob.t; level : Z; is_mini : bool }.
Definition from_values (prob level : Z) (is_mini : bool) : t :=
  mk (Prob.mk prob) level is_mini.
End Wave.

Module Weaken.
Record t : Type := mk { prob : Prob.t; time : Frames.t; multiplier : Z }.
Definition from_values (prob time multiplier : Z) : t :=
  mk (Prob.mk prob) (Frames.mk time) multiplier.
End Weaken.

Module Strengthen.
Record t : Type := mk { hp_percent : Z; multiplier_percent : Z }.
Definition from_values (hp_percent multiplier_percent : Z) : t :=
  mk hp_percent multiplier_percent.
End Strengthen.

Module LethalStrike.
Record t : Type := mk { prob : Prob.t }.
Definition from_values (prob : Z) : t := mk (Prob.mk prob).
End LethalStrike.

Module AttackState.
Record t : Type := mk { attacks_before : Z; state_id : Z }.
Definition from_values (attacks_before state_id : Z) : t :=
  mk attacks_before state_id.
End AttackState.

Module Attack.
Record t : Type := mk {
  damage : Z;
  foreswing : Frames.t;
  use_ability : bool;
  long_distance_flag : bool;
  long_distance_start : Range.t;
  long_distance_range : Range.t
}.
Definition from_values (damage foreswing : Z)
    (use_ability long_distance_flag : bool)
    (long_distance_start long_distance_range : Z) : t :=
  mk damage (Frames.mk foreswing) use_ability long_distance_flag
     (Range.from_raw long_distance_start) (Range.from_raw long_distance_range).
End Attack.

Module SpawnAnim.
Record t : Type := mk { model_id : Z; has_entry_maanim : bool }.
Definition from_values (model_id : Z) (has_entry_maanim : bool) : t :=
  mk model_id has_entry_maanim.
End SpawnAnim.

Module SoulAnim.
Record t : Type := mk { model_id : Z; has_death_maanim : bool }.
Definition from_values (model_id : Z) (has_death_maanim : bool) : t :=
  mk model_id has_death_maanim.
End SoulAnim.

Module BarrierBreak.
Record t : Type := mk { prob : Prob.t }.
Definition from_values (prob : Z) : t := mk (Prob.mk prob).
End BarrierBreak.

Module Warp.
Record t : Type := mk {
  prob : Prob.t; time : Frames.t; min_distance : Z; max_distance : Z
}.
Definition from_values (prob time min_distance max_distance : Z) : t :=
  mk (Prob.mk prob) (Frames.mk time) min_distance max_distance.
End Warp.

Module SavageBlow.
Record t : Type := mk { prob : Prob.t; multiplier : Z }.
Definition from_values (prob multiplier : Z) : t := mk (Prob.mk prob) multiplier.
End SavageBlow.

Module Dodge.
Record t : Type := mk { prob : Prob.t; time : Frames.t }.
Definition from_values (prob time : Z) : t := mk (Prob.mk prob) (Frames.mk time).
End Dodge.

Module Surge.
Record t : Type := mk {
  prob : Prob.t; start : Range.t; range : Range.t; level : Z
}.
Definition from_values (prob start range level : Z) : t :=
  mk (Prob.mk prob) (Range.from_raw start) (Range.from_raw range) level.
End Surge.

Module Curse.
Record t : Type := mk { prob : Prob.t; time : Frames.t }.
Definition from_values (prob time : Z) : t := mk (Prob.mk prob) (Frames.mk time).
End Curse.

Module ShieldPierce.
Record t : Type := mk { prob : Prob.t }.
Definition from_values (prob : Z) : t := mk (Prob.mk prob).
End ShieldPierce.

Module BehemothDodge.
Record t : Type := mk { prob : Prob.t; time : Frames.t }.
Definition from_values (prob time : Z) : t := mk (Prob.mk prob) (Frames.mk time).
End BehemothDodge.

Module EvolveItems.
(** Modelled from the spec: a [UnitBuy] row has 63 slots and [cats.py]
    names those up to 27 and from 48 on, so the evolve items are the
    slots 28..47: ten pairs of an item id and an amount, written back in
    the same order. *)
Record item : Type := mk_item { item_id : Z; amount : Z }.
Record t : Type := mk { evolve_items : list item }.

Fixpoint pairs (l : list Z) : list item :=
  match l with
  | a :: b :: l' => mk_item a b :: pairs l'
  | _ => []
  end.

Definition from_unit_buy_list (raw_data : list Z) : t :=
  mk (pairs (take 20 (drop 28 raw_data))).

Definition to_list (self : t) : list Z :=
  flat_map (fun it => [item_id it; amount it]) (evolve_items self).
End EvolveItems.

End Unit.

(** [bool(x)] and [int(b)] on integers. *)
Definition py_bool (x : Z) : bool := negb (x =? 0).
Definition py_int (b : bool) : Z := if b then 1 else 0.

(** ** Cats ([bcml/core/game_data/cat_base/cats.py]) *)

Module FormType.

Inductive t : Type := FIRST | SECOND | THIRD | FOURTH.

Definition get_index (self : t) : Z :=
  match self with
  | FIRST => 0
  | SECOND => 1
  | THIRD => 2
  | FOURTH => 3
  end.

(** [FormType.from_index]: raises [ValueError] outside 0..3. *)
Definition from_index (index : Z) : result t :=
  if index =? 0 then Ok FIRST
  else if index =? 1 then Ok SECOND
  else if index =? 2 then Ok THIRD
  else if index =? 3 then Ok FOURTH
  else Raise ValueError.

End FormType.

Module Stats.

Record t : Type := mk {
  cat_id : Z;
  form : FormType.t;
  hp : Z;
  kbs : Z;
  speed : Unit.Speed.t;
  attack_interval : Unit.Frames.t;
  range : Unit.Range.t;
  cost : Z;
  recharge_time : Unit.Frames.t;
  collision_start : Z;
  collision_width : Unit.Range.t;
  target_red : bool;
  unused : Z;
  area_attack : bool;
  z_layers : Unit.ZLayers.t;
  target_floating : bool;
  target_black : bool;
  target_metal : bool;
  target_traitless : bool;
  target_angel : bool;
  target_alien : bool;
  target_zombie : bool;
  strong : bool;
  knockback : Unit.Knockback.t;
  freeze : Unit.Freeze.t;
  slow : Unit.Slow.t;
  resistant : bool;
  massive_damage : bool;
  crit : Unit.Crit.t;
  attacks_only : bool;
  extra_money : bool;
  base_destroyer : bool;
  wave : Unit.Wave.t;
  weaken : Unit.Weaken.t;
  strengthen : Unit.Strengthen.t;
  lethal_strike : Unit.LethalStrike.t;
  is_metal : bool;
  wave_immunity : bool;
  wave_blocker : bool;
  knockback_immunity : bool;
  freeze_immunity : bool;
  slow_immunity : bool;
  weaken_immunity : bool;
  zombie_killer : bool;
  witch_killer : bool;
  target_witch : bool;
  shockwave_immune : bool;
  time_before_death : Unit.Frames.t;
  attack_state : Unit.AttackState.t;
  attack_1 : Unit.Attack.t;
  attack_2 : Unit.Attack.t;
  attack_3 : Unit.Attack.t;
  spawn_anim : Unit.SpawnAnim.t;
  soul_anim : Unit.SoulAnim.t;
  barrier_breaker : Unit.BarrierBreak.t;
  warp : Unit.Warp.t;
  warp_blocker : bool;
  target_eva : bool;
  eva_killer : bool;
  target_relic : bool;
  curse_immunity : bool;
  insanely_tough : bool;
  insane_damage : bool;
  savage_blow : Unit.SavageBlow.t;
  dodge : Unit.Dodge.t;
  surge : Unit.Surge.t;
  toxic_immunity : bool;
  surge_immunity : bool;
  curse : Unit.Curse.t;
  shield_pierce : Unit.ShieldPierce.t;
  target_aku : bool;
  collossus_slayer : bool;
  soul_strike : bool;
  behemoth_slayer : bool;
  behemoth_dodge : Unit.BehemothDodge.t
}.

(** [extend]: zeros are added up to 108 entries; a longer list is kept. *)
Definition extend (raw_data : list Z) : list Z :=
  let length_ := 108%nat in
  raw_data ++ repeat 0 (length_ - length raw_data).

(** [assign], as the constructor uses it: each [raw_data[i]] is read in
    the order of the source and raises [IndexError] out of range. *)
Definition assign (cat_id : Z) (form : FormType.t) (raw_data : list Z)
  : result t :=
  x0 ← py_getitem raw_data 0;
  let hp := x0 in
  x1 ← py_getitem raw_data 1;
  let kbs := x1 in
  x2 ← py_getitem raw_data 2;
  let speed := Unit.Speed.from_raw x2 in
  x4 ← py_getitem raw_data 4;
  let attack_interval := Unit.Frames.from_pair_frames x4 in
  x5 ← py_getitem raw_data 5;
  let range := Unit.Range.from_raw x5 in
  x6 ← py_getitem raw_data 6;
  let cost := x6 in
  x7 ← py_getitem raw_data 7;
  let recharge_time := Unit.Frames.from_pair_frames x7 in
  x8 ← py_getitem raw_data 8;
  let collision_start := x8 in
  x9 ← py_getitem raw_data 9;
  let collision_width := Unit.Range.from_raw x9 in
  x10 ← py_getitem raw_data 10;
  let target_red := py_bool x10 in
  x11 ← py_getitem raw_data 11;
  let unused := x11 in
  x12 ← py_getitem raw_data 12;
  let area_attack := py_bool x12 in
  x14 ← py_getitem raw_data 14;
  x15 ← py_getitem raw_data 15;
  let z_layers := Unit.ZLayers.from_values x14 x15 in
  x16 ← py_getitem raw_data 16;
  let target_floating := py_bool x16 in
  x17 ← py_getitem raw_data 17;
  let target_black := py_bool x17 in
  x18 ← py_getitem raw_data 18;
  let target_metal := py_bool x18 in
  x19 ← py_getitem raw_data 19;
  let target_traitless := py_bool x19 in
  x20 ← py_getitem raw_data 20;
  let target_angel := py_bool x20 in
  x21 ← py_getitem raw_data 21;
  let target_alien := py_bool x21 in
  x22 ← py_getitem raw_data 22;
  let target_zombie := py_bool x22 in
  x23 ← py_getitem raw_data 23;
  let strong := py_bool x23 in
  x24 ← py_getitem raw_data 24;
  let knockback := Unit.Knockback.from_values x24 in
  x25 ← py_getitem raw_data 25;
  x26 ← py_getitem raw_data 26;
  let freeze := Unit.Freeze.from_values x25 x26 in
  x27 ← py_getitem raw_data 27;
  x28 ← py_getitem raw_data 28;
  let slow := Unit.Slow.from_values x27 x28 in
  x29 ← py_getitem raw_data 29;
  let resistant := py_bool x29 in
  x30 ← py_getitem raw_data 30;
  let massive_damage := py_bool x30 in
  x31 ← py_getitem raw_data 31;
  let crit := Unit.Crit.from_values x31 in
  x32 ← py_getitem raw_data 32;
  let attacks_only := py_bool x32 in
  x33 ← py_getitem raw_data 33;
  let extra_money := py_bool x33 in
  x34 ← py_getitem raw_data 34;
  let base_destroyer := py_bool x34 in
  x35 ← py_getitem raw_data 35;
  x36 ← py_getitem raw_data 36;
  x94 ← py_getitem raw_data 94;
  let wave := Unit.Wave.from_values x35 x36 (py_bool x94) in
  x37 ← py_getitem raw_data 37;
  x38 ← py_getitem raw_data 38;
  x39 ← py_getitem raw_data 39;
  let weaken := Unit.Weaken.from_values x37 x38 x39 in
  x40 ← py_getitem raw_data 40;
  x41 ← py_getitem raw_data 41;
  let strengthen := Unit.Strengthen.from_values x40 x41 in
  x42 ← py_getitem raw_data 42;
  let lethal_strike := Unit.LethalStrike.from_values x42 in
  x43 ← py_getitem raw_data 43;
  let is_metal := py_bool x43 in
  x46 ← py_getitem raw_data 46;
  let wave_immunity := py_bool x46 in
  x47 ← py_getitem raw_data 47;
  let wave_blocker := py_bool x47 in
  x48 ← py_getitem raw_data 48;
  let knockback_immunity := py_bool x48 in
  x49 ← py_getitem raw_data 49;
  let freeze_immunity := py_bool x49 in
  x50 ← py_getitem raw_data 50;
  let slow_immunity := py_bool x50 in
  x51 ← py_getitem raw_data 51;
  let weaken_immunity := py_bool x51 in
  x52 ← py_getitem raw_data 52;
  let zombie_killer := py_bool x52 in
  x53 ← py_getitem raw_data 53;
  let witch_killer := py_bool x53 in
  x54 ← py_getitem raw_data 54;
  let target_witch := py_bool x54 in
  x56 ← py_getitem raw_data 56;
  let shockwave_immune := py_bool x56 in
  x57 ← py_getitem raw_data 57;
  let time_before_death := Unit.Frames.mk x57 in
  x55 ← py_getitem raw_data 55;
  x58 ← py_getitem raw_data 58;
  let attack_state := Unit.AttackState.from_values x55 x58 in
  x3 ← py_getitem raw_data 3;
  x13 ← py_getitem raw_data 13;
  x63 ← py_getitem raw_data 63;
  x44 ← py_getitem raw_data 44;
  x45 ← py_getitem raw_data 45;
  let attack_1 := Unit.Attack.from_values x3 x13 (py_bool x63) true x44 x45 in
  x59 ← py_getitem raw_data 59;
  x61 ← py_getitem raw_data 61;
  x64 ← py_getitem raw_data 64;
  x99 ← py_getitem raw_data 99;
  x100 ← py_getitem raw_data 100;
  x101 ← py_getitem raw_data 101;
  let attack_2 :=
    Unit.Attack.from_values x59 x61 (py_bool x64) (py_bool x99) x100 x101 in
  x60 ← py_getitem raw_data 60;
  x62 ← py_getitem raw_data 62;
  x65 ← py_getitem raw_data 65;
  x102 ← py_getitem raw_data 102;
  x103 ← py_getitem raw_data 103;
  x104 ← py_getitem raw_data 104;
  let attack_3 :=
    Unit.Attack.from_values x60 x62 (py_bool x65) (py_bool x102) x103 x104 in
  x66 ← py_getitem raw_data 66;
  x68 ← py_getitem raw_data 68;
  let spawn_anim := Unit.SpawnAnim.from_values x66 (py_bool x68) in
  x67 ← py_getitem raw_data 67;
  x69 ← py_getitem raw_data 69;
  let soul_anim := Unit.SoulAnim.from_values x67 (py_bool x69) in
  x70 ← py_getitem raw_data 70;
  let barrier_breaker := Unit.BarrierBreak.from_values x70 in
  x71 ← py_getitem raw_data 71;
  x72 ← py_getitem raw_data 72;
  x73 ← py_getitem raw_data 73;
  x74 ← py_getitem raw_data 74;
  let warp := Unit.Warp.from_values x71 x72 x73 x74 in
  x75 ← py_getitem raw_data 75;
  let warp_blocker := py_bool x75 in
  x76 ← py_getitem raw_data 76;
  let target_eva := py_bool x76 in
  x77 ← py_getitem raw_data 77;
  let eva_killer := py_bool x77 in
  x78 ← py_getitem raw_data 78;
  let target_relic := py_bool x78 in
  x79 ← py_getitem raw_data 79;
  let curse_immunity := py_bool x79 in
  x80 ← py_getitem raw_data 80;
  let insanely_tough := py_bool x80 in
  x81 ← py_getitem raw_data 81;
  let insane_damage := py_bool x81 in
  x82 ← py_getitem raw_data 82;
  x83 ← py_getitem raw_data 83;
  let savage_blow := Unit.SavageBlow.from_values x82 x83 in
  x84 ← py_getitem raw_data 84;
  x85 ← py_getitem raw_data 85;
  let dodge := Unit.Dodge.from_values x84 x85 in
  x86 ← py_getitem raw_data 86;
  x87 ← py_getitem raw_data 87;
  x88 ← py_getitem raw_data 88;
  x89 ← py_getitem raw_data 89;
  let surge := Unit.Surge.from_values x86 x87 x88 x89 in
  x90 ← py_getitem raw_data 90;
  let toxic_immunity := py_bool x90 in
  x91 ← py_getitem raw_data 91;
  let surge_immunity := py_bool x91 in
  x92 ← py_getitem raw_data 92;
  x93 ← py_getitem raw_data 93;
  let curse := Unit.Curse.from_values x92 x93 in
  x95 ← py_getitem raw_data 95;
  let shield_pierce := Unit.ShieldPierce.from_values x95 in
  x96 ← py_getitem raw_data 96;
  let target_aku := py_bool x96 in
  x97 ← py_getitem raw_data 97;
  let collossus_slayer := py_bool x97 in
  x98 ← py_getitem raw_data 98;
  let soul_strike := py_bool x98 in
  x105 ← py_getitem raw_data 105;
  let behemoth_slayer := py_bool x105 in
  x106 ← py_getitem raw_data 106;
  x107 ← py_getitem raw_data 107;
  let behemoth_dodge := Unit.BehemothDodge.from_values x106 x107 in
  Ok (mk cat_id form
       hp kbs speed attack_interval range cost recharge_time
       collision_start collision_width target_red unused area_attack
       z_layers target_floating target_black target_metal target_traitless
       target_angel target_alien target_zombie strong knockback freeze slow
       resistant massive_damage crit attacks_only extra_money
       base_destroyer wave weaken strengthen lethal_strike is_metal
       wave_immunity wave_blocker knockback_immunity freeze_immunity
       slow_immunity weaken_immunity zombie_killer witch_killer
       target_witch shockwave_immune time_before_death attack_state
       attack_1 attack_2 attack_3 spawn_anim soul_anim barrier_breaker warp
       warp_blocker target_eva eva_killer target_relic curse_immunity
       insanely_tough insane_damage savage_blow dodge surge toxic_immunity
       surge_immunity curse shield_pierce target_aku collossus_slayer
       soul_strike behemoth_slayer behemoth_dodge).

(** [Stats.__init__] *)
Definition init (cat_id : Z) (form : FormType.t) (raw_data : list Z)
  : result t :=
  let raw_data := extend raw_data in
  assign cat_id form raw_data.

Definition to_raw_data (self : t) : list Z :=
  [
    hp self;  (* 0 *)
    kbs self;  (* 1 *)
    Unit.Speed.raw (speed self);  (* 2 *)
    Unit.Attack.damage (attack_1 self);  (* 3 *)
    Unit.Frames.pair_frames (attack_interval self);  (* 4 *)
    Unit.Range.raw (range self);  (* 5 *)
    cost self;  (* 6 *)
    Unit.Frames.pair_frames (recharge_time self);  (* 7 *)
    collision_start self;  (* 8 *)
    Unit.Range.raw (collision_width self);  (* 9 *)
    py_int (target_red self);  (* 10 *)
    unused self;  (* 11 *)
    py_int (area_attack self);  (* 12 *)
    Unit.Frames.frames (Unit.Attack.foreswing (attack_1 self));  (* 13 *)
    Unit.ZLayers.min (z_layers self);  (* 14 *)
    Unit.ZLayers.max (z_layers self);  (* 15 *)
    py_int (target_floating self);  (* 16 *)
    py_int (target_black self);  (* 17 *)
    py_int (target_metal self);  (* 18 *)
    py_int (target_traitless self);  (* 19 *)
    py_int (target_angel self);  (* 20 *)
    py_int (target_alien self);  (* 21 *)
    py_int (target_zombie self);  (* 22 *)
    py_int (strong self);  (* 23 *)
    Unit.Prob.percent (Unit.Knockback.prob (knockback self));  (* 24 *)
    Unit.Prob.percent (Unit.Freeze.prob (freeze self));  (* 25 *)
    Unit.Frames.frames (Unit.Freeze.time (freeze self));  (* 26 *)
    Unit.Prob.percent (Unit.Slow.prob (slow self));  (* 27 *)
    Unit.Frames.frames (Unit.Slow.time (slow self));  (* 28 *)
    py_int (resistant self);  (* 29 *)
    py_int (massive_damage self);  (* 30 *)
    Unit.Prob.percent (Unit.Crit.prob (crit self));  (* 31 *)
    py_int (attacks_only self);  (* 32 *)
    py_int (extra_money self);  (* 33 *)
    py_int (base_destroyer self);  (* 34 *)
    Unit.Prob.percent (Unit.Wave.prob (wave self));  (* 35 *)
    Unit.Wave.level (wave self);  (* 36 *)
    Unit.Prob.percent (Unit.Weaken.prob (weaken self));  (* 37 *)
    Unit.Frames.frames (Unit.Weaken.time (weaken self));  (* 38 *)
    Unit.Weaken.multiplier (weaken self);  (* 39 *)
    Unit.Strengthen.hp_percent (strengthen self);  (* 40 *)
    Unit.Strengthen.multiplier_percent (strengthen self);  (* 41 *)
    Unit.Prob.percent (Unit.LethalStrike.prob (lethal_strike self));  (* 42 *)
    py_int (is_metal self);  (* 43 *)
    Unit.Range.raw (Unit.Attack.long_distance_start (attack_1 self));  (* 44 *)
    Unit.Range.raw (Unit.Attack.long_distance_range (attack_1 self));  (* 45 *)
    py_int (wave_immunity self);  (* 46 *)
    py_int (wave_blocker self);  (* 47 *)
    py_int (knockback_immunity self);  (* 48 *)
    py_int (freeze_immunity self);  (* 49 *)
    py_int (slow_immunity self);  (* 50 *)
    py_int (weaken_immunity self);  (* 51 *)
    py_int (zombie_killer self);  (* 52 *)
    py_int (witch_killer self);  (* 53 *)
    py_int (target_witch self);  (* 54 *)
    Unit.AttackState.attacks_before (attack_state self);  (* 55 *)
    py_int (shockwave_immune self);  (* 56 *)
    Unit.Frames.frames (time_before_death self);  (* 57 *)
    Unit.AttackState.state_id (attack_state self);  (* 58 *)
    Unit.Attack.damage (attack_2 self);  (* 59 *)
    Unit.Attack.damage (attack_3 self);  (* 60 *)
    Unit.Frames.frames (Unit.Attack.foreswing (attack_2 self));  (* 61 *)
    Unit.Frames.frames (Unit.Attack.foreswing (attack_3 self));  (* 62 *)
    py_int (Unit.Attack.use_ability (attack_1 self));  (* 63 *)
    py_int (Unit.Attack.use_ability (attack_2 self));  (* 64 *)
    py_int (Unit.Attack.use_ability (attack_3 self));  (* 65 *)
    Unit.SpawnAnim.model_id (spawn_anim self);  (* 66 *)
    Unit.SoulAnim.model_id (soul_anim self);  (* 67 *)
    py_int (Unit.SpawnAnim.has_entry_maanim (spawn_anim self));  (* 68 *)
    py_int (Unit.SoulAnim.has_death_maanim (soul_anim self));  (* 69 *)
    Unit.Prob.percent (Unit.BarrierBreak.prob (barrier_breaker self));  (* 70 *)
    Unit.Prob.percent (Unit.Warp.prob (warp self));  (* 71 *)
    Unit.Frames.frames (Unit.Warp.time (warp self));  (* 72 *)
    Unit.Warp.min_distance (warp self);  (* 73 *)
    Unit.Warp.max_distance (warp self);  (* 74 *)
    py_int (warp_blocker self);  (* 75 *)
    py_int (target_eva self);  (* 76 *)
    py_int (eva_killer self);  (* 77 *)
    py_int (target_relic self);  (* 78 *)
    py_int (curse_immunity self);  (* 79 *)
    py_int (insanely_tough self);  (* 80 *)
    py_int (insane_damage self);  (* 81 *)
    Unit.Prob.percent (Unit.SavageBlow.prob (savage_blow self));  (* 82 *)
    Unit.SavageBlow.multiplier (savage_blow self);  (* 83 *)
    Unit.Prob.percent (Unit.Dodge.prob (dodge self));  (* 84 *)
    Unit.Frames.frames (Unit.Dodge.time (dodge self));  (* 85 *)
    Unit.Prob.percent (Unit.Surge.prob (surge self));  (* 86 *)
    Unit.Range.raw (Unit.Surge.start (surge self));  (* 87 *)
    Unit.Range.raw (Unit.Surge.range (surge self));  (* 88 *)
    Unit.Surge.level (surge self);  (* 89 *)
    py_int (toxic_immunity self);  (* 90 *)
    py_int (surge_immunity self);  (* 91 *)
    Unit.Prob.percent (Unit.Curse.prob (curse self));  (* 92 *)
    Unit.Frames.frames (Unit.Curse.time (curse self));  (* 93 *)
    py_int (Unit.Wave.is_mini (wave self));  (* 94 *)
    Unit.Prob.percent (Unit.ShieldPierce.prob (shield_pierce self));  (* 95 *)
    py_int (target_aku self);  (* 96 *)
    py_int (collossus_slayer self);  (* 97 *)
    py_int (soul_strike self);  (* 98 *)
    py_int (Unit.Attack.long_distance_flag (attack_2 self));  (* 99 *)
    Unit.Range.raw (Unit.Attack.long_distance_start (attack_2 self));  (* 100 *)
    Unit.Range.raw (Unit.Attack.long_distance_range (attack_2 self));  (* 101 *)
    py_int (Unit.Attack.long_distance_flag (attack_3 self));  (* 102 *)
    Unit.Range.raw (Unit.Attack.long_distance_start (attack_3 self));  (* 103 *)
    Unit.Range.raw (Unit.Attack.long_distance_range (attack_3 self));  (* 104 *)
    py_int (behemoth_slayer self);  (* 105 *)
    Unit.Prob.percent (Unit.BehemothDodge.prob (behemoth_dodge self));  (* 106 *)
    Unit.Frames.frames (Unit.BehemothDodge.time (behemoth_dodge self))  (* 107 *)
  ].

(** [Stats.__eq__]: the raw lists are compared; [cat_id] and [form] are
    not. *)
Definition eqb (self other : t) : bool :=
  bool_decide (to_raw_data self = to_raw_data other).

(** [wipe]: the record is assigned again from a row of zeros. *)
Definition wipe (self : t) : result t :=
  let raw_data := [] in
  let raw_data := extend raw_data in
  assign (cat_id self) (form self) raw_data.

(** [copy] *)
Definition copy (self : t) : result t :=
  init (cat_id self) (form self) (to_raw_data self).

(** [has_targeted_effect]: [any] of the seven probabilities. *)
Definition has_targeted_effect (self : t) : bool :=
  existsb py_bool
    [Unit.Prob.percent (Unit.Knockback.prob (knockback self));
     Unit.Prob.percent (Unit.Freeze.prob (freeze self));
     Unit.Prob.percent (Unit.Slow.prob (slow self));
     Unit.Prob.percent (Unit.Weaken.prob (weaken self));
     Unit.Prob.percent (Unit.Warp.prob (warp self));
     Unit.Prob.percent (Unit.Curse.prob (curse self));
     Unit.Prob.percent (Unit.Dodge.prob (dodge self))].

(** The slots that [assign] reads through [bool] and [to_raw_data] writes
    through [int]. *)
Definition flag_slots : list nat :=
  [10; 12; 16; 17; 18; 19; 20; 21; 22; 23; 29; 30; 32; 33; 34; 43; 46; 47;
   48; 49; 50; 51; 52; 53; 54; 56; 63; 64; 65; 68; 69; 75; 76; 77; 78; 79;
   80; 81; 90; 91; 94; 96; 97; 98; 99; 102; 105]%nat.

(** A row as it comes back after a read and a write: a flag slot holds 1
    for any value but 0. *)
Definition written_back (row : list Z) : list Z :=
  imap (fun i x => if existsb (Nat.eqb i) flag_slots
                   then py_int (py_bool x) else x) row.

End Stats.

Module Rarity.

Inductive t : Type :=
  NORMAL | SPECIAL | RARE | SUPER_RARE | UBER_RARE | LEGEND_RARE.

Definition value (self : t) : Z :=
  match self with
  | NORMAL => 0
  | SPECIAL => 1
  | RARE => 2
  | SUPER_RARE => 3
  | UBER_RARE => 4
  | LEGEND_RARE => 5
  end.

(** [Rarity(v)]: the member of that value, or [ValueError]. *)
Definition of_value (v : Z) : result t :=
  match find (fun m => value m =? v)
             [NORMAL; SPECIAL; RARE; SUPER_RARE; UBER_RARE; LEGEND_RARE] with
  | Some m => Ok m
  | None => Raise ValueError
  end.

End Rarity.

Module GatchaRarity.

Inductive t : Type := NONE | RARE | SUPER_RARE | UBER_RARE | LEGEND_RARE.

Definition value (self : t) : Z :=
  match self with
  | NONE => 0
  | RARE => 1
  | SUPER_RARE => 2
  | UBER_RARE => 3
  | LEGEND_RARE => 4
  end.

(** [GatchaRarity(v)]: the member of that value, or [ValueError]. *)
Definition of_value (v : Z) : result t :=
  match find (fun m => value m =? v)
             [NONE; RARE; SUPER_RARE; UBER_RARE; LEGEND_RARE] with
  | Some m => Ok m
  | None => Raise ValueError
  end.

End GatchaRarity.

(** [l[a:b]] for literal bounds [0 <= a <= b]: a slice never raises. *)
Definition py_slice {A : Type} (l : list A) (a b : nat) : list A :=
  take (b - a) (drop a l).

Module UnitBuyData.

Record t : Type := mk {
  cat_id : Z;
  stage_unlock : Z;
  purchase_cost : Z;
  upgrade_costs : list Z;
  unlock_source : Z;
  rarity : Rarity.t;
  position_order : Z;
  chapter_unlock : Z;
  sell_price : Z;
  gatya_rarity : GatchaRarity.t;
  original_max_level : Z;
  unknown_19 : Z;
  force_true_form_level : Z;
  second_form_levels : Z * Z;
  true_form_id : Z;
  unknown_24 : Z;
  third_form_levels : Z * Z;
  evolve_cost : Z;
  evolve_items : Unit.EvolveItems.t;
  unknown_48 : Z;
  max_upgrade_level_no_catseye : Z;
  max_upgrade_level_catseye : Z;
  max_plus_upgrade_level : Z;
  unknown_52 : Z;
  unknown_53 : Z;
  unknown_54 : Z;
  unknown_55 : Z;
  evolve_count : Z;
  game_version : Z;
  np_sell_price : Z;
  unknown_59 : Z;
  unknown_60 : Z;
  unknown_61 : Z;
  unknown_62 : Z
}.

Definition extend (raw_data : list Z) : list Z :=
  let length_ := 63%nat in
  raw_data ++ repeat 0 (length_ - length raw_data).

Definition assign (cat_id : Z) (raw_data : list Z) : result t :=
  stage_unlock ← py_getitem raw_data 0;
  purchase_cost ← py_getitem raw_data 1;
  let upgrade_costs := py_slice raw_data 2 12 in
  unlock_source ← py_getitem raw_data 12;
  x13 ← py_getitem raw_data 13;
  rarity ← Rarity.of_value x13;
  position_order ← py_getitem raw_data 14;
  chapter_unlock ← py_getitem raw_data 15;
  sell_price ← py_getitem raw_data 16;
  x17 ← py_getitem raw_data 17;
  gatya_rarity ← GatchaRarity.of_value x17;
  original_max_level ← py_getitem raw_data 18;
  unknown_19 ← py_getitem raw_data 19;
  force_true_form_level ← py_getitem raw_data 20;
  x21 ← py_getitem raw_data 21;
  x22 ← py_getitem raw_data 22;
  let second_form_levels := (x21, x22) in
  true_form_id ← py_getitem raw_data 23;
  unknown_24 ← py_getitem raw_data 24;
  x25 ← py_getitem raw_data 25;
  x26 ← py_getitem raw_data 26;
  let third_form_levels := (x25, x26) in
  evolve_cost ← py_getitem raw_data 27;
  let evolve_items := Unit.EvolveItems.from_unit_buy_list raw_data in
  unknown_48 ← py_getitem raw_data 48;
  max_upgrade_level_no_catseye ← py_getitem raw_data 49;
  max_upgrade_level_catseye ← py_getitem raw_data 50;
  max_plus_upgrade_level ← py_getitem raw_data 51;
  unknown_52 ← py_getitem raw_data 52;
  unknown_53 ← py_getitem raw_data 53;
  unknown_54 ← py_getitem raw_data 54;
  unknown_55 ← py_getitem raw_data 55;
  evolve_count ← py_getitem raw_data 56;
  game_version ← py_getitem raw_data 57;
  np_sell_price ← py_getitem raw_data 58;
  unknown_59 ← py_getitem raw_data 59;
  unknown_60 ← py_getitem raw_data 60;
  unknown_61 ← py_getitem raw_data 61;
  unknown_62 ← py_getitem raw_data 62;
  Ok (mk cat_id stage_unlock purchase_cost upgrade_costs unlock_source rarity
         position_order chapter_unlock sell_price gatya_rarity
         original_max_level unknown_19 force_true_form_level
         second_form_levels true_form_id unknown_24 third_form_levels
         evolve_cost evolve_items unknown_48 max_upgrade_level_no_catseye
         max_upgrade_level_catseye max_plus_upgrade_level unknown_52
         unknown_53 unknown_54 unknown_55 evolve_count game_version
         np_sell_price unknown_59 unknown_60 unknown_61 unknown_62).

(** [UnitBuyData.__init__] *)
Definition init (cat_id : Z) (raw_data : list Z) : result t :=
  let raw_data := extend raw_data in
  assign cat_id raw_data.

Definition to_raw_data (self : t) : list Z :=
  [stage_unlock self; purchase_cost self]
  ++ upgrade_costs self
  ++ [unlock_source self;
      Rarity.value (rarity self);
      position_order self;
      chapter_unlock self;
      sell_price self;
      GatchaRarity.value (gatya_rarity self);
      original_max_level self;
      unknown_19 self;
      force_true_form_level self]
  ++ [(second_form_levels self).1; (second_form_levels self).2]
  ++ [true_form_id self; unknown_24 self]
  ++ [(third_form_levels self).1; (third_form_levels self).2]
  ++ [evolve_cost self]
  ++ Unit.EvolveItems.to_list (evolve_items self)
  ++ [unknown_48 self;
      max_upgrade_level_no_catseye self;
      max_upgrade_level_catseye self;
      max_plus_upgrade_level self;
      unknown_52 self;
      unknown_53 self;
      unknown_54 self;
      unknown_55 self;
      evolve_count self;
      game_version self;
      np_sell_price self;
      unknown_59 self;
      unknown_60 self;
      unknown_61 self;
      unknown_62 self].

(** [UnitBuyData.__eq__]: the raw lists are compared. *)
Definition eqb (self other : t) : bool :=
  bool_decide (to_raw_data self = to_raw_data other).

Definition set_game_version (self : t) (v : Z) : t :=
  mk (cat_id self) (stage_unlock self) (purchase_cost self)
     (upgrade_costs self) (unlock_source self) (rarity self)
     (position_order self) (chapter_unlock self) (sell_price self)
     (gatya_rarity self) (original_max_level self) (unknown_19 self)
     (force_true_form_level self) (second_form_levels self)
     (true_form_id self) (unknown_24 self) (third_form_levels self)
     (evolve_cost self) (evolve_items self) (unknown_48 self)
     (max_upgrade_level_no_catseye self) (max_upgrade_level_catseye self)
     (max_plus_upgrade_level self) (unknown_52 self) (unknown_53 self)
     (unknown_54 self) (unknown_55 self) (evolve_count self) v
     (np_sell_price self) (unknown_59 self) (unknown_60 self)
     (unknown_61 self) (unknown_62 self).

Definition set_obtainable (self : t) (obtainable : bool) : t :=
  if negb obtainable then set_game_version self (-1)
  else set_game_version self
         (if game_version self =? -1 then 0 else game_version self).

Definition is_obtainable (self : t) : bool :=
  negb (game_version self =? -1).

(** The rows the constructor builds: ten upgrade costs and ten evolve
    items. *)
Definition well_formed (self : t) : Prop :=
  length (upgrade_costs self) = 10%nat
  /\ length (Unit.EvolveItems.evolve_items (evolve_items self)) = 10%nat.

End UnitBuyData.

Module NyankoPictureBookData.

Record t : Type := mk {
  cat_id : Z;
  obtainable : bool;
  limited : bool;
  total_forms : Z;
  unknown : Z;
  scale_0 : Z;
  scale_1 : Z;
  scale_2 : Z;
  scale_3 : Z;
  other : list Z
}.

Definition set_obtainable (self : t) (obtainable : bool) : t :=
  mk (cat_id self) obtainable (limited self) (total_forms self)
     (unknown self) (scale_0 self) (scale_1 self) (scale_2 self)
     (scale_3 self) (other self).

Definition is_obtainable (self : t) : bool := obtainable self.

(** [__eq__]: the serialized records are compared, so everything but
    [cat_id]. *)
Definition eqb (a b : t) : bool :=
  Bool.eqb (obtainable a) (obtainable b)
  && Bool.eqb (limited a) (limited b)
  && (total_forms a =? total_forms b)
  && (unknown a =? unknown b)
  && (scale_0 a =? scale_0 b)
  && (scale_1 a =? scale_1 b)
  && (scale_2 a =? scale_2 b)
  && (scale_3 a =? scale_3 b)
  && bool_decide (other a = other b).

End NyankoPictureBookData.

Module Cat.

Section WithForms.

(** The forms and the talent of a cat, which the obtainability setters
    leave alone. *)
Context {Form Talent : Type}.

Record t : Type := mk {
  cat_id : Z;
  forms : list (FormType.t * Form);
  unit_buy_data : UnitBuyData.t;
  talent : option Talent;
  nyanko_picture_book_data : NyankoPictureBookData.t;
  evolve_text : option (list string)
}.

Definition set_obtainable (self : t) (obtainable : bool) : t :=
  let unit_buy_data :=
    UnitBuyData.set_obtainable (unit_buy_data self) obtainable in
  let nyanko_picture_book_data :=
    NyankoPictureBookData.set_obtainable (nyanko_picture_book_data self)
                                         obtainable in
  mk (cat_id self) (forms self) unit_buy_data (talent self)
     nyanko_picture_book_data (evolve_text self).

Definition is_obtainable (self : t) : bool :=
  UnitBuyData.is_obtainable (unit_buy_data self)
  && NyankoPictureBookData.is_obtainable (nyanko_picture_book_data self).

End WithForms.

End Cat.

(** ** [Cats]: the collection of cats and its import *)

Module Cats.

Section WithForms.

(** The forms and the talent of a cat with their [__eq__]; [GameData] is
    the catalog type and [from_game_data] is [Cats.from_game_data]. *)
Context {Form Talent : Type}.
Context (Form_eqb : Form -> Form -> bool) (Talent_eqb : Talent -> Talent -> bool).

Abbreviation Cat := (@Cat.t Form Talent).

(** [a == b] for two dictionaries of forms: the same keys, bound to equal
    forms. *)
Definition forms_get (d : list (FormType.t * Form)) (k : FormType.t)
  : option Form :=
  snd <$> List.find (fun kv => FormType.get_index kv.1 =? FormType.get_index k) d.

Definition forms_eqb (a b : list (FormType.t * Form)) : bool :=
  (length a =? length b)%nat
  && forallb (fun kv => match forms_get b kv.1 with
                        | Some v' => Form_eqb kv.2 v'
                        | None => false
                        end) a.

(** [a == b] for two optional values. *)
Definition option_eqb {A : Type} (eqb : A -> A -> bool) (a b : option A) : bool :=
  match a, b with
  | Some x, Some y => eqb x y
  | None, None => true
  | _, _ => false
  end.

(** [Cat.__eq__] *)
Definition Cat_eqb (self other : Cat) : bool :=
  (Cat.cat_id self =? Cat.cat_id other)
  && forms_eqb (Cat.forms self) (Cat.forms other)
  && UnitBuyData.eqb (Cat.unit_buy_data self) (Cat.unit_buy_data other)
  && option_eqb Talent_eqb (Cat.talent self) (Cat.talent other)
  && NyankoPictureBookData.eqb (Cat.nyanko_picture_book_data self)
       (Cat.nyanko_picture_book_data other)
  && bool_decide (Cat.evolve_text self = Cat.evolve_text other).

(** [Cat.__ne__] *)
Definition Cat_neb (self other : Cat) : bool := negb (Cat_eqb self other).

Record t : Type := mk { cats : gmap Z Cat }.

(** [get_cat] *)
Definition get_cat (self : t) (cat_id : Z) : option Cat := cats self !! cat_id.

(** [set_cat] *)
Definition set_cat (self : t) (cat : Cat) : t :=
  mk (<[Cat.cat_id cat := cat]> (cats self)).

(** The body of the [for cat_id in all_keys] loop of [import_cats], on the
    dictionary [self.cats]. *)
Definition import_step (gd_cats other : t) (self_cats : gmap Z Cat) (cat_id : Z)
  : gmap Z Cat :=
  let other_cat := get_cat other cat_id in
  let gd_cat := get_cat gd_cats cat_id in
  match other_cat with
  | None => self_cats
  | Some other_cat =>
      match gd_cat with
      | Some gd_cat =>
          if Cat_neb gd_cat other_cat then <[cat_id := gd_cat]> self_cats
          else self_cats
      | None => <[cat_id := other_cat]> self_cats
      end
  end.

(** [import_cats] once [gd_cats = Cats.from_game_data(game_data)] has been
    read. *)
Definition import_cats_from (self other gd_cats : t) : t :=
  let all_keys : gset Z :=
    dom (cats self) ∪ dom (cats other) ∪ dom (cats gd_cats) in
  mk (fold_left (import_step gd_cats other) (elements all_keys) (cats self)).

Context {GameData : Type} (from_game_data : GameData -> t).

Definition import_cats (self other : t) (game_data : GameData) : t :=
  import_cats_from self other (from_game_data game_data).

End WithForms.

End Cats.

(** ** The name enums of the stage files ([map.py]) *)

Module StageNameNameType.
Inductive t : Type :=
  | STORY
  | AKU
  | GAUNTLET
  | DRINK
  | COLLAB
  | COLLAB_GAUNTLET
  | EXTRA
  | ENIGMA
  | CHALLENGE
  | SOL
  | UNCANNY
  | BEHEMOTH
  | DOJO_RANK
  | REGULAR_EVENT
  | DOJO_CATCLAW
  | TOWER.

Definition name (x : t) : string :=
  match x with
  | STORY => "STORY"
  | AKU => "AKU"
  | GAUNTLET => "GAUNTLET"
  | DRINK => "DRINK"
  | COLLAB => "COLLAB"
  | COLLAB_GAUNTLET => "COLLAB_GAUNTLET"
  | EXTRA => "EXTRA"
  | ENIGMA => "ENIGMA"
  | CHALLENGE => "CHALLENGE"
  | SOL => "SOL"
  | UNCANNY => "UNCANNY"
  | BEHEMOTH => "BEHEMOTH"
  | DOJO_RANK => "DOJO_RANK"
  | REGULAR_EVENT => "REGULAR_EVENT"
  | DOJO_CATCLAW => "DOJO_CATCLAW"
  | TOWER => "TOWER"
  end.

Definition value (x : t) : string :=
  match x with
  | STORY => ""
  | AKU => "DM"
  | GAUNTLET => "RA"
  | DRINK => "RB"
  | COLLAB => "RC"
  | COLLAB_GAUNTLET => "RCA"
  | EXTRA => "RE"
  | ENIGMA => "RH"
  | CHALLENGE => "RM"
  | SOL => "RN"
  | UNCANNY => "RNA"
  | BEHEMOTH => "RQ"
  | DOJO_RANK => "RR"
  | REGULAR_EVENT => "RS"
  | DOJO_CATCLAW => "RT"
  | TOWER => "RV"
  end.

Definition members : list t :=
  [STORY; AKU; GAUNTLET; DRINK; COLLAB; COLLAB_GAUNTLET; EXTRA; ENIGMA; CHALLENGE; SOL; UNCANNY; BEHEMOTH; DOJO_RANK; REGULAR_EVENT; DOJO_CATCLAW; TOWER].

(** [get_map_index_type]: the partition of the same name, if any. *)
Definition get_map_index_type (self : t) : option MapIndexType.t :=
  List.find (fun index_type => String.eqb (MapIndexType.name index_type) (name self))
            MapIndexType.members.

End StageNameNameType.

Module MapStageDataNameType.
Inductive t : Type :=
  | STORY
  | SOL
  | REGULAR_EVENT
  | COLLAB
  | EXTRA
  | DOJO_CATCLAW
  | TOWER
  | DOJO_RANK
  | CHALLENGE
  | UNCANNY
  | DRINK
  | GAUNTLET
  | ENGIMA
  | COLLAB_GAUNTLET
  | BEHEMOTH.

Definition name (x : t) : string :=
  match x with
  | STORY => "STORY"
  | SOL => "SOL"
  | REGULAR_EVENT => "REGULAR_EVENT"
  | COLLAB => "COLLAB"
  | EXTRA => "EXTRA"
  | DOJO_CATCLAW => "DOJO_CATCLAW"
  | TOWER => "TOWER"
  | DOJO_RANK => "DOJO_RANK"
  | CHALLENGE => "CHALLENGE"
  | UNCANNY => "UNCANNY"
  | DRINK => "DRINK"
  | GAUNTLET => "GAUNTLET"
  | ENGIMA => "ENGIMA"
  | COLLAB_GAUNTLET => "COLLAB_GAUNTLET"
  | BEHEMOTH => "BEHEMOTH"
  end.

Definition value (x : t) : string :=
  match x with
  | STORY => ""
  | SOL => "N"
  | REGULAR_EVENT => "S"
  | COLLAB => "C"
  | EXTRA => "E"
  | DOJO_CATCLAW => "T"
  | TOWER => "V"
  | DOJO_RANK => "R"
  | CHALLENGE => "M"
  | UNCANNY => "A"
  | DRINK => "B"
  | GAUNTLET => "RA"
  | ENGIMA => "H"
  | COLLAB_GAUNTLET => "CA"
  | BEHEMOTH => "Q"
  end.

Definition members : list t :=
  [STORY; SOL; REGULAR_EVENT; COLLAB; EXTRA; DOJO_CATCLAW; TOWER; DOJO_RANK; CHALLENGE; UNCANNY; DRINK; GAUNTLET; ENGIMA; COLLAB_GAUNTLET; BEHEMOTH].

(** [get_map_index_type]: the partition of the same name, if any. *)
Definition get_map_index_type (self : t) : option MapIndexType.t :=
  List.find (fun index_type => String.eqb (MapIndexType.name index_type) (name self))
            MapIndexType.members.

End MapStageDataNameType.

Module MapNameType.
Inductive t : Type :=
  | STORY
  | AKU
  | EXTRA
  | GAUNTLET
  | DRINK
  | COLLAB
  | COLLAB_GAUNTLET
  | ENIGMA
  | CHALLENGE
  | SOL
  | UNCANNY
  | BEHEMOTH
  | DOJO_RANK
  | REGULAR_EVENT
  | DOJO_CATCLAW
  | TOWER
  | COTC
  | ITF
  | OUTBREAKS.

Definition name (x : t) : string :=
  match x with
  | STORY => "STORY"
  | AKU => "AKU"
  | EXTRA => "EXTRA"
  | GAUNTLET => "GAUNTLET"
  | DRINK => "DRINK"
  | COLLAB => "COLLAB"
  | COLLAB_GAUNTLET => "COLLAB_GAUNTLET"
  | ENIGMA => "ENIGMA"
  | CHALLENGE => "CHALLENGE"
  | SOL => "SOL"
  | UNCANNY => "UNCANNY"
  | BEHEMOTH => "BEHEMOTH"
  | DOJO_RANK => "DOJO_RANK"
  | REGULAR_EVENT => "REGULAR_EVENT"
  | DOJO_CATCLAW => "DOJO_CATCLAW"
  | TOWER => "TOWER"
  | COTC => "COTC"
  | ITF => "ITF"
  | OUTBREAKS => "OUTBREAKS"
  end.

Definition value (x : t) : string :=
  match x with
  | STORY => ""
  | AKU => "DM"
  | EXTRA => "EX"
  | GAUNTLET => "RA"
  | DRINK => "RB"
  | COLLAB => "RC"
  | COLLAB_GAUNTLET => "RCA"
  | ENIGMA => "RH"
  | CHALLENGE => "RM"
  | SOL => "RN"
  | UNCANNY => "RNA"
  | BEHEMOTH => "RQ"
  | DOJO_RANK => "RR"
  | REGULAR_EVENT => "RS"
  | DOJO_CATCLAW => "RT"
  | TOWER => "RV"
  | COTC => "Space"
  | ITF => "W"
  | OUTBREAKS => "Z"
  end.

Definition members : list t :=
  [STORY; AKU; EXTRA; GAUNTLET; DRINK; COLLAB; COLLAB_GAUNTLET; ENIGMA; CHALLENGE; SOL; UNCANNY; BEHEMOTH; DOJO_RANK; REGULAR_EVENT; DOJO_CATCLAW; TOWER; COTC; ITF; OUTBREAKS].

(** [get_map_index_type]: the partition of the same name, if any. *)
Definition get_map_index_type (self : t) : option MapIndexType.t :=
  List.find (fun index_type => String.eqb (MapIndexType.name index_type) (name self))
            MapIndexType.members.

End MapNameType.

(** The getters of [MapIndexType] that look a name enum up by name. *)
Module MapIndexTypeNames.

Definition get_map_name_type (self : MapIndexType.t) : option MapNameType.t :=
  List.find (fun name_type =>
               String.eqb (MapNameType.name name_type) (MapIndexType.name self))
            MapNameType.members.

Definition get_map_stage_data_name_type (self : MapIndexType.t)
  : option MapStageDataNameType.t :=
  List.find (fun name_type =>
               String.eqb (MapStageDataNameType.name name_type)
                          (MapIndexType.name self))
            MapStageDataNameType.members.

Definition get_stage_name_name_type (self : MapIndexType.t)
  : option StageNameNameType.t :=
  List.find (fun name_type =>
               String.eqb (StageNameNameType.name name_type)
                          (MapIndexType.name self))
            StageNameNameType.members.

End MapIndexTypeNames.

#[global] Instance MapIndexType_eq_dec : EqDecision MapIndexType.t.
Proof. solve_decision. Defined.

#[global] Instance MapIndexType_countable : Countable MapIndexType.t.
Proof.
  refine (inj_countable' MapIndexType.value
            (fun z => default MapIndexType.SOL
                        (List.find (fun x => MapIndexType.value x =? z)
                                   MapIndexType.members)) _).
  by intros [].
Defined.

(** ** File names of the stage files *)

Module StageFiles.

Section WithPaddedInt.

(** [PaddedInt(n, width).to_str()], of [io/data.py], which is not under
    src/. *)
Context (PaddedInt_to_str : Z -> nat -> string).

(** [StageNameSet.get_file_name] *)
Definition stage_name_set_file_name (base_stage_id : Z) (lang : string)
  : result string :=
  match MapIndexType.from_index base_stage_id with
  | None => Raise ValueError
  | Some map_index_type =>
      match MapIndexTypeNames.get_stage_name_name_type map_index_type with
      | None => Raise ValueError
      | Some name_str =>
          Ok ("StageName_" +:+ StageNameNameType.value name_str +:+ "_"
              +:+ lang +:+ ".csv")
      end
  end.

(** [MapStageData.get_file_name] *)
Definition map_stage_data_file_name (stage_id : Z) : option string :=
  match MapIndexType.from_index stage_id with
  | None => None
  | Some map_index_type =>
      match MapIndexTypeNames.get_map_stage_data_name_type map_index_type with
      | None => None
      | Some map_type =>
          let stage_index := stage_id - MapIndexType.value map_index_type in
          let stage_index_str := PaddedInt_to_str stage_index 3 in
          Some ("MapStageData" +:+ MapStageDataNameType.value map_type +:+ "_"
                +:+ stage_index_str +:+ ".csv")
      end
  end.

(** [StageStats.get_file_name] *)
Definition stage_stats_file_name (stage_id stage_index : Z) : option string :=
  match MapIndexType.from_index stage_id with
  | None => None
  | Some map_index_type =>
      match MapIndexTypeNames.get_map_name_type map_index_type with
      | None => None
      | Some map_name_type =>
          let stage_id_index := stage_id - MapIndexType.value map_index_type in
          let stage_id_index_str := PaddedInt_to_str stage_id_index 3 in
          let stage_index_str := PaddedInt_to_str stage_index 2 in
          Some ("stage" +:+ MapNameType.value map_name_type
                +:+ stage_id_index_str +:+ "_" +:+ stage_index_str +:+ ".csv")
      end
  end.

End WithPaddedInt.

End StageFiles.

(** ** [StageNameSet] and [StageNameSets] *)

Module StageNameSets.

Section WithStageNames.

(** [StageNames], the names of the stages of one map, is an opaque value
    here. *)
Context {StageNames : Type}.

Record StageNameSet : Type := mkSet {
  base_stage_id : Z;
  map_index_type : MapIndexType.t;
  (** [None] stands for the empty string the constructor stores when the
      partition has no name type *)
  name_str : option StageNameNameType.t;
  names : gmap Z StageNames
}.

(** [StageNameSet.__init__]: raises [ValueError] when the id is in no
    partition. *)
Definition StageNameSet_init (base_stage_id : Z) (names : gmap Z StageNames)
  : result StageNameSet :=
  match MapIndexType.from_index base_stage_id with
  | None => Raise ValueError
  | Some map_index_type =>
      Ok (mkSet base_stage_id map_index_type
            (MapIndexTypeNames.get_stage_name_name_type map_index_type) names)
  end.

(** [StageNameSet.get] *)
Definition StageNameSet_get (self : StageNameSet) (stage_id : Z)
  : option StageNames :=
  names self !! stage_id.

Record t : Type := mk { sets : gmap MapIndexType.t StageNameSet }.

(** [StageNameSets.get] *)
Definition get (self : t) (stage_id : Z) : option StageNames :=
  match MapIndexType.from_index stage_id with
  | None => None
  | Some map_index_type =>
      match sets self !! map_index_type with
      | None => None
      | Some set => StageNameSet_get set stage_id
      end
  end.

(** [StageNameSets.set]: the set of the partition, created when missing,
    gets the names under the stage id. *)
Definition set (self : t) (stage_id : Z) (stage_names : StageNames) : result t :=
  match MapIndexType.from_index stage_id with
  | None => Raise ValueError
  | Some index_type =>
      '(set, sets') ←
        match sets self !! index_type with
        | None =>
            set ← StageNameSet_init stage_id ∅;
            Ok (set, <[index_type := set]> (sets self))
        | Some set => Ok (set, sets self)
        end;
      let set :=
        mkSet (base_stage_id set) (map_index_type set) (name_str set)
              (<[stage_id := stage_names]> (names set)) in
      Ok (mk (<[index_type := set]> sets'))
  end.

End WithStageNames.

End StageNameSets.

(** ** [BCUForm] ([bcu.py]) *)

Module BCUForm.

(** [check_ability]: [abi & (1 << id) != 0]; a negative shift count raises
    [ValueError]. *)
Definition check_ability (abi id : Z) : result bool :=
  if id <? 0 then Raise ValueError
  else Ok (negb (Z.land abi (Z.shiftl 1 id) =? 0)).

End BCUForm.

(** * Properties *)

(** ** Stage partitions *)

Module MapIndexTypeFacts.
Import MapIndexType.

Lemma get_all_members : get_all = members.
Proof. reflexivity. Qed.

Ltac split_comparisons :=
  repeat match goal with
    | |- context [?a <? ?b] => destruct (Z.ltb_spec a b); try lia
    | |- context [?a =? ?b] => destruct (Z.eqb_spec a b); try lia
    end.

Ltac eval_getitem :=
  repeat match goal with
    | |- context [py_getitem ?l ?i] =>
        let r := eval vm_compute in (py_getitem l i) in
        change (py_getitem l i) with r
    end;
  cbn [value].

Ltac greatest x :=
  exists x; split; [reflexivity | split; [cbn; lia | intros y; destruct y; cbn; lia]].

(** Up to the last marker, [from_index] finds the partition of an index. *)
Lemma from_index_up_to_last_marker (i : Z) :
  0 <= i <= 31000 ->
  exists x, from_index i = Some x /\ greatest_marker_le i x.
Proof.
  intros Hi. unfold from_index.
  change (sorted_by value members) with members.
  unfold members. cbn [from_index_loop seq length]. eval_getitem.
  split_comparisons;
    first [ greatest SOL | greatest REGULAR_EVENT | greatest COLLAB
          | greatest STORY | greatest EXTRA | greatest DOJO_CATCLAW
          | greatest TOWER | greatest CHALLENGE | greatest UNCANNY
          | greatest DRINK | greatest LEGEND_QUEST | greatest OUTBREAKS_EOC
          | greatest OUTBREAKS_ITF | greatest OUTBREAKS_COTC
          | greatest FILIBUSTER | greatest GAUNTLET | greatest ENGIMA
          | greatest COLLAB_GAUNTLET | greatest BEHEMOTH ].
Qed.

(** Past the last marker the loop runs out and the result is [None]. *)
Lemma from_index_past_last_marker (i : Z) :
  31000 < i -> from_index i = None.
Proof.
  intros Hi. unfold from_index.
  change (sorted_by value members) with members.
  unfold members. cbn [from_index_loop seq length]. eval_getitem.
  split_comparisons. reflexivity.
Qed.

(** Below zero the first test succeeds with [i = 0], and [types_sorted[-1]]
    is the last member. *)
Lemma from_index_negative (i : Z) :
  i < 0 -> from_index i = Some BEHEMOTH.
Proof.
  intros Hi. unfold from_index.
  change (sorted_by value members) with members.
  unfold members. cbn [from_index_loop seq length]. eval_getitem.
  split_comparisons. reflexivity.
Qed.

(** C6: [MapIndexType.from_index] does not return the partition with the
    greatest marker at most [i] for every [i] in [0, 32000), nor [None] for
    every negative [i]: at 31500 the partition is [BEHEMOTH] and the result
    is [None], and at -1 the result is [BEHEMOTH]. *)
Theorem from_index_last_partition_and_negative :
  from_index 31500 = None
  /\ greatest_marker_le 31500 BEHEMOTH
  /\ from_index (-1) = Some BEHEMOTH.
Proof.
  split; [reflexivity | split; [| reflexivity]].
  split; [cbn; lia | intros y; destruct y; cbn; lia].
Qed.

End MapIndexTypeFacts.

(** ** Importing maps *)

Module MapsFacts.
Import Maps.

Section WithComponents.

Context {MapOption MapStageData Stage MapNameImage StageOptionSet GameData : Type}.
Context (MapOption_eqb : MapOption -> MapOption -> bool)
        (MapStageData_eqb : MapStageData -> MapStageData -> bool)
        (Stage_eqb : Stage -> Stage -> bool)
        (MapNameImage_eqb : MapNameImage -> MapNameImage -> bool).

Abbreviation Map := (@Map MapOption MapStageData Stage MapNameImage StageOptionSet).
Abbreviation Maps := (@t MapOption MapStageData Stage MapNameImage StageOptionSet).
Abbreviation Map_neb :=
  (Map_neb MapOption_eqb MapStageData_eqb Stage_eqb MapNameImage_eqb).
Abbreviation import_step :=
  (import_step MapOption_eqb MapStageData_eqb Stage_eqb MapNameImage_eqb).
Abbreviation import_maps_from :=
  (import_maps_from MapOption_eqb MapStageData_eqb Stage_eqb MapNameImage_eqb).
Abbreviation merged :=
  (merged MapOption_eqb MapStageData_eqb Stage_eqb MapNameImage_eqb).

Lemma merged_idem (gd_maps other : Maps) id current :
  merged gd_maps other id (merged gd_maps other id current)
  = merged gd_maps other id current.
Proof.
  unfold merged. destruct (maps other !! id); [| reflexivity].
  destruct (maps gd_maps !! id); [| reflexivity].
  destruct (Map_neb _ _); reflexivity.
Qed.

Lemma import_step_lookup (gd_maps other : Maps) (m : gmap Z Map) (a id : Z) :
  import_step gd_maps other m a !! id
  = if decide (a = id) then merged gd_maps other id (m !! id) else m !! id.
Proof.
  unfold import_step, merged, get.
  destruct (decide (a = id)) as [->|Hne].
  - destruct (maps other !! id); [| reflexivity].
    destruct (maps gd_maps !! id).
    + destruct (Map_neb _ _); [apply lookup_insert_eq | reflexivity].
    + apply lookup_insert_eq.
  - destruct (maps other !! a); [| reflexivity].
    destruct (maps gd_maps !! a).
    + destruct (Map_neb _ _); [by rewrite lookup_insert_ne | reflexivity].
    + by rewrite lookup_insert_ne.
Qed.

Lemma import_loop_lookup (gd_maps other : Maps) (keys : list Z) (m : gmap Z Map) (id : Z) :
  fold_left (import_step gd_maps other) keys m !! id
  = if decide (id ∈ keys) then merged gd_maps other id (m !! id) else m !! id.
Proof.
  revert m. induction keys as [|a keys IH]; intros m; cbn [fold_left].
  - destruct (decide (id ∈ [])) as [Hin|_]; [by apply elem_of_nil in Hin | done].
  - rewrite IH, import_step_lookup.
    destruct (decide (a = id)) as [->|Hne].
    + rewrite merged_idem.
      destruct (decide (id ∈ keys)), (decide (id ∈ id :: keys)) as [|Hn];
        try reflexivity.
      all: exfalso; apply Hn; left.
    + destruct (decide (id ∈ keys)) as [Hin|Hnin],
               (decide (id ∈ a :: keys)) as [Hin'|Hnin']; try reflexivity.
      * exfalso. apply Hnin'. by right.
      * apply elem_of_cons in Hin' as [->|Hin']; [done | contradiction].
Qed.

Lemma import_maps_from_lookup (self other gd_maps : Maps) (id : Z) :
  maps (import_maps_from self other gd_maps) !! id
  = merged gd_maps other id (maps self !! id).
Proof.
  unfold import_maps_from. cbn [maps]. rewrite import_loop_lookup.
  destruct (decide _) as [_|Hnin]; [reflexivity |].
  unfold merged. destruct (maps other !! id) eqn:Ho; [| reflexivity].
  exfalso. apply Hnin. apply elem_of_elements.
  apply elem_of_union_l, elem_of_union_r, elem_of_dom. by eexists.
Qed.

(** After [import_maps], for every map id: if the mod has a map for that id
    and the base maps read from the game data have none, or have one that
    [Map.__ne__] tells from it, the result holds the mod's map; otherwise
    the entry of the current maps is kept as it was. *)
Lemma import_maps_lookup (from_game_data : GameData -> Maps)
    (self other : Maps) (game_data : GameData) (id : Z) :
  maps (import_maps MapOption_eqb MapStageData_eqb Stage_eqb MapNameImage_eqb
          from_game_data self other game_data) !! id
  = match maps other !! id with
    | Some m =>
        match maps (from_game_data game_data) !! id with
        | Some b => if Map_neb b m then Some m else maps self !! id
        | None => Some m
        end
    | None => maps self !! id
    end.
Proof. unfold import_maps. apply import_maps_from_lookup. Qed.

Lemma dict_eqb_refl {V : Type} (eqb : V -> V -> bool) (m : gmap Z V) :
  (forall v, eqb v v = true) -> dict_eqb eqb m m = true.
Proof.
  intros Hrefl. unfold dict_eqb. rewrite bool_decide_eq_true_2 by done. cbn.
  apply forallb_forall. intros [k v] Hin. cbn.
  apply list_elem_of_In, elem_of_map_to_list in Hin. by rewrite Hin.
Qed.

(** C9: [import_maps] does not take the mod's map whenever it differs from
    the base map. [Map.__eq__] leaves [restriction] out, so a mod's map
    that differs from the base map in its restriction only is taken for
    the base map: the entry of the current maps is kept, and the mod's
    restriction is not imported. (The components' [__eq__] hold of equal
    values.) *)
Theorem import_maps_misses_restriction (from_game_data : GameData -> Maps)
    (self other : Maps) (game_data : GameData) (id : Z) (b m : Map) :
  (forall x, MapOption_eqb x x = true) ->
  (forall x, MapStageData_eqb x x = true) ->
  (forall x, Stage_eqb x x = true) ->
  (forall x, MapNameImage_eqb x x = true) ->
  maps other !! id = Some m ->
  maps (from_game_data game_data) !! id = Some b ->
  stage_id m = stage_id b ->
  map_option m = map_option b ->
  map_stage_data m = map_stage_data b ->
  stages m = stages b ->
  map_name_image m = map_name_image b ->
  restriction m <> restriction b ->
  m <> b
  /\ Map_neb b m = false
  /\ maps (import_maps MapOption_eqb MapStageData_eqb Stage_eqb
             MapNameImage_eqb from_game_data self other game_data) !! id
     = maps self !! id
  /\ (maps self !! id <> Some m ->
      maps (import_maps MapOption_eqb MapStageData_eqb Stage_eqb
              MapNameImage_eqb from_game_data self other game_data) !! id
      <> Some m).
Proof.
  intros Ho Hd Hs Hi Hm Hb E1 E2 E3 E4 E5 Hr.
  assert (Hneb : Map_neb b m = false).
  { unfold Maps.Map_neb, Maps.Map_eqb.
    rewrite E1, E2, E3, E4, E5, Z.eqb_refl, Ho, Hd, Hi.
    by rewrite dict_eqb_refl. }
  assert (Hres : maps (import_maps MapOption_eqb MapStageData_eqb Stage_eqb
                         MapNameImage_eqb from_game_data self other game_data)
                   !! id
                 = maps self !! id).
  { by rewrite import_maps_lookup, Hm, Hb, Hneb. }
  split; [by intros -> |]. split; [exact Hneb |]. split; [exact Hres |].
  by rewrite Hres.
Qed.

End WithComponents.

(** The import of a mod whose map 0 adds a restriction to the base map and
    changes nothing else, into empty current maps: the result has no map 0. *)
Lemma import_maps_misses_restriction_witness :
  MapsSample.restricted_map <> MapsSample.base_map
  /\ maps (import_maps MapsSample.same MapsSample.same MapsSample.same
             MapsSample.same (fun _ : unit => MapsSample.base)
             MapsSample.empty MapsSample.mod_maps tt) !! 0
     = None.
Proof.
  destruct (import_maps_misses_restriction MapsSample.same MapsSample.same
              MapsSample.same MapsSample.same (fun _ : unit => MapsSample.base)
              MapsSample.empty MapsSample.mod_maps tt 0
              MapsSample.base_map MapsSample.restricted_map)
    as (Hne & _ & Hres & _); try reflexivity; try discriminate.
  split; [exact Hne | exact Hres].
Defined.

End MapsFacts.

(** ** Obtainability *)

Module CatFacts.

Lemma unit_buy_set_obtainable_version (u : UnitBuyData.t) (b : bool) :
  UnitBuyData.game_version (UnitBuyData.set_obtainable u b) = -1 <-> b = false.
Proof.
  unfold UnitBuyData.set_obtainable. destruct b; cbn.
  - destruct (Z.eqb_spec (UnitBuyData.game_version u) (-1)); split; try done; lia.
  - done.
Qed.

(** C8: after [set_obtainable(False)] both [is_obtainable] methods return
    [False] and the [game_version] slot is -1; and after [set_obtainable]
    with either argument, [game_version] is -1 exactly when the picture
    book's [obtainable] is false. *)
Theorem set_obtainable_links_both_records {Form Talent : Type}
    (cat : @Cat.t Form Talent) (obtainable : bool) :
  let cat_off := Cat.set_obtainable cat false in
  let cat' := Cat.set_obtainable cat obtainable in
  UnitBuyData.is_obtainable (Cat.unit_buy_data cat_off) = false
  /\ NyankoPictureBookData.is_obtainable (Cat.nyanko_picture_book_data cat_off)
     = false
  /\ UnitBuyData.game_version (Cat.unit_buy_data cat_off) = -1
  /\ Cat.is_obtainable cat_off = false
  /\ (UnitBuyData.game_version (Cat.unit_buy_data cat') = -1
      <-> NyankoPictureBookData.obtainable (Cat.nyanko_picture_book_data cat')
          = false).
Proof.
  cbn. repeat split; try reflexivity.
  - intros H. by apply unit_buy_set_obtainable_version in H.
  - intros H. by apply unit_buy_set_obtainable_version.
Qed.

End CatFacts.

(** ** Canonical width of the unit records *)

Lemma lookup_repeat {A : Type} (x : A) (n i : nat) :
  (i < n)%nat -> repeat x n !! i = Some x.
Proof.
  revert i. induction n as [|n IH]; intros i Hi; [lia |].
  destruct i as [|i]; [reflexivity |]. cbn. apply IH. lia.
Qed.

Module StatsFacts.

Lemma py_int_bool_int (b : bool) : py_int (py_bool (py_int b)) = py_int b.
Proof. destruct b; reflexivity. Qed.

Lemma pair_frames_from_pair_frames (x : Z) :
  Unit.Frames.pair_frames (Unit.Frames.from_pair_frames x) = x.
Proof.
  unfold Unit.Frames.pair_frames, Unit.Frames.from_pair_frames. cbn.
  apply Z.div_mul. lia.
Qed.

Lemma to_raw_data_length (s : Stats.t) : length (Stats.to_raw_data s) = 108%nat.
Proof. reflexivity. Qed.

Lemma extend_length (raw_data : list Z) :
  (length raw_data <= 108)%nat -> length (Stats.extend raw_data) = 108%nat.
Proof.
  intros H. unfold Stats.extend. rewrite length_app, repeat_length. lia.
Qed.

#[local] Arguments py_int : simpl never.
#[local] Arguments py_bool : simpl never.
#[local] Arguments Unit.Frames.pair_frames : simpl never.
#[local] Arguments Unit.Frames.from_pair_frames : simpl never.

(** Reading back the row a record writes gives a record that writes the
    same row. *)
Lemma init_to_raw_data (s : Stats.t) (cat_id : Z) (form : FormType.t) :
  exists s', Stats.init cat_id form (Stats.to_raw_data s) = Ok s'
             /\ Stats.to_raw_data s' = Stats.to_raw_data s.
Proof.
  unfold Stats.init, Stats.extend, Stats.assign.
  destruct s. cbn.
  eexists. split; [reflexivity |].
  unfold Stats.to_raw_data. cbn.
  rewrite !py_int_bool_int, !pair_frames_from_pair_frames. reflexivity.
Qed.

Lemma py_getitem_Some {A : Type} (l : list A) (i : Z) (x : A) :
  0 <= i -> l !! Z.to_nat i = Some x -> py_getitem l i = Ok x.
Proof.
  intros Hi Hx. unfold py_getitem.
  pose proof (lookup_lt_Some _ _ _ Hx) as Hlt.
  destruct (Z.ltb_spec i 0); [lia |].
  destruct (Z.ltb_spec i 0); [lia |].
  destruct (Z.leb_spec (Z.of_nat (length l)) i); [lia |].
  cbn. by rewrite Hx.
Qed.

Ltac read_slots :=
  repeat match goal with
    | |- context [py_getitem ?l ?i] =>
        rewrite (py_getitem_Some l i _ ltac:(lia) eq_refl)
    end.

Tactic Notation "at_least" integer(n) ident(l) ident(H) :=
  do n (destruct l as [|? l]; [cbn in H; lia |]).

(** [assign] raises on no row of 108 or more slots. *)
Lemma assign_total (cat_id : Z) (form : FormType.t) (raw_data : list Z) :
  (108 <= length raw_data)%nat ->
  exists s, Stats.assign cat_id form raw_data = Ok s.
Proof.
  intros H. at_least 108 raw_data H.
  unfold Stats.assign. read_slots. cbn. eexists. reflexivity.
Qed.

Lemma extend_ge (raw_data : list Z) : (108 <= length (Stats.extend raw_data))%nat.
Proof. unfold Stats.extend. rewrite length_app, repeat_length. lia. Qed.

(** The constructor never raises. *)
Lemma init_total (cat_id : Z) (form : FormType.t) (raw_data : list Z) :
  exists s, Stats.init cat_id form raw_data = Ok s.
Proof. apply assign_total, extend_ge. Qed.

Lemma extend_lookup_old (raw_data : list Z) (i : nat) :
  (i < length raw_data)%nat -> Stats.extend raw_data !! i = raw_data !! i.
Proof. intros H. unfold Stats.extend. by apply lookup_app_l. Qed.

Lemma extend_lookup_new (raw_data : list Z) (i : nat) :
  (length raw_data <= i < 108)%nat -> Stats.extend raw_data !! i = Some 0.
Proof.
  intros H. unfold Stats.extend. rewrite lookup_app_r by lia.
  apply lookup_repeat. lia.
Qed.

Lemma py_bool_int_bool (x : Z) : py_bool (py_int (py_bool x)) = py_bool x.
Proof. unfold py_bool, py_int. by destruct (x =? 0). Qed.

(** A record read from a row is what reading the row it writes gives: the
    reader undoes the writer on everything the reader can build. *)
Lemma assign_init (cat_id : Z) (form : FormType.t) (row : list Z)
    (s : Stats.t) :
  (108 <= length row)%nat ->
  Stats.assign cat_id form row = Ok s ->
  Stats.init cat_id form (Stats.to_raw_data s) = Ok s.
Proof.
  intros H. at_least 108 row H.
  unfold Stats.assign at 1. read_slots. cbn. intros [= <-].
  unfold Stats.init, Stats.extend, Stats.to_raw_data. cbn.
  unfold Stats.assign. read_slots. cbn.
  rewrite !py_bool_int_bool, !pair_frames_from_pair_frames. reflexivity.
Qed.

End StatsFacts.

Module UnitBuyFacts.
Import StatsFacts.

Lemma rarity_of_value_value (r : Rarity.t) : Rarity.of_value (Rarity.value r) = Ok r.
Proof. destruct r; reflexivity. Qed.

Lemma gatcha_rarity_of_value_value (r : GatchaRarity.t) :
  GatchaRarity.of_value (GatchaRarity.value r) = Ok r.
Proof. destruct r; reflexivity. Qed.

Lemma to_list_length (e : Unit.EvolveItems.t) :
  length (Unit.EvolveItems.to_list e)
  = (2 * length (Unit.EvolveItems.evolve_items e))%nat.
Proof.
  unfold Unit.EvolveItems.to_list.
  induction (Unit.EvolveItems.evolve_items e) as [|it l IH]; [reflexivity |].
  cbn [flat_map length app]. rewrite IH. lia.
Qed.

Lemma unit_buy_to_raw_data_length (u : UnitBuyData.t) :
  UnitBuyData.well_formed u -> length (UnitBuyData.to_raw_data u) = 63%nat.
Proof.
  intros [Hu He]. unfold UnitBuyData.to_raw_data.
  rewrite !length_app, to_list_length, Hu, He. reflexivity.
Qed.

Lemma unit_buy_extend_ge (raw_data : list Z) :
  (63 <= length (UnitBuyData.extend raw_data))%nat.
Proof. unfold UnitBuyData.extend. rewrite length_app, repeat_length. lia. Qed.

Lemma unit_buy_extend_length (raw_data : list Z) :
  (length raw_data <= 63)%nat -> length (UnitBuyData.extend raw_data) = 63%nat.
Proof.
  intros H. unfold UnitBuyData.extend. rewrite length_app, repeat_length. lia.
Qed.

Lemma unit_buy_extend_lookup_old (raw_data : list Z) (i : nat) :
  (i < length raw_data)%nat -> UnitBuyData.extend raw_data !! i = raw_data !! i.
Proof. intros H. unfold UnitBuyData.extend. by apply lookup_app_l. Qed.

Lemma unit_buy_extend_lookup_new (raw_data : list Z) (i : nat) :
  (length raw_data <= i < 63)%nat -> UnitBuyData.extend raw_data !! i = Some 0.
Proof.
  intros H. unfold UnitBuyData.extend. rewrite lookup_app_r by lia.
  apply lookup_repeat. lia.
Qed.

#[local] Arguments Rarity.of_value : simpl never.
#[local] Arguments GatchaRarity.of_value : simpl never.
#[local] Arguments Rarity.value : simpl never.
#[local] Arguments GatchaRarity.value : simpl never.

(** On a row of 63 or more slots, [assign] raises exactly when slot 13 or
    slot 17 is not the value of a rarity; the record it builds is well
    formed. *)
Lemma assign_result (cat_id : Z) (raw_data : list Z) :
  (63 <= length raw_data)%nat ->
  match UnitBuyData.assign cat_id raw_data with
  | Ok u =>
      UnitBuyData.well_formed u
      /\ Rarity.of_value (nth 13 raw_data 0) = Ok (UnitBuyData.rarity u)
      /\ GatchaRarity.of_value (nth 17 raw_data 0)
         = Ok (UnitBuyData.gatya_rarity u)
  | Raise e =>
      Rarity.of_value (nth 13 raw_data 0) = Raise e
      \/ GatchaRarity.of_value (nth 17 raw_data 0) = Raise e
  end.
Proof.
  intros H. at_least 63 raw_data H.
  unfold UnitBuyData.assign. read_slots. cbn.
  destruct (Rarity.of_value _) as [r|e]; cbn; [| by left].
  destruct (GatchaRarity.of_value _) as [g|e]; cbn; [| by right].
  repeat split.
Qed.

Lemma init_well_formed (cat_id : Z) (raw_data : list Z) (u : UnitBuyData.t) :
  UnitBuyData.init cat_id raw_data = Ok u -> UnitBuyData.well_formed u.
Proof.
  unfold UnitBuyData.init. intros H.
  pose proof (assign_result cat_id _ (unit_buy_extend_ge raw_data)) as Hr.
  rewrite H in Hr. apply Hr.
Qed.

(** Reading back the row a well-formed record writes gives a record that
    writes the same row. *)
Lemma unit_buy_init_to_raw_data (u : UnitBuyData.t) (cat_id : Z) :
  UnitBuyData.well_formed u ->
  exists u', UnitBuyData.init cat_id (UnitBuyData.to_raw_data u) = Ok u'
             /\ UnitBuyData.to_raw_data u' = UnitBuyData.to_raw_data u.
Proof.
  intros [Hu He]. destruct u; cbn in Hu, He.
  destruct evolve_items as [items]; cbn in He.
  do 10 (destruct upgrade_costs as [|? upgrade_costs]; [discriminate Hu |]).
  destruct upgrade_costs; [| discriminate Hu].
  do 10 (destruct items as [|[? ?] items]; [discriminate He |]).
  destruct items; [| discriminate He].
  destruct second_form_levels, third_form_levels.
  unfold UnitBuyData.init, UnitBuyData.extend, UnitBuyData.to_raw_data.
  cbn. unfold UnitBuyData.assign. read_slots. cbn.
  rewrite rarity_of_value_value. cbn.
  rewrite gatcha_rarity_of_value_value. cbn.
  eexists. split; reflexivity.
Qed.

(** Reading back the row a well-formed record writes, under the record's
    own id, gives the record itself. *)
Lemma unit_buy_init_exact (u : UnitBuyData.t) :
  UnitBuyData.well_formed u ->
  UnitBuyData.init (UnitBuyData.cat_id u) (UnitBuyData.to_raw_data u) = Ok u.
Proof.
  intros [Hu He]. destruct u; cbn in Hu, He.
  destruct evolve_items as [items]; cbn in He.
  do 10 (destruct upgrade_costs as [|? upgrade_costs]; [discriminate Hu |]).
  destruct upgrade_costs; [| discriminate Hu].
  do 10 (destruct items as [|[? ?] items]; [discriminate He |]).
  destruct items; [| discriminate He].
  destruct second_form_levels, third_form_levels.
  unfold UnitBuyData.init, UnitBuyData.extend, UnitBuyData.to_raw_data.
  cbn. unfold UnitBuyData.assign. read_slots. cbn.
  rewrite rarity_of_value_value. cbn.
  rewrite gatcha_rarity_of_value_value. cbn.
  reflexivity.
Qed.

Lemma init_cat_id (cat_id : Z) (raw_data : list Z) (u : UnitBuyData.t) :
  UnitBuyData.init cat_id raw_data = Ok u -> UnitBuyData.cat_id u = cat_id.
Proof.
  unfold UnitBuyData.init, UnitBuyData.assign.
  repeat (match goal with
          | |- context [mbind _ ?m] => destruct m; cbn [mbind result_bind]
          end; try discriminate).
  by intros [= <-].
Qed.

End UnitBuyFacts.

Module CanonicalWidth.

(** C7: a [Stats] record written to its raw list and read back compares
    equal to itself ([Stats.__eq__]), and the raw list has 108 entries; a
    record the constructor built is read back as the very same record,
    field by field; a raw list shorter than 108 is extended with zeros to
    108 entries before it is read, and the constructor then succeeds. The
    same holds for [UnitBuyData] with 63 entries, for the records its
    constructor builds (ten upgrade costs and ten evolve items), which are
    read back as the very same records; the constructor raises only on a
    rarity slot that is no rarity. *)
Theorem stats_and_unit_buy_canonical_width :
  (forall (s : Stats.t) (cat_id : Z) (form : FormType.t),
      length (Stats.to_raw_data s) = 108%nat
      /\ exists s', Stats.init cat_id form (Stats.to_raw_data s) = Ok s'
                    /\ Stats.eqb s' s = true
                    /\ Stats.init cat_id form (Stats.to_raw_data s') = Ok s')
  /\ (forall (cat_id : Z) (form : FormType.t) (raw_data : list Z) (s : Stats.t),
        Stats.init cat_id form raw_data = Ok s ->
        Stats.init cat_id form (Stats.to_raw_data s) = Ok s)
  /\ (forall (raw_data : list Z) (cat_id : Z) (form : FormType.t),
        (length raw_data < 108)%nat ->
        Stats.extend raw_data = raw_data ++ repeat 0 (108 - length raw_data)
        /\ length (Stats.extend raw_data) = 108%nat
        /\ exists s, Stats.init cat_id form raw_data = Ok s
                     /\ Stats.assign cat_id form (Stats.extend raw_data) = Ok s
                     /\ length (Stats.to_raw_data s) = 108%nat)
  /\ (forall (u : UnitBuyData.t) (cat_id : Z),
        UnitBuyData.well_formed u ->
        length (UnitBuyData.to_raw_data u) = 63%nat
        /\ UnitBuyData.init (UnitBuyData.cat_id u) (UnitBuyData.to_raw_data u)
           = Ok u
        /\ exists u', UnitBuyData.init cat_id (UnitBuyData.to_raw_data u) = Ok u'
                      /\ UnitBuyData.eqb u' u = true)
  /\ (forall (cat_id : Z) (raw_data : list Z) (u : UnitBuyData.t),
        UnitBuyData.init cat_id raw_data = Ok u ->
        UnitBuyData.well_formed u
        /\ length (UnitBuyData.to_raw_data u) = 63%nat
        /\ UnitBuyData.init cat_id (UnitBuyData.to_raw_data u) = Ok u)
  /\ (forall (raw_data : list Z) (cat_id : Z),
        (length raw_data < 63)%nat ->
        UnitBuyData.extend raw_data = raw_data ++ repeat 0 (63 - length raw_data)
        /\ length (UnitBuyData.extend raw_data) = 63%nat
        /\ UnitBuyData.init cat_id raw_data
           = UnitBuyData.assign cat_id (UnitBuyData.extend raw_data)).
Proof.
  split; [| split; [| split; [| split; [| split]]]].
  - intros s cat_id form. split; [reflexivity |].
    destruct (StatsFacts.init_to_raw_data s cat_id form) as (s' & Hs' & Heq).
    exists s'. split; [exact Hs' |]. split.
    + unfold Stats.eqb. by apply bool_decide_eq_true.
    + apply (StatsFacts.assign_init cat_id form
               (Stats.extend (Stats.to_raw_data s)));
        [apply StatsFacts.extend_ge | exact Hs'].
  - intros cat_id form raw_data s Hs.
    apply (StatsFacts.assign_init cat_id form (Stats.extend raw_data));
      [apply StatsFacts.extend_ge | exact Hs].
  - intros raw_data cat_id form Hlen. split; [reflexivity |].
    split; [apply StatsFacts.extend_length; lia |].
    destruct (StatsFacts.init_total cat_id form raw_data) as [s Hs].
    exists s. repeat split; exact Hs.
  - intros u cat_id Hwf.
    split; [by apply UnitBuyFacts.unit_buy_to_raw_data_length |].
    split; [by apply UnitBuyFacts.unit_buy_init_exact |].
    destruct (UnitBuyFacts.unit_buy_init_to_raw_data u cat_id Hwf) as (u' & Hu' & Heq).
    exists u'. split; [exact Hu' |].
    unfold UnitBuyData.eqb. by apply bool_decide_eq_true.
  - intros cat_id raw_data u Hu.
    pose proof (UnitBuyFacts.init_well_formed _ _ _ Hu) as Hwf.
    split; [exact Hwf |].
    split; [by apply UnitBuyFacts.unit_buy_to_raw_data_length |].
    rewrite <- (UnitBuyFacts.init_cat_id _ _ _ Hu) at 1.
    by apply UnitBuyFacts.unit_buy_init_exact.
  - intros raw_data cat_id Hlen. split; [reflexivity |].
    split; [apply UnitBuyFacts.unit_buy_extend_length; lia |].
    reflexivity.
Qed.

(** The theorem at the rows [[5; 3]]: a [Stats] row and a [UnitBuyData] row
    of two slots are extended to 108 and to 63 slots, and the records built
    from them are written at those widths and read back as themselves. *)
Lemma stats_and_unit_buy_canonical_width_witness :
  length (Stats.extend [5; 3]) = 108%nat
  /\ length (UnitBuyData.extend [5; 3]) = 63%nat
  /\ match Stats.init 0 FormType.FIRST [5; 3] with
     | Ok s =>
         length (Stats.to_raw_data s) = 108%nat
         /\ Stats.init 0 FormType.FIRST (Stats.to_raw_data s) = Ok s
     | Raise _ => False
     end
  /\ match UnitBuyData.init 0 [5; 3] with
     | Ok u =>
         length (UnitBuyData.to_raw_data u) = 63%nat
         /\ UnitBuyData.init 0 (UnitBuyData.to_raw_data u) = Ok u
     | Raise _ => False
     end.
Proof.
  destruct stats_and_unit_buy_canonical_width
    as (Hany & Hbuilt & Hs & _ & Hubuilt & Hu).
  split; [apply (Hs [5; 3] 0 FormType.FIRST); cbn; lia |].
  split; [apply (Hu [5; 3] 0); cbn; lia |].
  split.
  - destruct (Stats.init 0 FormType.FIRST [5; 3]) as [s|e] eqn:Hinit.
    + split; [apply (Hany s 0 FormType.FIRST) |].
      apply (Hbuilt 0 FormType.FIRST [5; 3]). exact Hinit.
    + vm_compute in Hinit. discriminate Hinit.
  - destruct (UnitBuyData.init 0 [5; 3]) as [u|e] eqn:Hinit.
    + destruct (Hubuilt 0 [5; 3] u Hinit) as (_ & Hlen & Hback).
      split; [exact Hlen | exact Hback].
    + vm_compute in Hinit. discriminate Hinit.
Defined.

End CanonicalWidth.

(** ** Pack ciphers *)

Module CipherFacts.

Section WithPrimitives.
Context (P : Primitives).

Lemma get_cipher_from_pack_legacy cc pack_name gv force_server key iv :
  is_server_pack pack_name || GameVersion.ltb gv GameVersion.v8_9_0
    || force_server = true ->
  AesCipher.get_cipher_from_pack P cc pack_name gv force_server key iv
  = Ok (AesCipher.mk (AesCipher.server_key P) None MODE_ECB
          (force_server || negb (is_image_data_local_pack pack_name))).
Proof.
  intros H. unfold AesCipher.get_cipher_from_pack.
  destruct (AesCipher.get_key_iv_from_cc cc) as [key_ iv_].
  rewrite H. unfold AesCipher.init. by destruct force_server.
Qed.

Lemma get_cipher_from_pack_enable cc pack_name gv force_server key iv c :
  AesCipher.get_cipher_from_pack P cc pack_name gv force_server key iv = Ok c ->
  AesCipher.enable c
  = force_server || negb (is_image_data_local_pack pack_name).
Proof.
  unfold AesCipher.get_cipher_from_pack.
  destruct (AesCipher.get_key_iv_from_cc cc) as [key_ iv_].
  destruct (_ || _ || force_server).
  - intros [= <-]. cbn. by destruct force_server.
  - do 2 destruct (bytes_fromhex P _); cbn; try discriminate.
    intros [= <-]. cbn. by destruct force_server.
Qed.

Lemma disabled_cipher_identity (c : AesCipher.t) (d : bytes) :
  AesCipher.enable c = false ->
  AesCipher.encrypt P c d = Ok d /\ AesCipher.decrypt P c d = Ok d.
Proof.
  intros H. unfold AesCipher.encrypt, AesCipher.decrypt. by rewrite H.
Qed.

(** C5, amended: for a Server pack, a game version below 8.9.0 or forced
    server mode, the cipher is AES-ECB without iv under the key made of the
    first 8 bytes of md5("battlecats"), as a hexadecimal string, in UTF-8;
    the cipher of an ImageDataLocal pack is bypassed, encrypt and decrypt
    being the identity, unless server mode is forced, and this whatever key
    and iv the caller supplies. *)
Theorem get_cipher_from_pack_derivation (cc : CountryCode.t)
    (pack_name : string) (gv : GameVersion.t) (force_server : bool)
    (key iv : option string) :
  (is_server_pack pack_name || GameVersion.ltb gv GameVersion.v8_9_0
     || force_server = true ->
   AesCipher.get_cipher_from_pack P cc pack_name gv force_server key iv
   = Ok (AesCipher.mk
           (Data.of_str
              (Data.to_hex (take 8 (md5_digest P (Data.of_str "battlecats")))))
           None MODE_ECB
           (force_server || negb (is_image_data_local_pack pack_name))))
  /\ (forall c : AesCipher.t,
        AesCipher.get_cipher_from_pack P cc pack_name gv force_server key iv
        = Ok c ->
        AesCipher.enable c
        = force_server || negb (is_image_data_local_pack pack_name))
  /\ (forall c : AesCipher.t,
        AesCipher.get_cipher_from_pack P cc pack_name gv force_server key iv
        = Ok c ->
        is_image_data_local_pack pack_name = true ->
        force_server = false ->
        forall d : bytes,
          AesCipher.encrypt P c d = Ok d /\ AesCipher.decrypt P c d = Ok d).
Proof.
  split; [| split].
  - apply get_cipher_from_pack_legacy.
  - apply get_cipher_from_pack_enable.
  - intros c Hc Himg Hforce d. apply disabled_cipher_identity.
    rewrite (get_cipher_from_pack_enable _ _ _ _ _ _ _ Hc), Himg, Hforce.
    reflexivity.
Qed.

End WithPrimitives.

(** The derivation at the MapServer pack of a modern English game. *)
Lemma get_cipher_from_pack_derivation_witness :
  AesCipher.get_cipher_from_pack Sample.primitives CountryCode.EN
    "MapServer" Sample.gv false None None
  = Ok (AesCipher.mk
          (Data.of_str
             (Data.to_hex
                (take 8 (md5_digest Sample.primitives
                           (Data.of_str "battlecats")))))
          None MODE_ECB true).
Proof.
  apply (get_cipher_from_pack_derivation Sample.primitives CountryCode.EN
           "MapServer" Sample.gv false None None).
  reflexivity.
Defined.

(** C5, as stated, fails: rewriting the ImageDataLocal pack of a modern
    game with a new key and iv yields a cipher that is still bypassed,
    [encrypt] being the identity. *)
Lemma new_key_keeps_image_data_local_bypassed :
  AesCipher.get_cipher_from_pack Sample.primitives CountryCode.EN
    "ImageDataLocal" Sample.gv false (Some Sample.new_key)
    (Some Sample.new_iv)
  = Ok (AesCipher.mk
          [x00; x01; x02; x03; x04; x05; x06; x07;
           x08; x09; x0a; x0b; x0c; x0d; x0e; x0f]
          (Some [x0f; x0e; x0d; x0c; x0b; x0a; x09; x08;
                 x07; x06; x05; x04; x03; x02; x01; x00])
          MODE_CBC false)
  /\ (c ← AesCipher.get_cipher_from_pack Sample.primitives CountryCode.EN
            "ImageDataLocal" Sample.gv false (Some Sample.new_key)
            (Some Sample.new_iv);
      AesCipher.encrypt Sample.primitives c [x01; x02])
     = Ok [x01; x02]
  /\ GameVersion.geb Sample.gv GameVersion.v8_9_0 = true.
Proof. vm_compute. repeat split. Qed.

End CipherFacts.

(** ** Re-encrypting a file *)

Module GameFileFacts.

#[local] Arguments is_image_data_local_pack : simpl never.
#[local] Arguments is_server_pack : simpl never.
#[local] Arguments Data.pad_pkcs7 : simpl never.

Lemma pad_pkcs7_longer (d : bytes) : (length d < length (Data.pad_pkcs7 d))%nat.
Proof.
  unfold Data.pad_pkcs7. rewrite length_app, repeat_length.
  pose proof (Nat.mod_upper_bound (length d) 16). lia.
Qed.

Section WithPrimitives.
Context (P : Primitives).

(** A file that counts as unmodified gives back its ciphertext, whatever
    key and iv are passed. *)
Lemma encrypt_unmodified (f : GameFile.t) (enc : bytes) (force_server : bool)
    (key iv : option string) :
  GameFile.enc_data f = Some enc ->
  GameFile.unmodified f = true ->
  GameFile.encrypt P f force_server key iv = Ok enc.
Proof. intros He Hu. unfold GameFile.encrypt. by rewrite He, Hu. Qed.

(** No method assigns [original_dec_data], so a file whose plaintext is in
    memory never counts as unmodified. *)
Lemma cached_never_unmodified (f : GameFile.t) (d : bytes) :
  GameFile.original_dec_data f = None ->
  GameFile.dec_data_ f = Some d ->
  GameFile.unmodified f = false.
Proof. intros Ho Hd. unfold GameFile.unmodified. by rewrite Hd, Ho. Qed.

Lemma dec_data_keeps_original (f f' : GameFile.t) (d : bytes) :
  GameFile.dec_data P f = Ok (d, f') ->
  GameFile.original_dec_data f' = GameFile.original_dec_data f
  /\ GameFile.enc_data f' = GameFile.enc_data f
  /\ GameFile.pack_name f' = GameFile.pack_name f
  /\ GameFile.dec_data_ f' = Some d.
Proof.
  unfold GameFile.dec_data.
  destruct (GameFile.dec_data_ f) as [d0|] eqn:Hd.
  - intros [= <- <-]. repeat split; done.
  - destruct (AesCipher.get_cipher_from_pack _ _ _ _ _ _ _); cbn; [| done].
    destruct (GameFile.enc_data f) eqn:He; [| done].
    destruct (AesCipher.decrypt _ _ _); cbn; [| done].
    intros [= <- <-]. cbn. repeat split; done.
Qed.

(** C1: a file loaded with its ciphertext gives it back from [encrypt]
    while its plaintext has not been read; once [dec_data] has been read,
    and nothing written, [encrypt] without key and iv encrypts again, and
    for a plaintext without valid PKCS#7 padding the result is not the
    original ciphertext (the cipher preserving length, as AES does). *)
Theorem encrypt_after_dec_data_read (f : GameFile.t) (enc raw : bytes)
    (c : AesCipher.t) (e : exn) :
  GameFile.enc_data f = Some enc ->
  GameFile.dec_data_ f = None ->
  GameFile.original_dec_data f = None ->
  is_image_data_local_pack (GameFile.pack_name f) = false ->
  (forall m k v x y, AES_encrypt P m k v x = Ok y -> length y = length x) ->
  (forall m k v x y, AES_decrypt P m k v x = Ok y -> length y = length x) ->
  AesCipher.get_cipher_from_pack P (GameFile.cc f) (GameFile.pack_name f)
    (GameFile.gv f) false (GameFile.key f) (GameFile.iv f) = Ok c ->
  AesCipher.decrypt P c enc = Ok raw ->
  Data.unpad_pkcs7 raw = Raise e ->
  GameFile.encrypt P f false None None = Ok enc
  /\ exists f' : GameFile.t,
       GameFile.dec_data P f = Ok (raw, f')
       /\ GameFile.enc_data f' = Some enc
       /\ GameFile.encrypt P f' false None None <> Ok enc.
Proof.
  intros Henc Hdec Horig Himg Hlen_e Hlen_d Hc Hraw Hunpad.
  split.
  { apply encrypt_unmodified; [exact Henc |].
    unfold GameFile.unmodified. by rewrite Hdec. }
  assert (Hread : GameFile.dec_data P f
                  = Ok (raw, GameFile.with_dec_data f (Some raw))).
  { unfold GameFile.dec_data. rewrite Hdec, Hc. cbn. rewrite Henc, Hraw. cbn.
    by rewrite Hunpad. }
  eexists. split; [exact Hread |]. split; [exact Henc |].
  assert (Hraw_len : length raw = length enc).
  { unfold AesCipher.decrypt in Hraw. destruct (negb (AesCipher.enable c)).
    - by injection Hraw as <-.
    - by apply Hlen_d in Hraw. }
  unfold GameFile.encrypt. cbn. rewrite Henc.
  unfold GameFile.unmodified. cbn. rewrite Horig. cbn.
  rewrite Himg. cbn.
  destruct (AesCipher.get_cipher_from_pack P _ _ _ false None None) as [c'|];
    cbn; [| discriminate].
  pose proof (pad_pkcs7_longer raw) as Hpad.
  unfold AesCipher.encrypt. destruct (negb (AesCipher.enable c')); intros Hout.
  - injection Hout as Hout. rewrite Hout in Hpad. lia.
  - apply Hlen_e in Hout. lia.
Qed.

End WithPrimitives.

Lemma block_cipher_length m k v x y :
  Sample.block_cipher m k v x = Ok y -> length y = length x.
Proof.
  unfold Sample.block_cipher. destruct (_ =? _)%nat; [| discriminate].
  intros [= <-]. apply length_map.
Qed.

(** The theorem at a file of the DataLocal pack whose sixteen bytes decrypt
    to sixteen zero bytes: before the read [encrypt] returns the sixteen
    bytes, after it a ciphertext of another length. *)
Lemma encrypt_after_dec_data_read_witness :
  GameFile.encrypt Sample.primitives Sample.unpadded_file false None None
  = Ok Sample.unpadded_enc
  /\ exists f' : GameFile.t,
       GameFile.dec_data Sample.primitives Sample.unpadded_file
       = Ok (repeat x00 16, f')
       /\ GameFile.enc_data f' = Some Sample.unpadded_enc
       /\ GameFile.encrypt Sample.primitives f' false None None
          <> Ok Sample.unpadded_enc.
Proof.
  eapply (encrypt_after_dec_data_read Sample.primitives Sample.unpadded_file
            Sample.unpadded_enc (repeat x00 16)).
  - reflexivity.
  - reflexivity.
  - reflexivity.
  - reflexivity.
  - apply block_cipher_length.
  - apply block_cipher_length.
  - vm_compute. reflexivity.
  - vm_compute. reflexivity.
  - vm_compute. reflexivity.
Defined.

End GameFileFacts.

(** ** Insertion-ordered dictionaries *)

Module DictFacts.

Section WithValues.
Context {V : Type}.
Implicit Types (d : Dict.t V) (k : string) (v : V).

Lemma get_set_eq d k v : Dict.get (Dict.set d k v) k = Some v.
Proof.
  induction d as [|[k' v'] d IH]; cbn.
  - by rewrite String.eqb_refl.
  - destruct (String.eqb_spec k' k) as [->|Hne]; cbn.
    + by rewrite String.eqb_refl.
    + destruct (String.eqb_spec k' k); [done | exact IH].
Qed.

Lemma get_set_ne d k k' v : k' <> k -> Dict.get (Dict.set d k v) k' = Dict.get d k'.
Proof.
  intros Hne. induction d as [|[k0 v0] d IH]; cbn.
  - destruct (String.eqb_spec k k'); [congruence | done].
  - destruct (String.eqb_spec k0 k) as [->|Hne0]; cbn.
    + destruct (String.eqb_spec k k'); [congruence | done].
    + destruct (String.eqb_spec k0 k'); [done | exact IH].
Qed.

(** Writing back the value a key has changes nothing. *)
Lemma set_same d k v : Dict.get d k = Some v -> Dict.set d k v = d.
Proof.
  induction d as [|[k' v'] d IH]; cbn; [done |].
  destruct (String.eqb_spec k' k) as [->|Hne].
  - by intros [= ->].
  - intros H. by rewrite IH.
Qed.

(** Replacing the value of a key by a related one gives a dictionary with
    the same keys, in the same order, and related values. *)
Lemma set_Forall2 (R : V -> V -> Prop) d k v v' :
  (forall x, R x x) ->
  Dict.get d k = Some v -> R v v' ->
  Forall2 (fun a b => b.1 = a.1 /\ R a.2 b.2) d (Dict.set d k v').
Proof.
  intros Hrefl. induction d as [|[k0 v0] d IH]; cbn; [done |].
  destruct (String.eqb_spec k0 k) as [->|Hne].
  - intros [= ->] HR. constructor; [done |].
    apply Forall2_same_length_lookup_2; [done |].
    intros i x y Hx Hy. rewrite Hx in Hy. injection Hy as <-. done.
  - intros Hget HR. constructor; [done | by apply IH].
Qed.

Lemma get_elem_of d k v : Dict.get d k = Some v -> (k, v) ∈ d.
Proof.
  induction d as [|[k' v'] d IH]; cbn; [done |].
  destruct (String.eqb_spec k' k) as [->|Hne].
  - intros [= ->]. left.
  - intros H. right. by apply IH.
Qed.

Lemma elem_of_get d k v : NoDup (Dict.keys d) -> (k, v) ∈ d -> Dict.get d k = Some v.
Proof.
  induction d as [|[k' v'] d IH]; cbn; intros Hnd Hin.
  - by apply elem_of_nil in Hin.
  - apply NoDup_cons in Hnd as [Hk' Hnd].
    apply elem_of_cons in Hin as [[= -> ->]|Hin].
    + by rewrite String.eqb_refl.
    + destruct (String.eqb_spec k' k) as [->|Hne]; [| by apply IH].
      exfalso. apply Hk'. apply list_elem_of_fmap. by exists (k, v).
Qed.

End WithValues.

End DictFacts.

(** ** The catalog *)

Module GamePacksFacts.

#[local] Arguments is_image_data_local_pack : simpl never.
#[local] Arguments is_server_pack : simpl never.
#[local] Arguments GamePacks.language_suffixed : simpl never.
#[local] Arguments GamePacks.should_reencrypt : simpl never.
#[local] Arguments PackFile.to_pack_list_file : simpl never.

Section WithPrimitives.
Context (P : Primitives).

(** The loop adds to the entries built so far those of the packs the
    filter keeps, in order. *)
Lemma to_packs_lists_loop_filter (self : GamePacks.t) (key iv : option string)
    (ps : Dict.t PackFile.t) (acc : list (string * bytes * bytes)) :
  GamePacks.to_packs_lists_loop P self key iv ps acc
  = rest ← collect
             (map (fun kp => PackFile.to_pack_list_file P kp.2 key iv)
                (List.filter
                   (fun kp =>
                      negb (is_server_pack kp.1)
                      && (GamePacks.dirty self kp.1 kp.2
                          || GamePacks.should_reencrypt self key iv))
                   ps));
    Ok (acc ++ rest).
Proof.
  revert acc. induction ps as [|[pack_name pack] ps IH]; intros acc.
  - cbn. by rewrite app_nil_r.
  - cbn [GamePacks.to_packs_lists_loop List.filter fst snd].
    unfold GamePacks.dirty at 1.
    destruct (_ || _ || _) eqn:Hsel; cbn [andb].
    + destruct (is_server_pack pack_name); cbn [negb andb]; [apply IH |].
      cbn [map collect fst snd].
      destruct (PackFile.to_pack_list_file P pack key iv) as [entry|e];
        cbn; [| reflexivity].
      rewrite IH. destruct (collect _); cbn; [| reflexivity].
      by rewrite <- app_assoc.
    + rewrite andb_false_r. apply IH.
Qed.

(** C4: [to_packs_lists] emits, in catalog order, exactly the packs that
    are no Server packs and are marked dirty (a key of [modified_packs] or
    the [modified] flag set), or every pack that is no Server pack when a
    new key or iv is supplied and the game version is at least 8.9.0; it
    raises when writing one of these packs raises. *)
Theorem to_packs_lists_emits (self : GamePacks.t) (key iv : option string) :
  GamePacks.to_packs_lists P self key iv
  = collect
      (map (fun kp => PackFile.to_pack_list_file P kp.2 key iv)
         (List.filter
            (fun kp =>
               negb (is_server_pack kp.1)
               && (bool_decide (is_Some (GamePacks.modified_packs self !! kp.1))
                   || PackFile.modified kp.2
                   || (bool_decide (key ≠ None) || bool_decide (iv ≠ None))
                      && GameVersion.geb (GamePacks.gv self)
                           GameVersion.v8_9_0))
            (GamePacks.packs self))).
Proof.
  unfold GamePacks.to_packs_lists. rewrite to_packs_lists_loop_filter.
  destruct (collect _); reflexivity.
Qed.

(** On the sample catalog whose second pack is marked dirty, that pack
    alone is written. *)
Example to_packs_lists_dirty_pack :
  match GamePacks.to_packs_lists Sample.primitives Sample.two_local_dirty
          None None with
  | Ok entries => map (fun e => e.1.1) entries = ["NumberLocal"]
  | Raise _ => False
  end.
Proof. vm_compute. reflexivity. Qed.

(** Writing new data to a file marks its pack, which is then the one
    written. *)
Example set_file_then_to_packs_lists :
  match GamePacks.set_file Sample.primitives Sample.two_local "foo.csv" [x09] with
  | Ok (f, s) =>
      GameFile.dec_data_ f = Some [x09]
      /\ match GamePacks.to_packs_lists Sample.primitives s None None with
         | Ok entries => map (fun e => e.1.1) entries = ["DataLocal"]
         | Raise _ => False
         end
  | Raise _ => False
  end.
Proof. vm_compute. split; reflexivity. Qed.

(** *** Looking a file up *)

Lemma found_files_elem (packs : Dict.t PackFile.t) (n k : string)
    (f : GameFile.t) :
  (k, f) ∈ GamePacks.found_files packs n ->
  GamePacks.language_suffixed k = false
  /\ exists p, (k, p) ∈ packs /\ Dict.get (PackFile.files p) n = Some f.
Proof.
  induction packs as [|[k' p'] packs IH]; cbn.
  - intros H. by apply elem_of_nil in H.
  - destruct (Dict.get (PackFile.files p') n) as [f'|] eqn:Hget.
    + destruct (GamePacks.language_suffixed k') eqn:Hlang.
      * intros H. destruct (IH H) as (? & p & ? & ?).
        split; [done |]. exists p. split; [by right | done].
      * intros H. apply elem_of_cons in H as [[= -> ->]|H].
        -- split; [done |]. exists p'. split; [left | done].
        -- destruct (IH H) as (? & p & ? & ?).
           split; [done |]. exists p. split; [by right | done].
    + intros H. destruct (IH H) as (? & p & ? & ?).
      split; [done |]. exists p. split; [by right | done].
Qed.

(** Packs without the file, or with a language suffix, contribute no
    candidate. *)
Lemma found_files_none (packs : Dict.t PackFile.t) (n : string) :
  Forall (fun kp => Dict.get (PackFile.files kp.2) n = None
                    \/ GamePacks.language_suffixed kp.1 = true) packs ->
  GamePacks.found_files packs n = [].
Proof.
  induction 1 as [|[k p] packs Hkp _ IH]; cbn; [done |].
  cbn in Hkp. destruct Hkp as [-> | Hlang]; [done |].
  rewrite Hlang. by destruct (Dict.get _ _).
Qed.

(** A file that only one pack without language suffix holds is the only
    candidate. *)
Lemma found_files_single (packs : Dict.t PackFile.t) (n k : string)
    (p : PackFile.t) (f : GameFile.t) :
  NoDup (Dict.keys packs) ->
  (k, p) ∈ packs ->
  GamePacks.language_suffixed k = false ->
  Dict.get (PackFile.files p) n = Some f ->
  (forall k' p', (k', p') ∈ packs -> k' <> k ->
                 is_Some (Dict.get (PackFile.files p') n) ->
                 GamePacks.language_suffixed k' = true) ->
  GamePacks.found_files packs n = [(k, f)].
Proof.
  intros Hnd Hin Hlang Hget Hothers.
  induction packs as [|[k' p'] packs IH]; [by apply elem_of_nil in Hin |].
  cbn in Hnd. apply NoDup_cons in Hnd as [Hk' Hnd].
  assert (Hkeys : forall k0 p0, (k0, p0) ∈ packs -> k0 <> k').
  { intros k0 p0 H0 ->. apply Hk'. apply list_elem_of_fmap. by exists (k', p0). }
  apply elem_of_cons in Hin as [[= <- <-]|Hin].
  - cbn. rewrite Hget, Hlang. f_equal.
    apply found_files_none. apply Forall_forall. intros [k0 p0] H0. cbn.
    destruct (Dict.get (PackFile.files p0) n) eqn:Hg; [right | by left].
    apply (Hothers k0 p0); [by right | by eapply Hkeys | done].
  - cbn. assert (Hne : k' <> k) by (intros ->; by eapply Hkeys).
    destruct (Dict.get (PackFile.files p') n) eqn:Hg.
    + rewrite (Hothers k' p'); [| left | done | done].
      apply IH; [done | done |].
      intros k0 p0 H0. apply Hothers. by right.
    + apply IH; [done | done |].
      intros k0 p0 H0. apply Hothers. by right.
Qed.

Lemma find_file_elem (self s' : GamePacks.t) (n k : string) (f : GameFile.t) :
  GamePacks.find_file P self n = Ok (Some (k, f), s') ->
  exists f0, (k, f0) ∈ GamePacks.found_files (GamePacks.packs self) n.
Proof.
  unfold GamePacks.find_file.
  destruct (GamePacks.found_files _ _) as [|[k0 f0] [|[k1 f1] [|? ?]]];
    try discriminate.
  - intros [= <- <- <-]. exists f0. left.
  - destruct (negb (is_server_pack (GameFile.pack_name f0))).
    { intros [= <- <- <-]. exists f0. left. }
    destruct (negb (is_server_pack (GameFile.pack_name f1))).
    { intros [= <- <- <-]. exists f1. right. left. }
    destruct (GameFile.dec_data P f0) as [[d0 f0']|];
      cbn [mbind result_bind]; [| discriminate].
    destruct (GameFile.dec_data P f1) as [[d1 f1']|];
      cbn [mbind result_bind]; [| discriminate].
    destruct (_ <? _)%nat.
    { intros [= <- <- <-]. exists f0. left. }
    destruct (_ <? _)%nat.
    { intros [= <- <- <-]. exists f1. right. left. }
    intros [= <- <- <-]. exists f0. left.
Qed.

(** C3, amended: [find_file] leaves out the entries of every pack with a
    language suffix, the suffix of the catalog's own language included: it
    never returns an entry of such a pack, and a file held by one pack
    without language suffix and by any packs with one resolves to the copy
    of the pack without. *)
Theorem find_file_skips_language_packs (self : GamePacks.t) (n : string) :
  (forall (k : string) (f : GameFile.t) (s' : GamePacks.t),
      GamePacks.find_file P self n = Ok (Some (k, f), s') ->
      GamePacks.language_suffixed k = false)
  /\ (forall (k : string) (p : PackFile.t) (f : GameFile.t),
        NoDup (Dict.keys (GamePacks.packs self)) ->
        (k, p) ∈ GamePacks.packs self ->
        GamePacks.language_suffixed k = false ->
        Dict.get (PackFile.files p) n = Some f ->
        (forall k' p', (k', p') ∈ GamePacks.packs self -> k' <> k ->
                       is_Some (Dict.get (PackFile.files p') n) ->
                       GamePacks.language_suffixed k' = true) ->
        GamePacks.find_file P self n = Ok (Some (k, f), self)).
Proof.
  split.
  - intros k f s' H. apply find_file_elem in H as [f0 H].
    by apply found_files_elem in H as [? _].
  - intros k p f Hnd Hin Hlang Hget Hothers. unfold GamePacks.find_file.
    by rewrite (found_files_single _ _ _ _ _ Hnd Hin Hlang Hget Hothers).
Qed.

(** C2, amended: with exactly two candidates, the first-inserted one wins
    when its pack is Local; otherwise the second wins when its pack is
    Local; when both packs are Server packs the larger plaintext wins and
    the first-inserted one on equal lengths. Two Local candidates are thus
    not compared by length. With three candidates or more the result is
    [None]. *)
Theorem find_file_ranking (self : GamePacks.t) (n : string) :
  (forall k0 f0 k1 f1,
      GamePacks.found_files (GamePacks.packs self) n = [(k0, f0); (k1, f1)] ->
      (is_server_pack (GameFile.pack_name f0) = false ->
       GamePacks.find_file P self n = Ok (Some (k0, f0), self))
      /\ (is_server_pack (GameFile.pack_name f0) = true ->
          is_server_pack (GameFile.pack_name f1) = false ->
          GamePacks.find_file P self n = Ok (Some (k1, f1), self))
      /\ (is_server_pack (GameFile.pack_name f0) = true ->
          is_server_pack (GameFile.pack_name f1) = true ->
          forall d0 f0' d1 f1',
            GameFile.dec_data P f0 = Ok (d0, f0') ->
            GameFile.dec_data P f1 = Ok (d1, f1') ->
            exists s',
              GamePacks.find_file P self n
              = Ok (Some (if (length d0 <? length d1)%nat
                          then (k1, f1') else (k0, f0')), s')))
  /\ ((3 <= length (GamePacks.found_files (GamePacks.packs self) n))%nat ->
      GamePacks.find_file P self n = Ok (None, self)).
Proof.
  split.
  - intros k0 f0 k1 f1 Hfound. unfold GamePacks.find_file. rewrite Hfound.
    split; [| split].
    + by intros ->.
    + by intros -> ->.
    + intros -> -> d0 f0' d1 f1' -> ->. cbn [mbind result_bind negb].
      destruct (Nat.ltb_spec (length d1) (length d0)),
               (Nat.ltb_spec (length d0) (length d1));
        try lia; by eexists.
  - unfold GamePacks.find_file.
    destruct (GamePacks.found_files _ _) as [|[? ?] [|[? ?] [|? ?]]];
      cbn [length]; intros H; first [lia | reflexivity].
Qed.

(** *** What a lookup and an unchanged write leave behind *)

Lemma dec_data_cache_filled (f f' : GameFile.t) (d : bytes) :
  GameFile.dec_data P f = Ok (d, f') -> Frame.cache_filled P f f'.
Proof.
  intros H. destruct (GameFile.dec_data_ f) eqn:Hd.
  - left. unfold GameFile.dec_data in H. rewrite Hd in H. by injection H.
  - right. split; [done | by exists d].
Qed.

Lemma cache_filled_trans (f f' f'' : GameFile.t) :
  Frame.cache_filled P f f' -> Frame.cache_filled P f' f'' ->
  Frame.cache_filled P f f''.
Proof.
  intros Hfst Hsnd. destruct Hfst as [->|[Hnone [d Hd]]]; [exact Hsnd |].
  destruct Hsnd as [->|[Hnone' _]]; [right; split; [done | by exists d] |].
  apply GameFileFacts.dec_data_keeps_original in Hd as (_ & _ & _ & Hd).
  congruence.
Qed.

Lemma Forall2_keyed_trans {A : Type} (R : A -> A -> Prop)
    (l1 l2 l3 : list (string * A)) :
  (forall x y z, R x y -> R y z -> R x z) ->
  Forall2 (fun a b => b.1 = a.1 /\ R a.2 b.2) l1 l2 ->
  Forall2 (fun a b => b.1 = a.1 /\ R a.2 b.2) l2 l3 ->
  Forall2 (fun a b => b.1 = a.1 /\ R a.2 b.2) l1 l3.
Proof.
  intros Htrans H12. revert l3.
  induction H12 as [|a b l1 l2 [Hk HR] _ IH]; intros l3 H23.
  - by inversion H23.
  - inversion H23 as [|b' c l2' l3' [Hk' HR'] Hrest]; subst.
    constructor; [| by apply IH].
    split; [congruence | by eapply Htrans].
Qed.

Lemma Forall2_keyed_refl {A : Type} (R : A -> A -> Prop) (l : list (string * A)) :
  (forall x, R x x) -> Forall2 (fun a b => b.1 = a.1 /\ R a.2 b.2) l l.
Proof. intros Hrefl. induction l; constructor; done. Qed.

Lemma same_pack_refl (p : PackFile.t) : Frame.same_pack_but_cache P p p.
Proof.
  repeat split. apply Forall2_keyed_refl. intros x. by left.
Qed.

Lemma same_pack_trans (p p' p'' : PackFile.t) :
  Frame.same_pack_but_cache P p p' -> Frame.same_pack_but_cache P p' p'' ->
  Frame.same_pack_but_cache P p p''.
Proof.
  intros (Ea & Eb & Ec & Ed & Hfst) (Ea' & Eb' & Ec' & Ed' & Hsnd).
  repeat split; try congruence.
  eapply Forall2_keyed_trans;
    [apply cache_filled_trans | exact Hfst | exact Hsnd].
Qed.

Lemma same_but_cache_refl (s : GamePacks.t) : Frame.same_but_cache P s s.
Proof. repeat split. apply Forall2_keyed_refl, same_pack_refl. Qed.

Lemma same_but_cache_trans (s s' s'' : GamePacks.t) :
  Frame.same_but_cache P s s' -> Frame.same_but_cache P s' s'' ->
  Frame.same_but_cache P s s''.
Proof.
  intros (Ea & Eb & Ec & Hfst) (Ea' & Eb' & Ec' & Hsnd).
  repeat split; try congruence.
  eapply Forall2_keyed_trans;
    [apply same_pack_trans | exact Hfst | exact Hsnd].
Qed.

Lemma store_file_same (s : GamePacks.t) (k n : string) (p : PackFile.t)
    (f f' : GameFile.t) :
  Dict.get (GamePacks.packs s) k = Some p ->
  Dict.get (PackFile.files p) n = Some f ->
  Frame.cache_filled P f f' ->
  Frame.same_but_cache P s (GamePacks.store_file s k n f').
Proof.
  intros Hp Hf Hfill. unfold GamePacks.store_file. rewrite Hp.
  repeat split. cbn.
  apply (DictFacts.set_Forall2 (Frame.same_pack_but_cache P) _ _ p);
    [apply same_pack_refl | exact Hp |].
  repeat split. cbn.
  apply (DictFacts.set_Forall2 (Frame.cache_filled P) _ _ f);
    [by left | exact Hf | exact Hfill].
Qed.

Lemma store_file_get (s : GamePacks.t) (k n : string) (p : PackFile.t)
    (f' : GameFile.t) :
  Dict.get (GamePacks.packs s) k = Some p ->
  exists p', Dict.get (GamePacks.packs (GamePacks.store_file s k n f')) k = Some p'
             /\ Dict.get (PackFile.files p') n = Some f'.
Proof.
  intros Hp. unfold GamePacks.store_file. rewrite Hp. cbn.
  eexists. split; [apply DictFacts.get_set_eq |]. cbn.
  apply DictFacts.get_set_eq.
Qed.

Lemma store_file_get_ne (s : GamePacks.t) (k k' n : string) (f' : GameFile.t) :
  k' <> k ->
  Dict.get (GamePacks.packs (GamePacks.store_file s k n f')) k'
  = Dict.get (GamePacks.packs s) k'.
Proof.
  intros Hne. unfold GamePacks.store_file.
  destruct (Dict.get (GamePacks.packs s) k); [| done].
  cbn. by apply DictFacts.get_set_ne.
Qed.

Lemma found_files_keys (packs : Dict.t PackFile.t) (n k : string) :
  k ∈ map fst (GamePacks.found_files packs n) -> k ∈ Dict.keys packs.
Proof.
  intros H. apply list_elem_of_fmap in H as [[k' f] [-> H]].
  apply found_files_elem in H as (_ & p & Hin & _).
  apply list_elem_of_fmap. by exists (k', p).
Qed.

Lemma found_files_NoDup (packs : Dict.t PackFile.t) (n : string) :
  NoDup (Dict.keys packs) -> NoDup (map fst (GamePacks.found_files packs n)).
Proof.
  induction packs as [|[k p] packs IH]; cbn; intros Hnd; [constructor |].
  apply NoDup_cons in Hnd as [Hk Hnd].
  destruct (Dict.get (PackFile.files p) n); [| by apply IH].
  destruct (GamePacks.language_suffixed k); [by apply IH |].
  cbn. apply NoDup_cons. split; [| by apply IH].
  intros H. apply Hk. by eapply found_files_keys.
Qed.

Lemma found_files_get (packs : Dict.t PackFile.t) (n k : string)
    (f : GameFile.t) :
  NoDup (Dict.keys packs) ->
  (k, f) ∈ GamePacks.found_files packs n ->
  exists p, Dict.get packs k = Some p /\ Dict.get (PackFile.files p) n = Some f.
Proof.
  intros Hnd H. apply found_files_elem in H as (_ & p & Hin & Hf).
  exists p. split; [by apply DictFacts.elem_of_get | done].
Qed.

(** A lookup leaves the catalog as it was up to plaintext caches, and the
    file it returns is the one its pack now holds under that name. *)
Lemma find_file_frame (self s' : GamePacks.t) (n k : string) (f : GameFile.t) :
  NoDup (Dict.keys (GamePacks.packs self)) ->
  GamePacks.find_file P self n = Ok (Some (k, f), s') ->
  Frame.same_but_cache P self s'
  /\ exists p, Dict.get (GamePacks.packs s') k = Some p
               /\ Dict.get (PackFile.files p) n = Some f.
Proof.
  intros Hnd. unfold GamePacks.find_file.
  pose proof (found_files_get (GamePacks.packs self) n) as Hget.
  pose proof (found_files_NoDup (GamePacks.packs self) n Hnd) as Hnd'.
  destruct (GamePacks.found_files _ _) as [|[k0 f0] [|[k1 f1] [|? ?]]];
    try discriminate.
  - intros [= <- <- <-]. split; [apply same_but_cache_refl |].
    apply Hget; [done | left].
  - destruct (Hget k0 f0 Hnd) as (p0 & Hp0 & Hf0); [left |].
    destruct (Hget k1 f1 Hnd) as (p1 & Hp1 & Hf1); [right; left |].
    assert (Hne : k1 <> k0).
    { cbn in Hnd'. apply NoDup_cons in Hnd' as [Hnin _].
      intros ->. apply Hnin. left. }
    destruct (negb (is_server_pack (GameFile.pack_name f0))).
    { intros [= <- <- <-]. split; [apply same_but_cache_refl | by exists p0]. }
    destruct (negb (is_server_pack (GameFile.pack_name f1))).
    { intros [= <- <- <-]. split; [apply same_but_cache_refl | by exists p1]. }
    destruct (GameFile.dec_data P f0) as [[d0 f0']|] eqn:Hd0;
      cbn [mbind result_bind]; [| discriminate].
    destruct (GameFile.dec_data P f1) as [[d1 f1']|] eqn:Hd1;
      cbn [mbind result_bind]; [| discriminate].
    set (s1 := GamePacks.store_file self k0 n f0').
    assert (Hs1 : Frame.same_but_cache P self s1).
    { eapply store_file_same; [exact Hp0 | exact Hf0 |].
      by eapply dec_data_cache_filled. }
    assert (Hp1' : Dict.get (GamePacks.packs s1) k1 = Some p1).
    { unfold s1. by rewrite store_file_get_ne. }
    assert (Hs2 : Frame.same_but_cache P self (GamePacks.store_file s1 k1 n f1')).
    { eapply same_but_cache_trans; [exact Hs1 |].
      eapply store_file_same; [exact Hp1' | exact Hf1 |].
      by eapply dec_data_cache_filled. }
    assert (Hk0 : exists p, Dict.get (GamePacks.packs
                                        (GamePacks.store_file s1 k1 n f1')) k0
                            = Some p
                            /\ Dict.get (PackFile.files p) n = Some f0').
    { rewrite store_file_get_ne by congruence.
      unfold s1. by eapply store_file_get. }
    assert (Hk1 : exists p, Dict.get (GamePacks.packs
                                        (GamePacks.store_file s1 k1 n f1')) k1
                            = Some p
                            /\ Dict.get (PackFile.files p) n = Some f1').
    { by eapply store_file_get. }
    destruct (_ <? _)%nat; [intros [= <- <- <-]; by split |].
    destruct (_ <? _)%nat; intros [= <- <- <-]; by split.
Qed.

Lemma file_at_get (s : GamePacks.t) (k n : string) (p : PackFile.t) :
  Dict.get (GamePacks.packs s) k = Some p ->
  GamePacks.file_at s k n = Dict.get (PackFile.files p) n.
Proof. intros Hp. unfold GamePacks.file_at, GamePacks.get_pack. by rewrite Hp. Qed.

(** [store_file] rebinds one name of one pack and nothing else. *)
Lemma file_at_store (s : GamePacks.t) (k n k' n' : string)
    (f0 f' : GameFile.t) :
  GamePacks.file_at s k n = Some f0 ->
  GamePacks.file_at (GamePacks.store_file s k n f') k' n'
  = if bool_decide (k' = k /\ n' = n) then Some f'
    else GamePacks.file_at s k' n'.
Proof.
  unfold GamePacks.file_at, GamePacks.get_pack, GamePacks.store_file.
  destruct (Dict.get (GamePacks.packs s) k) as [p|] eqn:Hp; [| discriminate].
  intros Hf. cbn.
  destruct (decide (k' = k)) as [->|Hk].
  - rewrite DictFacts.get_set_eq, Hp. cbn.
    destruct (decide (n' = n)) as [->|Hn].
    + rewrite bool_decide_eq_true_2 by done. apply DictFacts.get_set_eq.
    + rewrite bool_decide_eq_false_2 by (by intros [_ ?]).
      by apply DictFacts.get_set_ne.
  - rewrite bool_decide_eq_false_2 by (by intros [? _]).
    by rewrite DictFacts.get_set_ne.
Qed.

(** Reading [dec_data] again returns the file as the first read left it. *)
Lemma dec_data_again (f f' : GameFile.t) (d : bytes) :
  GameFile.dec_data P f = Ok (d, f') -> GameFile.dec_data P f' = Ok (d, f').
Proof.
  intros H. apply GameFileFacts.dec_data_keeps_original in H as (_ & _ & _ & Hd).
  unfold GameFile.dec_data. by rewrite Hd.
Qed.

(** What a successful lookup reads: nothing, and then the catalog is
    untouched and the file returned is the one its pack holds; or, for two
    server files, the plaintext of both, each written back to its pack, the
    file returned being one of the two as read. *)
Lemma find_file_reads (self s1 : GamePacks.t) (n k : string) (f : GameFile.t) :
  NoDup (Dict.keys (GamePacks.packs self)) ->
  GamePacks.find_file P self n = Ok (Some (k, f), s1) ->
  (GamePacks.compared self n = [] /\ s1 = self
   /\ GamePacks.file_at self k n = Some f)
  \/ (exists k0 f0 k1 f1 d0 d1 f0' f1',
        GamePacks.compared self n = [k0; k1] /\ k1 <> k0
        /\ GamePacks.file_at self k0 n = Some f0
        /\ GamePacks.file_at self k1 n = Some f1
        /\ GameFile.dec_data P f0 = Ok (d0, f0')
        /\ GameFile.dec_data P f1 = Ok (d1, f1')
        /\ s1 = GamePacks.store_file (GamePacks.store_file self k0 n f0') k1 n f1'
        /\ ((k = k0 /\ f = f0') \/ (k = k1 /\ f = f1'))).
Proof.
  intros Hnd. unfold GamePacks.find_file, GamePacks.compared.
  pose proof (found_files_get (GamePacks.packs self) n) as Hget.
  pose proof (found_files_NoDup (GamePacks.packs self) n Hnd) as Hnd'.
  destruct (GamePacks.found_files _ _) as [|[k0 f0] [|[k1 f1] [|? ?]]];
    try discriminate.
  - intros [= <- <- <-]. left. split; [done | split; [done |]].
    destruct (Hget k0 f0 Hnd) as (p0 & Hp0 & Hf0); [left |].
    by rewrite (file_at_get _ _ _ _ Hp0).
  - destruct (Hget k0 f0 Hnd) as (p0 & Hp0 & Hf0); [left |].
    destruct (Hget k1 f1 Hnd) as (p1 & Hp1 & Hf1); [right; left |].
    assert (Hne : k1 <> k0).
    { cbn in Hnd'. apply NoDup_cons in Hnd' as [Hnin _].
      intros ->. apply Hnin. left. }
    destruct (is_server_pack (GameFile.pack_name f0)); cbn [negb andb].
    2: { intros [= <- <- <-]. left. split; [done | split; [done |]].
         by rewrite (file_at_get _ _ _ _ Hp0). }
    destruct (is_server_pack (GameFile.pack_name f1)); cbn [negb andb].
    2: { intros [= <- <- <-]. left. split; [done | split; [done |]].
         by rewrite (file_at_get _ _ _ _ Hp1). }
    destruct (GameFile.dec_data P f0) as [[d0 f0']|] eqn:Hd0;
      cbn [mbind result_bind]; [| discriminate].
    destruct (GameFile.dec_data P f1) as [[d1 f1']|] eqn:Hd1;
      cbn [mbind result_bind]; [| discriminate].
    intros Hres. right. exists k0, f0, k1, f1, d0, d1, f0', f1'.
    split; [done | split; [done |]].
    split; [by rewrite (file_at_get _ _ _ _ Hp0) |].
    split; [by rewrite (file_at_get _ _ _ _ Hp1) |].
    split; [done | split; [done |]].
    destruct (_ <? _)%nat; [injection Hres as <- <- <-; split; [done | by left] |].
    destruct (_ <? _)%nat; injection Hres as <- <- <-;
      (split; [done |]); [by right | by left].
Qed.

Lemma cache_filled_cached (f f' : GameFile.t) :
  GameFile.dec_data_ f <> None -> Frame.cache_filled P f f' -> f' = f.
Proof. intros Hc [->|[Hn _]]; [done | contradiction]. Qed.

Lemma same_pack_all_cached (p p' : PackFile.t) :
  Forall (fun kf => GameFile.dec_data_ kf.2 <> None) (PackFile.files p) ->
  Frame.same_pack_but_cache P p p' -> p' = p.
Proof.
  intros Hc (Hn & Hcc & Hgv & Hm & Hfiles).
  destruct p as [pn pc pg pf pm], p' as [pn' pc' pg' pf' pm']. cbn in *.
  subst. f_equal.
  induction Hfiles as [|[k f] [k' f'] l l' [Hk Hf] _ IH]; [done |].
  apply Forall_cons in Hc as [Hc Hcs]. cbn in *. subst.
  rewrite (cache_filled_cached f f' Hc Hf). f_equal. by apply IH.
Qed.

(** Where every plaintext is already in memory, "as before up to caches"
    is "as before". *)
Lemma same_but_cache_all_cached (s s' : GamePacks.t) :
  Frame.all_cached s -> Frame.same_but_cache P s s' -> s' = s.
Proof.
  intros Hc (Hcc & Hgv & Hm & Hpacks).
  destruct s as [sp sc sg sm], s' as [sp' sc' sg' sm']. cbn in *.
  subst. f_equal. unfold Frame.all_cached in Hc. cbn in Hc.
  induction Hpacks as [|[k p] [k' p'] l l' [Hk Hp] _ IH]; [done |].
  apply Forall_cons in Hc as [Hc Hcs]. cbn in *. subst.
  rewrite (same_pack_all_cached p p' Hc Hp). f_equal. by apply IH.
Qed.

Lemma same_but_cache_flags (s s' : GamePacks.t) :
  Frame.same_but_cache P s s' ->
  map (fun kp => (kp.1, PackFile.modified kp.2)) (GamePacks.packs s')
  = map (fun kp => (kp.1, PackFile.modified kp.2)) (GamePacks.packs s).
Proof.
  intros (_ & _ & _ & Hpacks).
  induction Hpacks as [|[k0 p0] [k0' p0'] l l' [Hk Hsame] _ IH]; [done |].
  cbn in *. destruct Hsame as (_ & _ & _ & -> & _). by rewrite Hk, IH.
Qed.

(** C10, amended: for a name that is not blank, when [find_file] returns a
    file whose decrypted data equals the data argument, [set_file] returns
    that file and leaves the catalog as it was up to plaintext caches:
    [modified_packs] is as before, every pack has its name, its modified
    flag and the names of its files as before. The only files that may
    differ are those read during the call, the file found and, when two
    server files were compared by length, both of them: each is what
    reading [dec_data] leaves of the file that was there, and every other
    binding of every pack is exactly as before. Where every plaintext was
    already in memory, nothing changes at all. *)
Theorem set_file_same_data (self s1 : GamePacks.t) (n k : string)
    (data : bytes) (f f1 : GameFile.t) :
  NoDup (Dict.keys (GamePacks.packs self)) ->
  Str.strip n <> "" ->
  GamePacks.find_file P self n = Ok (Some (k, f), s1) ->
  GameFile.dec_data P f = Ok (data, f1) ->
  exists s' : GamePacks.t,
    GamePacks.set_file P self n data = Ok (f1, s')
    /\ Frame.cache_filled P f f1
    /\ Frame.same_but_cache P self s'
    /\ GamePacks.modified_packs s' = GamePacks.modified_packs self
    /\ map (fun kp => (kp.1, PackFile.modified kp.2)) (GamePacks.packs s')
       = map (fun kp => (kp.1, PackFile.modified kp.2)) (GamePacks.packs self)
    /\ GamePacks.file_at s' k n = Some f1
    /\ (forall k' n',
          n' <> n \/ (k' <> k /\ k' ∉ GamePacks.compared self n) ->
          GamePacks.file_at s' k' n' = GamePacks.file_at self k' n')
    /\ (forall k' f0,
          k' = k \/ k' ∈ GamePacks.compared self n ->
          GamePacks.file_at self k' n = Some f0 ->
          exists d f0', GameFile.dec_data P f0 = Ok (d, f0')
                        /\ GamePacks.file_at s' k' n = Some f0')
    /\ (Frame.all_cached self -> s' = self).
Proof.
  intros Hnd Hname Hfind Hdec.
  destruct (find_file_frame _ _ _ _ _ Hnd Hfind) as (Hs1 & p & Hp & Hf).
  pose proof (dec_data_cache_filled _ _ _ Hdec) as Hfill.
  assert (Hs' : Frame.same_but_cache P self (GamePacks.store_file s1 k n f1)).
  { eapply same_but_cache_trans; [exact Hs1 |]. by eapply store_file_same. }
  assert (Hat1 : GamePacks.file_at s1 k n = Some f).
  { by rewrite (file_at_get _ _ _ _ Hp). }
  exists (GamePacks.store_file s1 k n f1).
  split; [| split; [exact Hfill | split; [exact Hs' | split; [| split]]]].
  - unfold GamePacks.set_file.
    rewrite bool_decide_eq_false_2 by exact Hname.
    rewrite Hfind. cbn [mbind result_bind]. rewrite Hdec.
    cbn [mbind result_bind]. unfold Data.eqb.
    by rewrite bool_decide_eq_true_2.
  - apply Hs'.
  - by apply same_but_cache_flags.
  - split; [| split; [| split]].
    + rewrite (file_at_store _ _ _ _ _ _ _ Hat1).
      by rewrite bool_decide_eq_true_2.
    + intros k' n' Hother. rewrite (file_at_store _ _ _ _ _ _ _ Hat1).
      rewrite bool_decide_eq_false_2 by (intros [-> ->]; by destruct Hother as [?|[? _]]).
      destruct (find_file_reads _ _ _ _ _ Hnd Hfind)
        as [(_ & -> & _) | (k0 & f0 & k1 & f0b & d0 & d1 & f0' & f1' & Hcmp
                            & Hne & Hat0 & Hat1b & _ & _ & -> & _)];
        [reflexivity |].
      assert (Hat1c : GamePacks.file_at (GamePacks.store_file self k0 n f0') k1 n
                      = Some f0b).
      { rewrite (file_at_store _ _ _ _ _ _ _ Hat0).
        by rewrite bool_decide_eq_false_2 by (by intros [? _]). }
      rewrite (file_at_store _ _ _ _ _ _ _ Hat1c).
      rewrite (file_at_store _ _ _ _ _ _ _ Hat0).
      rewrite Hcmp in Hother.
      rewrite !bool_decide_eq_false_2; [reflexivity | |];
        intros [-> ->]; destruct Hother as [?|[_ Hnin]]; try done;
        apply Hnin; repeat constructor.
    + intros k' f0 Hk' Hat.
      destruct (find_file_reads _ _ _ _ _ Hnd Hfind)
        as [(Hcmp & -> & Hatk) | (k0 & f00 & k1 & f01 & d0 & d1 & f0' & f1'
                                  & Hcmp & Hne & Hat0 & Hat1b & Hd0 & Hd1
                                  & -> & Hwhich)].
      * rewrite Hcmp in Hk'. destruct Hk' as [->|Hin];
          [| by apply elem_of_nil in Hin].
        rewrite Hatk in Hat. injection Hat as <-.
        exists data, f1. split; [exact Hdec |].
        rewrite (file_at_store _ _ _ _ _ _ _ Hat1).
        by rewrite bool_decide_eq_true_2.
      * assert (Hat1c : GamePacks.file_at (GamePacks.store_file self k0 n f0')
                          k1 n = Some f01).
        { rewrite (file_at_store _ _ _ _ _ _ _ Hat0).
          by rewrite bool_decide_eq_false_2 by (by intros [? _]). }
        assert (Hf1 : f1 = f).
        { destruct Hwhich as [[_ ->]|[_ ->]].
          - apply dec_data_again in Hd0. congruence.
          - apply dec_data_again in Hd1. congruence. }
        subst f1.
        assert (Hk01 : k' = k0 \/ k' = k1).
        { rewrite Hcmp in Hk'. destruct Hk' as [->|Hin].
          - destruct Hwhich as [[-> _]|[-> _]]; [by left | by right].
          - apply elem_of_cons in Hin as [->|Hin]; [by left |].
            apply elem_of_cons in Hin as [->|Hin]; [by right |].
            by apply elem_of_nil in Hin. }
        assert (Hs2 : forall kk,
                   GamePacks.file_at
                     (GamePacks.store_file
                        (GamePacks.store_file
                           (GamePacks.store_file self k0 n f0') k1 n f1') k n f)
                     kk n
                   = GamePacks.file_at
                       (GamePacks.store_file
                          (GamePacks.store_file self k0 n f0') k1 n f1') kk n).
        { intros kk. rewrite (file_at_store _ _ _ _ _ _ _ Hat1).
          destruct (decide (kk = k)) as [->|Hkk].
          - by rewrite bool_decide_eq_true_2.
          - by rewrite bool_decide_eq_false_2 by (by intros [? _]). }
        rewrite Hs2, (file_at_store _ _ _ _ _ _ _ Hat1c),
          (file_at_store _ _ _ _ _ _ _ Hat0).
        destruct Hk01 as [-> | ->].
        -- rewrite Hat0 in Hat. injection Hat as <-.
           exists d0, f0'. split; [exact Hd0 |].
           rewrite bool_decide_eq_false_2 by (intros [? _]; congruence).
           by rewrite bool_decide_eq_true_2.
        -- rewrite Hat1b in Hat. injection Hat as <-.
           exists d1, f1'. split; [exact Hd1 |].
           by rewrite bool_decide_eq_true_2.
    + intros Hc. by apply same_but_cache_all_cached.
Qed.

End WithPrimitives.

(** The amended C10 at the catalog whose one file was loaded from a pack:
    writing the plaintext it decrypts to returns the file, plaintext
    cached. *)
Lemma set_file_same_data_witness :
  exists s' : GamePacks.t,
    GamePacks.set_file Sample.primitives Sample.one_loaded "bar.csv"
      (repeat x00 16)
    = Ok (GameFile.with_dec_data Sample.unpadded_file (Some (repeat x00 16)), s')
    /\ GamePacks.modified_packs s' = GamePacks.modified_packs Sample.one_loaded.
Proof.
  destruct (set_file_same_data Sample.primitives Sample.one_loaded
              Sample.one_loaded "bar.csv" "DataLocal" (repeat x00 16)
              Sample.unpadded_file
              (GameFile.with_dec_data Sample.unpadded_file
                 (Some (repeat x00 16))))
    as (s' & Hset & _ & _ & Hmod & _).
  - by apply (bool_decide_unpack _).
  - discriminate.
  - reflexivity.
  - vm_compute. reflexivity.
  - exists s'. split; [exact Hset | exact Hmod].
Defined.

(** C10, as stated, fails twice. A file whose name is blank is found by
    [find_file], and [set_file] with its own data raises. And a file that
    was loaded from a pack and not read yet comes out of the unchanged
    write with its plaintext cached, after which [encrypt] no longer
    returns the original ciphertext. *)
Lemma set_file_same_data_changes :
  GamePacks.find_file Sample.primitives Sample.blank_name " "
  = Ok (Some ("DataLocal", Sample.blank_file), Sample.blank_name)
  /\ GameFile.dec_data Sample.primitives Sample.blank_file
     = Ok ([x01], Sample.blank_file)
  /\ GamePacks.set_file Sample.primitives Sample.blank_name " " [x01]
     = Raise FileNotFoundError
  /\ GamePacks.find_file Sample.primitives Sample.one_loaded "bar.csv"
     = Ok (Some ("DataLocal", Sample.unpadded_file), Sample.one_loaded)
  /\ GameFile.dec_data Sample.primitives Sample.unpadded_file
     = Ok (repeat x00 16,
           GameFile.with_dec_data Sample.unpadded_file (Some (repeat x00 16)))
  /\ GamePacks.set_file Sample.primitives Sample.one_loaded "bar.csv"
       (repeat x00 16)
     = Ok (GameFile.with_dec_data Sample.unpadded_file (Some (repeat x00 16)),
           Sample.catalog
             [Sample.pack "DataLocal"
                [GameFile.with_dec_data Sample.unpadded_file
                   (Some (repeat x00 16))]])
  /\ GameFile.encrypt Sample.primitives Sample.unpadded_file false None None
     = Ok Sample.unpadded_enc
  /\ GameFile.encrypt Sample.primitives
       (GameFile.with_dec_data Sample.unpadded_file (Some (repeat x00 16)))
       false None None
     = Ok (repeat xff 16 ++ repeat xef 16).
Proof. vm_compute. repeat split. Qed.

(** A name that is a no-break space is blank as well: [set_file] raises. *)
Lemma set_file_no_break_space_name :
  Str.strip (Str.of_chars (Str.utf8 0xa0)) = ""
  /\ GamePacks.set_file Sample.primitives Sample.one_loaded
       (Str.of_chars (Str.utf8 0xa0)) [x01]
     = Raise FileNotFoundError.
Proof. split; reflexivity. Qed.

(** The amended C3 at the English catalog with a plain pack and two
    language packs: the copy of the plain pack is found. *)
Lemma find_file_skips_language_packs_witness :
  GamePacks.find_file Sample.primitives Sample.three_languages "foo.csv"
  = Ok (Some ("DataLocal", Sample.plain_copy), Sample.three_languages).
Proof.
  apply (proj2 (find_file_skips_language_packs Sample.primitives
                  Sample.three_languages "foo.csv")
           "DataLocal" (Sample.pack "DataLocal" [Sample.plain_copy]).2).
  - by apply (bool_decide_unpack _).
  - left.
  - reflexivity.
  - reflexivity.
  - intros k' p' Hin Hne _.
    repeat (apply elem_of_cons in Hin as [[= -> ->]|Hin]);
      [done | reflexivity | reflexivity | by apply elem_of_nil in Hin].
Defined.

(** C3, as stated, fails: in an English catalog where DataLocal,
    DataLocal_fr and DataLocal_en hold a file of the same name,
    [find_file] returns the copy of DataLocal and not that of
    DataLocal_en. *)
Lemma find_file_misses_language_copy :
  GamePacks.country_code Sample.three_languages = CountryCode.EN
  /\ (p ← GamePacks.get_pack Sample.three_languages "DataLocal_en";
      Dict.get (PackFile.files p) "foo.csv") = Some Sample.en_copy
  /\ GamePacks.find_file Sample.primitives Sample.three_languages "foo.csv"
     = Ok (Some ("DataLocal", Sample.plain_copy), Sample.three_languages)
  /\ Sample.plain_copy <> Sample.en_copy.
Proof. repeat split. discriminate. Qed.

(** The amended C2 at the catalog with two Local packs. *)
Lemma find_file_ranking_witness :
  GamePacks.find_file Sample.primitives Sample.two_local "foo.csv"
  = Ok (Some ("DataLocal", Sample.short_file), Sample.two_local).
Proof.
  destruct (find_file_ranking Sample.primitives Sample.two_local "foo.csv")
    as [Htwo _].
  destruct (Htwo "DataLocal" Sample.short_file "NumberLocal" Sample.long_file
              eq_refl) as (Hfirst & _ & _).
  apply Hfirst. reflexivity.
Defined.

(** C2, as stated, fails: of two Local packs holding the file, the second
    with the longer plaintext, [find_file] returns the first. *)
Lemma find_file_two_local_first_wins :
  GamePacks.found_files (GamePacks.packs Sample.two_local) "foo.csv"
  = [("DataLocal", Sample.short_file); ("NumberLocal", Sample.long_file)]
  /\ is_server_pack (GameFile.pack_name Sample.short_file) = false
  /\ is_server_pack (GameFile.pack_name Sample.long_file) = false
  /\ GameFile.dec_data Sample.primitives Sample.short_file
     = Ok ([x01], Sample.short_file)
  /\ GameFile.dec_data Sample.primitives Sample.long_file
     = Ok ([x01; x02], Sample.long_file)
  /\ GamePacks.find_file Sample.primitives Sample.two_local "foo.csv"
     = Ok (Some ("DataLocal", Sample.short_file), Sample.two_local).
Proof. repeat split. Qed.

End GamePacksFacts.

(** * Further properties of the modelled code *)

(** ** PKCS#7 padding and the file round trip *)

Module RoundTrip.

#[local] Arguments is_image_data_local_pack : simpl never.
#[local] Arguments is_server_pack : simpl never.

Lemma last_app_repeat {A : Type} (l : list A) (x : A) (n : nat) :
  (0 < n)%nat -> last (l ++ repeat x n) = Some x.
Proof.
  intros Hn. destruct n as [|n]; [lia |].
  cbn [repeat]. rewrite repeat_cons, app_assoc. apply last_snoc.
Qed.

(** Unpadding undoes padding. *)
Lemma unpad_pad_pkcs7 (d : bytes) : Data.unpad_pkcs7 (Data.pad_pkcs7 d) = Ok d.
Proof.
  unfold Data.pad_pkcs7, Data.unpad_pkcs7.
  pose proof (Nat.mod_upper_bound (length d) 16 ltac:(lia)) as Hmod.
  set (pad := (16 - length d mod 16)%nat).
  assert (Hpad : (1 <= pad <= 16)%nat) by (unfold pad; lia).
  destruct (Byte.of_nat pad) as [b|] eqn:Hb.
  2: { apply Byte.of_nat_None_iff in Hb. lia. }
  apply Byte.to_of_nat in Hb. cbn [default from_option id].
  rewrite last_app_repeat by lia. rewrite Hb.
  rewrite length_app, repeat_length.
  destruct (Nat.eqb_spec pad 0); [lia |].
  destruct (Nat.ltb_spec (length d + pad) pad); [lia |]. cbn [orb].
  replace (length d + pad - pad)%nat with (length d) by lia.
  rewrite drop_app_length, take_app_length.
  by rewrite bool_decide_eq_true_2.
Qed.

Section WithPrimitives.
Context (P : Primitives).

(** X1: A file holding plaintext only is encrypted under the pack's cipher;
    loading the ciphertext with the same key and iv and reading [dec_data]
    gives the plaintext back, provided the library's decryption undoes its
    encryption. *)
Theorem encrypt_then_dec_data (w : GameFile.t) (d c : bytes)
    (key iv : option string) :
  (forall m k v x y, AES_encrypt P m k v x = Ok y -> AES_decrypt P m k v y = Ok x) ->
  GameFile.enc_data w = None ->
  GameFile.dec_data_ w = Some d ->
  GameFile.encrypt P w false key iv = Ok c ->
  exists r' : GameFile.t,
    GameFile.dec_data P
      (GameFile.init (Some c) (GameFile.file_name w) (GameFile.pack_name w)
         (GameFile.cc w) (GameFile.gv w) key iv None)
    = Ok (d, r')
    /\ GameFile.enc_data r' = Some c
    /\ GameFile.dec_data_ r' = Some d.
Proof.
  intros Hinv Henc Hdec Hc.
  unfold GameFile.encrypt in Hc. rewrite Henc, Hdec in Hc.
  unfold GameFile.dec_data, GameFile.init. cbn.
  destruct (AesCipher.get_cipher_from_pack P _ _ _ false key iv) as [ci|];
    cbn in *; [| discriminate].
  assert (Hback : AesCipher.decrypt P ci c = Ok (Data.pad_pkcs7 d)).
  { unfold AesCipher.encrypt in Hc. unfold AesCipher.decrypt.
    destruct (negb (AesCipher.enable ci)).
    - by injection Hc as <-.
    - by apply Hinv. }
  rewrite Hback. cbn. rewrite unpad_pad_pkcs7.
  eexists. repeat split.
Qed.

End WithPrimitives.

Lemma block_cipher_involution m k v x y :
  Sample.block_cipher m k v x = Ok y -> Sample.block_cipher m k v y = Ok x.
Proof.
  unfold Sample.block_cipher.
  destruct (Nat.eqb_spec (length x mod 16) 0) as [Hx|]; [| discriminate].
  intros [= <-]. rewrite length_map, Hx. cbn. f_equal.
  rewrite <- list_fmap_compose.
  rewrite <- (list_fmap_id x) at 2. apply list_fmap_ext.
  intros _ b _. by destruct b.
Qed.

(** The round trip at a plaintext of two bytes in the DataLocal pack. *)
Lemma encrypt_then_dec_data_witness :
  exists c r',
    GameFile.encrypt Sample.primitives Sample.long_file false None None = Ok c
    /\ GameFile.dec_data Sample.primitives
         (GameFile.init (Some c) "foo.csv" "NumberLocal" CountryCode.EN
            Sample.gv None None None)
       = Ok ([x01; x02], r').
Proof.
  destruct (GameFile.encrypt Sample.primitives Sample.long_file false None None)
    as [c|e] eqn:Hc; [| vm_compute in Hc; discriminate Hc].
  destruct (encrypt_then_dec_data Sample.primitives Sample.long_file
              [x01; x02] c None None) as (r' & Hr & _).
  - apply block_cipher_involution.
  - reflexivity.
  - reflexivity.
  - exact Hc.
  - exists c, r'. split; [reflexivity | exact Hr].
Defined.

End RoundTrip.

(** ** Writing into a pack and emitting it *)

Module PackFileFacts.

Lemma keys_set_present {V : Type} (d : Dict.t V) (k : string) (v v' : V) :
  Dict.get d k = Some v -> Dict.keys (Dict.set d k v') = Dict.keys d.
Proof.
  induction d as [|[k0 v0] d IH]; cbn; [done |].
  destruct (String.eqb_spec k0 k) as [->|Hne]; [done |].
  intros H. cbn. f_equal. by apply IH.
Qed.

Lemma keys_set_absent {V : Type} (d : Dict.t V) (k : string) (v' : V) :
  Dict.get d k = None -> Dict.keys (Dict.set d k v') = Dict.keys d ++ [k].
Proof.
  induction d as [|[k0 v0] d IH]; cbn; [done |].
  destruct (String.eqb_spec k0 k) as [->|Hne]; [done |].
  intros H. cbn. f_equal. by apply IH.
Qed.

Lemma set_file_binds (pack : PackFile.t) (n : string) (data : bytes) :
  Dict.get (PackFile.files (PackFile.set_file pack n data).2) n
  = Some (PackFile.set_file pack n data).1
  /\ GameFile.dec_data_ (PackFile.set_file pack n data).1 = Some data.
Proof.
  unfold PackFile.set_file.
  destruct (Dict.get (PackFile.files pack) n) as [old|]; cbn;
    (split; [apply DictFacts.get_set_eq | reflexivity]).
Qed.

(** X2: [PackFile.set_file] binds the name to a file holding the new plaintext
    and touches nothing else: the other names keep their files, a name
    already present keeps its place and its ciphertext, a new name goes
    last, and the pack's own [modified] flag is not set. *)
Theorem set_file_lookup (pack : PackFile.t) (n : string) (data : bytes) :
  let file := (PackFile.set_file pack n data).1 in
  let pack' := (PackFile.set_file pack n data).2 in
  Dict.get (PackFile.files pack') n = Some file
  /\ GameFile.dec_data_ file = Some data
  /\ (forall n', n' <> n ->
        Dict.get (PackFile.files pack') n' = Dict.get (PackFile.files pack) n')
  /\ Dict.keys (PackFile.files pack')
     = match Dict.get (PackFile.files pack) n with
       | Some _ => Dict.keys (PackFile.files pack)
       | None => Dict.keys (PackFile.files pack) ++ [n]
       end
  /\ GameFile.enc_data file
     = match Dict.get (PackFile.files pack) n with
       | Some old => GameFile.enc_data old
       | None => None
       end
  /\ PackFile.modified pack' = PackFile.modified pack
  /\ PackFile.pack_name pack' = PackFile.pack_name pack.
Proof.
  unfold PackFile.set_file.
  destruct (Dict.get (PackFile.files pack) n) as [old|] eqn:Hget; cbn.
  - repeat split.
    + apply DictFacts.get_set_eq.
    + intros n' Hne. by apply DictFacts.get_set_ne.
    + by eapply keys_set_present.
  - repeat split.
    + apply DictFacts.get_set_eq.
    + intros n' Hne. by apply DictFacts.get_set_ne.
    + by apply keys_set_absent.
Qed.

Section WithPrimitives.
Context (P : Primitives).

Lemma to_pack_list_file_loop_rows (fs : list GameFile.t) (key iv : option string)
    (lines lines' : list (list string)) (offset : nat)
    (datas datas' : list bytes) :
  PackFile.to_pack_list_file_loop P fs key iv lines offset datas
  = Ok (lines', datas') ->
  exists cs : list bytes,
    Forall2 (fun f c => GameFile.encrypt P f false key iv = Ok c) fs cs
    /\ lines' = lines ++ Layout.rows fs cs offset
    /\ datas' = datas ++ cs.
Proof.
  revert lines offset datas.
  induction fs as [|f fs IH]; intros lines offset datas; cbn.
  - intros [= <- <-]. exists []. by rewrite !app_nil_r.
  - destruct (GameFile.encrypt P f false key iv) as [c|] eqn:Hc; cbn;
      [| discriminate].
    intros H. apply IH in H as (cs & Hcs & -> & ->).
    exists (c :: cs). split; [by constructor |].
    cbn. by rewrite <- !app_assoc.
Qed.

Lemma rows_length (fs : list GameFile.t) (cs : list bytes) (offset : nat) :
  length fs = length cs -> length (Layout.rows fs cs offset) = length fs.
Proof.
  revert cs offset. induction fs as [|f fs IH]; intros [|c cs] offset Hlen;
    try discriminate; [done |].
  cbn. f_equal. apply IH. by injection Hlen.
Qed.

Lemma rows_slices (fs : list GameFile.t) (cs : list bytes) (pre : bytes)
    (i : nat) (f : GameFile.t) (c : bytes) :
  length fs = length cs ->
  fs !! i = Some f -> cs !! i = Some c ->
  exists off : nat,
    Layout.rows fs cs (length pre) !! i
    = Some [GameFile.file_name f; Str.of_nat off; Str.of_nat (length c)]
    /\ take (length c) (drop off (pre ++ concat cs)) = c.
Proof.
  revert cs pre i. induction fs as [|f0 fs IH]; intros [|c0 cs] pre i Hlen Hf Hc;
    try discriminate.
  destruct i as [|i]; cbn in Hf, Hc.
  - injection Hf as ->. injection Hc as ->. exists (length pre).
    split; [reflexivity |]. cbn [concat].
    by rewrite drop_app_length, take_app_length.
  - destruct (IH cs (pre ++ c0) i) as (off & Hrow & Hslice);
      [by injection Hlen | done | done |].
    exists off. cbn [Layout.rows concat]. rewrite length_app in Hrow.
    split; [exact Hrow |]. by rewrite app_assoc.
Qed.

(** X3: [to_pack_list_file] returns the pack's name, the ciphertexts of its
    files one after the other, and the encrypted list whose first line is
    the number of files and whose line for each file gives its name, its
    offset and its length: the slice of the pack data at that offset and
    of that length is the file's ciphertext. *)
Theorem to_pack_list_file_layout (pack : PackFile.t) (key iv : option string)
    (name : string) (pack_data ls_data : bytes) :
  PackFile.to_pack_list_file P pack key iv = Ok (name, pack_data, ls_data) ->
  name = PackFile.pack_name pack
  /\ exists (cs : list bytes) (lines : list (list string)),
       Forall2 (fun f c => GameFile.encrypt P f false key iv = Ok c)
               (Dict.values (PackFile.files pack)) cs
       /\ pack_data = concat cs
       /\ AesCipher.encrypt P
            (AesCipher.init (PackFile.list_key P) None None true)
            (Data.pad_pkcs7
               (CSV_to_data P
                  ([Str.of_nat (length (PackFile.files pack))] :: lines)))
          = Ok ls_data
       /\ length lines = length (PackFile.files pack)
       /\ forall (i : nat) (f : GameFile.t) (c : bytes),
            Dict.values (PackFile.files pack) !! i = Some f ->
            cs !! i = Some c ->
            exists off : nat,
              lines !! i
              = Some [GameFile.file_name f; Str.of_nat off;
                      Str.of_nat (length c)]
              /\ take (length c) (drop off pack_data) = c.
Proof.
  unfold PackFile.to_pack_list_file.
  destruct (PackFile.to_pack_list_file_loop _ _ _ _ _ _ _)
    as [[lines datas]|] eqn:Hloop; cbn [mbind result_bind]; [| discriminate].
  apply to_pack_list_file_loop_rows in Hloop as (cs & Hcs & -> & ->).
  destruct (AesCipher.encrypt _ _ _) as [ls|] eqn:Hls; cbn [mbind result_bind];
    [| discriminate].
  intros [= <- <- <-]. split; [reflexivity |].
  pose proof (Forall2_length _ _ _ Hcs) as Hlen.
  exists cs, (Layout.rows (Dict.values (PackFile.files pack)) cs 0).
  split; [exact Hcs |]. split; [reflexivity |]. split; [exact Hls |].
  split.
  - rewrite rows_length by exact Hlen. unfold Dict.values. apply length_map.
  - intros i f c Hf Hc.
    destruct (rows_slices _ _ [] i f c Hlen Hf Hc) as (off & Hrow & Hslice).
    exists off. split; [exact Hrow | exact Hslice].
Qed.

End WithPrimitives.

(** The layout of the NumberLocal pack of the sample catalog. *)
Lemma to_pack_list_file_layout_witness :
  exists (cs : list bytes) (name : string) (pack_data ls_data : bytes),
    PackFile.to_pack_list_file Sample.primitives
      (Sample.pack "NumberLocal" [Sample.long_file]).2 None None
    = Ok (name, pack_data, ls_data)
    /\ name = "NumberLocal" /\ pack_data = concat cs.
Proof.
  destruct (PackFile.to_pack_list_file Sample.primitives
              (Sample.pack "NumberLocal" [Sample.long_file]).2 None None)
    as [[[name pack_data] ls_data]|e] eqn:H;
    [| vm_compute in H; discriminate H].
  destruct (to_pack_list_file_layout Sample.primitives _ _ _ _ _ _ H)
    as (Hname & cs & lines & _ & Hdata & _).
  exists cs, name, pack_data, ls_data.
  split; [reflexivity | split; [exact Hname | exact Hdata]].
Defined.

End PackFileFacts.

(** ** Lookups and writes in the catalog *)

Module CatalogFacts.

#[local] Arguments is_image_data_local_pack : simpl never.
#[local] Arguments is_server_pack : simpl never.
#[local] Arguments GamePacks.language_suffixed : simpl never.
#[local] Arguments PackFile.convert_pack_name_server_local : simpl never.
#[local] Arguments PackFile.set_file : simpl never.
#[local] Arguments GameFile.is_anim : simpl never.
#[local] Arguments Str.endswith : simpl never.
#[local] Arguments Str.strip : simpl never.
#[local] Arguments GamePacks.to_java_name : simpl never.

Section WithPrimitives.
Context (P : Primitives).

(** X4: A name held by no pack, or only by packs with a language suffix, is not
    found, and the catalog is left as it is. *)
Theorem find_file_absent (self : GamePacks.t) (n : string) :
  Forall (fun kp => Dict.get (PackFile.files kp.2) n = None
                    \/ GamePacks.language_suffixed kp.1 = true)
         (GamePacks.packs self) ->
  GamePacks.find_file P self n = Ok (None, self).
Proof.
  intros H. unfold GamePacks.find_file.
  by rewrite (GamePacksFacts.found_files_none _ _ H).
Qed.

(** X5: What [find_file] returns is the entry of that name of a pack of the
    catalog without language suffix, as it was or with its plaintext
    cached. *)
Theorem find_file_sound (self s' : GamePacks.t) (n k : string)
    (f : GameFile.t) :
  GamePacks.find_file P self n = Ok (Some (k, f), s') ->
  GamePacks.language_suffixed k = false
  /\ exists (p : PackFile.t) (f0 : GameFile.t),
       (k, p) ∈ GamePacks.packs self
       /\ Dict.get (PackFile.files p) n = Some f0
       /\ Frame.cache_filled P f0 f.
Proof.
  unfold GamePacks.find_file.
  pose proof (GamePacksFacts.found_files_elem (GamePacks.packs self) n) as Helem.
  destruct (GamePacks.found_files _ _) as [|[k0 f0] [|[k1 f1] [|? ?]]];
    try discriminate.
  - intros [= <- <- <-]. destruct (Helem k0 f0) as (Hl & p & Hin & Hf); [left |].
    split; [done |]. exists p, f0. repeat split; try done. by left.
  - destruct (Helem k0 f0) as (Hl0 & p0 & Hin0 & Hf0); [left |].
    destruct (Helem k1 f1) as (Hl1 & p1 & Hin1 & Hf1); [right; left |].
    destruct (negb (is_server_pack (GameFile.pack_name f0))).
    { intros [= <- <- <-]. split; [done |]. exists p0, f0.
      repeat split; try done. by left. }
    destruct (negb (is_server_pack (GameFile.pack_name f1))).
    { intros [= <- <- <-]. split; [done |]. exists p1, f1.
      repeat split; try done. by left. }
    destruct (GameFile.dec_data P f0) as [[d0 f0']|] eqn:Hd0;
      cbn [mbind result_bind]; [| discriminate].
    destruct (GameFile.dec_data P f1) as [[d1 f1']|] eqn:Hd1;
      cbn [mbind result_bind]; [| discriminate].
    apply GamePacksFacts.dec_data_cache_filled in Hd0, Hd1.
    destruct (_ <? _)%nat.
    { intros [= <- <- <-]. split; [done |]. by exists p0, f0. }
    destruct (_ <? _)%nat; intros [= <- <- <-]; (split; [done |]).
    + by exists p1, f1.
    + by exists p0, f0.
Qed.

Lemma find_file_none_state (self s' : GamePacks.t) (n : string) :
  GamePacks.find_file P self n = Ok (None, s') -> s' = self.
Proof.
  unfold GamePacks.find_file.
  destruct (GamePacks.found_files _ _) as [|[k0 f0] [|[k1 f1] [|? ?]]];
    try discriminate; try (by intros [= <-]).
  destruct (negb _); [discriminate |].
  destruct (negb _); [discriminate |].
  destruct (GameFile.dec_data P f0) as [[d0 f0']|];
    cbn [mbind result_bind]; [| discriminate].
  destruct (GameFile.dec_data P f1) as [[d1 f1']|];
    cbn [mbind result_bind]; [| discriminate].
  destruct (_ <? _)%nat; [discriminate |].
  destruct (_ <? _)%nat; discriminate.
Qed.

(** X6: A lookup changes nothing but plaintext caches: the dirty marks, the
    packs, their flags and the names of their files are as before, and
    where every plaintext was already in memory the catalog is unchanged. *)
Theorem find_file_leaves_catalog (self s' : GamePacks.t) (n : string)
    (r : option (string * GameFile.t)) :
  NoDup (Dict.keys (GamePacks.packs self)) ->
  GamePacks.find_file P self n = Ok (r, s') ->
  Frame.same_but_cache P self s'
  /\ GamePacks.modified_packs s' = GamePacks.modified_packs self
  /\ map (fun kp => (kp.1, PackFile.modified kp.2)) (GamePacks.packs s')
     = map (fun kp => (kp.1, PackFile.modified kp.2)) (GamePacks.packs self)
  /\ (Frame.all_cached self -> s' = self).
Proof.
  intros Hnd Hfind.
  assert (Hsame : Frame.same_but_cache P self s').
  { destruct r as [[k f]|].
    - by destruct (GamePacksFacts.find_file_frame P _ _ _ _ _ Hnd Hfind).
    - apply find_file_none_state in Hfind as ->.
      apply (GamePacksFacts.same_but_cache_refl P). }
  split; [exact Hsame |]. split; [apply Hsame |].
  split; [by apply (GamePacksFacts.same_but_cache_flags P) |].
  intros Hc. by apply (GamePacksFacts.same_but_cache_all_cached P).
Qed.

Lemma same_but_cache_keys (s s' : GamePacks.t) :
  Frame.same_but_cache P s s' ->
  Dict.keys (GamePacks.packs s') = Dict.keys (GamePacks.packs s).
Proof.
  intros (_ & _ & _ & Hpacks). unfold Dict.keys.
  induction Hpacks as [|[k0 p0] [k0' p0'] l l' [Hk _] _ IH]; [done |].
  cbn in *. by rewrite Hk, IH.
Qed.

(** The last part of [set_file], from the conversion of the pack name on. *)
Lemma set_file_continue (s s' : GamePacks.t) (n pack_name : string)
    (data : bytes) (f : GameFile.t) :
  match GamePacks.get_pack_gv P s
          (PackFile.convert_pack_name_server_local pack_name) with
  | Some pack =>
      let '(file, pack) := PackFile.set_file pack n data in
      Ok (file,
          GamePacks.mk
            (Dict.set (GamePacks.packs s)
               (if negb (Str.endswith
                           (PackFile.convert_pack_name_server_local pack_name)
                           "1")
                then if is_java P (GamePacks.gv s)
                     then GamePacks.to_java_name
                            (PackFile.convert_pack_name_server_local pack_name)
                     else PackFile.convert_pack_name_server_local pack_name
                else PackFile.convert_pack_name_server_local pack_name)
               pack)
            (GamePacks.country_code s) (GamePacks.gv s)
            (<[GameFile.pack_name file := true]> (GamePacks.modified_packs s)))
  | None => Raise FileNotFoundError
  end = Ok (f, s') ->
  GameFile.dec_data_ f = Some data
  /\ (exists k p, GamePacks.get_pack s' k = Some p
                  /\ Dict.get (PackFile.files p) n = Some f)
  /\ Dict.keys (GamePacks.packs s') = Dict.keys (GamePacks.packs s)
  /\ GamePacks.modified_packs s'
     = <[GameFile.pack_name f := true]> (GamePacks.modified_packs s).
Proof.
  unfold GamePacks.get_pack_gv, GamePacks.get_pack.
  set (key := if negb (Str.endswith _ "1") then _ else _).
  destruct (Dict.get (GamePacks.packs s) key) as [pack|] eqn:Hpack;
    [| discriminate].
  pose proof (PackFileFacts.set_file_binds pack n data) as Hset.
  destruct (PackFile.set_file pack n data) as [file pack'].
  cbn in Hset. destruct Hset as (Hget & Hdec).
  intros [= <- <-]. cbn.
  split; [exact Hdec |]. split; [| split; [| reflexivity]].
  - exists key, pack'. split; [apply DictFacts.get_set_eq | exact Hget].
  - by eapply PackFileFacts.keys_set_present.
Qed.

(** X7: A successful [set_file] returns a file that holds the data and is the
    entry of that name of a pack of the catalog; no pack is added or
    removed; and [modified_packs] is as before exactly when the lookup
    found a file whose plaintext was already the data: when the lookup
    found nothing, or a file with another plaintext, the returned file's
    pack name is marked in [modified_packs]. *)
Theorem set_file_written (self s' : GamePacks.t) (n : string) (data : bytes)
    (f : GameFile.t) :
  NoDup (Dict.keys (GamePacks.packs self)) ->
  GamePacks.set_file P self n data = Ok (f, s') ->
  GameFile.dec_data_ f = Some data
  /\ (exists k p, GamePacks.get_pack s' k = Some p
                  /\ Dict.get (PackFile.files p) n = Some f)
  /\ Dict.keys (GamePacks.packs s') = Dict.keys (GamePacks.packs self)
  /\ match GamePacks.find_file P self n with
     | Ok (Some (_, found), _) =>
         match GameFile.dec_data P found with
         | Ok (d, _) =>
             if Data.eqb d data
             then GamePacks.modified_packs s' = GamePacks.modified_packs self
             else GamePacks.modified_packs s'
                  = <[GameFile.pack_name f := true]>
                      (GamePacks.modified_packs self)
         | Raise _ => False
         end
     | Ok (None, _) =>
         GamePacks.modified_packs s'
         = <[GameFile.pack_name f := true]> (GamePacks.modified_packs self)
     | Raise _ => False
     end.
Proof.
  intros Hnd. unfold GamePacks.set_file.
  destruct (bool_decide (Str.strip n = "")); [discriminate |].
  destruct (GamePacks.find_file P self n) as [[found s1]|] eqn:Hfind;
    cbn [mbind result_bind]; [| discriminate].
  cbv zeta.
  destruct found as [[k f0]|].
  - destruct (GamePacksFacts.find_file_frame P _ _ _ _ _ Hnd Hfind)
      as (Hs1 & p & Hp & Hf).
    destruct (GameFile.dec_data P f0) as [[d f1]|] eqn:Hdec;
      cbn [mbind result_bind]; [| discriminate].
    pose proof (GamePacksFacts.dec_data_cache_filled P _ _ _ Hdec) as Hfill.
    pose proof (GamePacksFacts.store_file_same P _ _ _ _ _ _ Hp Hf Hfill)
      as Hs2.
    pose proof (GamePacksFacts.same_but_cache_trans P _ _ _ Hs1 Hs2) as Hs.
    unfold Data.eqb. destruct (bool_decide (d = data)) eqn:Heq.
    + apply bool_decide_eq_true in Heq as ->. intros [= <- <-].
      apply GameFileFacts.dec_data_keeps_original in Hdec as (_ & _ & _ & Hd).
      split; [exact Hd |]. split; [| split].
      * destruct (GamePacksFacts.store_file_get s1 k n p f1 Hp)
          as (p' & Hp' & Hf'). by exists k, p'.
      * by apply same_but_cache_keys.
      * apply Hs.
    + intros H. apply set_file_continue in H as (Hd & Hin & Hkeys & Hmod).
      split; [exact Hd |]. split; [exact Hin |]. split.
      * rewrite Hkeys. by apply same_but_cache_keys.
      * rewrite Hmod. f_equal. apply Hs.
  - apply find_file_none_state in Hfind as ->.
    destruct (if GameFile.is_anim n then _ else _) as [pack|]; [| discriminate].
    intros H. apply set_file_continue in H as (Hd & Hin & Hkeys & Hmod).
    split; [exact Hd |]. split; [exact Hin |]. split; [exact Hkeys |].
    exact Hmod.
Qed.

End WithPrimitives.

(** Writing new data over the file of the two Local packs: the pack of the
    file written is marked. *)
Lemma set_file_written_witness :
  exists (f : GameFile.t) (s' : GamePacks.t),
    GamePacks.set_file Sample.primitives Sample.two_local "foo.csv" [x09]
    = Ok (f, s')
    /\ GameFile.dec_data_ f = Some [x09]
    /\ Dict.keys (GamePacks.packs s') = ["DataLocal"; "NumberLocal"]
    /\ GamePacks.modified_packs s'
       = <[GameFile.pack_name f := true]>
           (GamePacks.modified_packs Sample.two_local).
Proof.
  destruct (GamePacks.set_file Sample.primitives Sample.two_local "foo.csv"
              [x09]) as [[f s']|e] eqn:H; [| vm_compute in H; discriminate H].
  destruct (set_file_written Sample.primitives Sample.two_local s' "foo.csv"
              [x09] f) as (Hd & _ & Hk & Hm).
  - by apply (bool_decide_unpack _).
  - exact H.
  - exists f, s'. split; [reflexivity |]. split; [exact Hd |].
    split; [exact Hk |].
    change (GamePacks.find_file Sample.primitives Sample.two_local "foo.csv")
      with (Ok (Some ("DataLocal", Sample.short_file), Sample.two_local)
              : result (option (string * GameFile.t) * GamePacks.t)) in Hm.
    exact Hm.
Defined.

(** Only language packs hold the file: it is not found. *)
Lemma find_file_absent_witness :
  GamePacks.find_file Sample.primitives
    (Sample.catalog [Sample.pack "DataLocal_fr" [Sample.fr_copy]]) "foo.csv"
  = Ok (None, Sample.catalog [Sample.pack "DataLocal_fr" [Sample.fr_copy]]).
Proof.
  apply (find_file_absent Sample.primitives).
  constructor; [by right | constructor].
Defined.

(** The lookup in the catalog of two Local packs returns the entry of the
    first. *)
Lemma find_file_sound_witness :
  GamePacks.language_suffixed "DataLocal" = false
  /\ exists (p : PackFile.t) (f0 : GameFile.t),
       ("DataLocal", p) ∈ GamePacks.packs Sample.two_local
       /\ Dict.get (PackFile.files p) "foo.csv" = Some f0
       /\ Frame.cache_filled Sample.primitives f0 Sample.short_file.
Proof.
  apply (find_file_sound Sample.primitives Sample.two_local Sample.two_local
           "foo.csv" "DataLocal" Sample.short_file).
  reflexivity.
Defined.

(** The lookup in the catalog of two Local packs leaves it unchanged. *)
Lemma find_file_leaves_catalog_witness :
  Frame.same_but_cache Sample.primitives Sample.two_local Sample.two_local
  /\ GamePacks.modified_packs Sample.two_local
     = GamePacks.modified_packs Sample.two_local
  /\ map (fun kp => (kp.1, PackFile.modified kp.2))
         (GamePacks.packs Sample.two_local)
     = map (fun kp => (kp.1, PackFile.modified kp.2))
           (GamePacks.packs Sample.two_local)
  /\ (Frame.all_cached Sample.two_local -> Sample.two_local = Sample.two_local).
Proof.
  apply (find_file_leaves_catalog Sample.primitives Sample.two_local
           Sample.two_local "foo.csv"
           (Some ("DataLocal", Sample.short_file))).
  - by apply (bool_decide_unpack _).
  - reflexivity.
Defined.

(** X8: A name that contains one of the five listed server packs is converted
    to that pack's Local name, whatever else the name holds (a language
    tag, a suffix); a name that contains none of them and no language tag
    is returned as it is. *)
Theorem convert_pack_name_server_local_cases (pack_name : string) :
  ((exists pack, pack ∈ PackFile.server_packs
                 /\ Str.contains pack pack_name = true) ->
   PackFile.convert_pack_name_server_local pack_name
   ∈ ["MapLocal"; "NumberLocal"; "UnitLocal"; "ImageLocal"; "ImageDataLocal"])
  /\ ((forall pack, pack ∈ PackFile.server_packs ->
                    Str.contains pack pack_name = false) ->
      (forall lang, lang ∈ Languages.get_all_strings ->
                    Str.contains ("_" +:+ lang) pack_name = false) ->
      PackFile.convert_pack_name_server_local pack_name = pack_name).
Proof.
  unfold PackFile.convert_pack_name_server_local. split.
  - intros (pack & Hin & Hc).
    destruct (find _ PackFile.server_packs) as [found|] eqn:Hfind.
    + apply find_some in Hfind as [Hfound _].
      apply list_elem_of_In in Hfound.
      unfold PackFile.server_packs in Hfound.
      repeat (apply elem_of_cons in Hfound as [->|Hfound]);
        [| | | | | by apply elem_of_nil in Hfound];
        vm_compute;
        repeat (first [apply list_elem_of_here | apply list_elem_of_further]).
    + apply list_elem_of_In in Hin.
      pose proof (find_none _ _ Hfind pack Hin) as Hno. cbn in Hno. congruence.
  - intros Hpacks Hlangs.
    destruct (find _ PackFile.server_packs) as [found|] eqn:Hfind.
    { apply find_some in Hfind as [Hfound Hc].
      apply list_elem_of_In in Hfound. rewrite (Hpacks _ Hfound) in Hc.
      discriminate. }
    destruct (find _ Languages.get_all_strings) as [lang|] eqn:Hlang;
      [| reflexivity].
    apply find_some in Hlang as [Hfound Hc].
    apply list_elem_of_In in Hfound. rewrite (Hlangs _ Hfound) in Hc.
    discriminate.
Qed.

(** The conversion of the French number server pack. *)
Lemma convert_pack_name_server_local_cases_witness :
  PackFile.convert_pack_name_server_local "NumberServer_fr"
  ∈ ["MapLocal"; "NumberLocal"; "UnitLocal"; "ImageLocal"; "ImageDataLocal"].
Proof.
  apply (proj1 (convert_pack_name_server_local_cases "NumberServer_fr")).
  exists "NumberServer". split; [| reflexivity].
  right. left.
Defined.

End CatalogFacts.

(** ** More on the unit records *)

Module RecordsFacts.
Import StatsFacts.

(** X9: [FormType.from_index] and [get_index] are inverse to each other, and
    [from_index] raises [ValueError] on every index outside 0..3. *)
Theorem form_type_index_round_trip :
  (forall f : FormType.t, FormType.from_index (FormType.get_index f) = Ok f)
  /\ (forall (i : Z) (f : FormType.t),
        FormType.from_index i = Ok f -> FormType.get_index f = i)
  /\ (forall i : Z, i < 0 \/ 3 < i -> FormType.from_index i = Raise ValueError).
Proof.
  split; [| split].
  - by intros [].
  - intros i f. unfold FormType.from_index.
    destruct (Z.eqb_spec i 0) as [->|?]; [by intros [= <-] |].
    destruct (Z.eqb_spec i 1) as [->|?]; [by intros [= <-] |].
    destruct (Z.eqb_spec i 2) as [->|?]; [by intros [= <-] |].
    destruct (Z.eqb_spec i 3) as [->|?]; [by intros [= <-] |].
    discriminate.
  - intros i Hi. unfold FormType.from_index.
    destruct (Z.eqb_spec i 0); [lia |]. destruct (Z.eqb_spec i 1); [lia |].
    destruct (Z.eqb_spec i 2); [lia |]. destruct (Z.eqb_spec i 3); [lia |].
    reflexivity.
Qed.

Lemma form_type_index_round_trip_witness :
  FormType.from_index 7 = Raise ValueError
  /\ FormType.get_index FormType.THIRD = 2.
Proof.
  destruct form_type_index_round_trip as (_ & Hback & Hout).
  split; [apply Hout; lia | apply Hback; reflexivity].
Defined.

#[local] Arguments py_int : simpl never.
#[local] Arguments py_bool : simpl never.
#[local] Arguments Unit.Frames.pair_frames : simpl never.
#[local] Arguments Unit.Frames.from_pair_frames : simpl never.

Lemma assign_written_back (cat_id : Z) (form : FormType.t) (row : list Z)
    (s : Stats.t) :
  (108 <= length row)%nat ->
  Stats.assign cat_id form row = Ok s ->
  Stats.to_raw_data s = Stats.written_back (take 108 row).
Proof.
  intros H. at_least 108 row H.
  unfold Stats.assign. read_slots. cbn. intros [= <-].
  unfold Stats.to_raw_data. cbn.
  rewrite !pair_frames_from_pair_frames. reflexivity.
Qed.

(** X10: Reading a row and writing the record gives the row back, extended with
    zeros or cut to 108 slots, with every flag slot that was not 0 set to
    1: no other slot changes. *)
Theorem init_then_to_raw_data (cat_id : Z) (form : FormType.t)
    (raw_data : list Z) :
  exists s : Stats.t,
    Stats.init cat_id form raw_data = Ok s
    /\ Stats.to_raw_data s
       = Stats.written_back
           (take 108 (raw_data ++ repeat 0 (108 - length raw_data))).
Proof.
  destruct (init_total cat_id form raw_data) as [s Hs].
  exists s. split; [exact Hs |].
  apply (assign_written_back cat_id form); [apply extend_ge | exact Hs].
Qed.

(** X11: [wipe] leaves a record whose row is 108 zeros, with the id and the
    form it had and no targeted effect. *)
Theorem wipe_zeroes (s : Stats.t) :
  exists s' : Stats.t,
    Stats.wipe s = Ok s'
    /\ Stats.to_raw_data s' = repeat 0 108
    /\ Stats.cat_id s' = Stats.cat_id s
    /\ Stats.form s' = Stats.form s
    /\ Stats.has_targeted_effect s' = false.
Proof.
  unfold Stats.wipe. eexists. split; [reflexivity |]. repeat split.
Qed.

Lemma rarity_value_of_value (v : Z) (r : Rarity.t) :
  Rarity.of_value v = Ok r -> Rarity.value r = v.
Proof.
  unfold Rarity.of_value. cbn [find Rarity.value].
  repeat match goal with
    | |- context [?a =? v] =>
        destruct (Z.eqb_spec a v) as [<-|?]; [by intros [= <-] |]
    end.
  discriminate.
Qed.

Lemma gatcha_rarity_value_of_value (v : Z) (r : GatchaRarity.t) :
  GatchaRarity.of_value v = Ok r -> GatchaRarity.value r = v.
Proof.
  unfold GatchaRarity.of_value. cbn [find GatchaRarity.value].
  repeat match goal with
    | |- context [?a =? v] =>
        destruct (Z.eqb_spec a v) as [<-|?]; [by intros [= <-] |]
    end.
  discriminate.
Qed.

#[local] Arguments Rarity.of_value : simpl never.
#[local] Arguments GatchaRarity.of_value : simpl never.
#[local] Arguments Rarity.value : simpl never.
#[local] Arguments GatchaRarity.value : simpl never.

Lemma unit_buy_assign_exact (cat_id : Z) (row : list Z) (u : UnitBuyData.t) :
  (63 <= length row)%nat ->
  UnitBuyData.assign cat_id row = Ok u ->
  UnitBuyData.to_raw_data u = take 63 row.
Proof.
  intros H. at_least 63 row H.
  unfold UnitBuyData.assign. read_slots. cbn.
  destruct (Rarity.of_value _) as [r|] eqn:Hr; cbn; [| discriminate].
  destruct (GatchaRarity.of_value _) as [g|] eqn:Hg; cbn; [| discriminate].
  apply rarity_value_of_value in Hr. apply gatcha_rarity_value_of_value in Hg.
  intros [= <-]. unfold UnitBuyData.to_raw_data. cbn. by rewrite Hr, Hg.
Qed.

(** X12: When the [UnitBuyData] constructor succeeds, the record writes back
    exactly the row it read, extended with zeros or cut to 63 slots; it
    raises [ValueError] exactly when slot 13 or slot 17 of that row is not
    the value of a rarity. *)
Theorem unit_buy_init_then_to_raw_data (cat_id : Z) (raw_data : list Z) :
  let row := raw_data ++ repeat 0 (63 - length raw_data) in
  match UnitBuyData.init cat_id raw_data with
  | Ok u => UnitBuyData.to_raw_data u = take 63 row
  | Raise e =>
      e = ValueError
      /\ (nth 13 row 0 < 0 \/ 5 < nth 13 row 0
          \/ nth 17 row 0 < 0 \/ 4 < nth 17 row 0)
  end.
Proof.
  cbv zeta. unfold UnitBuyData.init.
  pose proof (UnitBuyFacts.assign_result cat_id _
                (UnitBuyFacts.unit_buy_extend_ge raw_data)) as Hres.
  pose proof (unit_buy_assign_exact cat_id (UnitBuyData.extend raw_data)) as Hex.
  unfold UnitBuyData.extend in *. cbv zeta in *.
  destruct (UnitBuyData.assign _ _) as [u|e].
  - apply Hex; [| reflexivity].
    rewrite length_app, repeat_length. lia.
  - set (row := raw_data ++ _) in *.
    assert (Hr : forall v e', Rarity.of_value v = Raise e' ->
                              e' = ValueError /\ (v < 0 \/ 5 < v)).
    { intros v e'. cbv [Rarity.of_value find Rarity.value].
      repeat match goal with
        | |- context [?a =? v] => destruct (Z.eqb_spec a v); [discriminate |]
        end.
      intros [= <-]. split; [done | lia]. }
    assert (Hg : forall v e', GatchaRarity.of_value v = Raise e' ->
                              e' = ValueError /\ (v < 0 \/ 4 < v)).
    { intros v e'. cbv [GatchaRarity.of_value find GatchaRarity.value].
      repeat match goal with
        | |- context [?a =? v] => destruct (Z.eqb_spec a v); [discriminate |]
        end.
      intros [= <-]. split; [done | lia]. }
    destruct Hres as [H|H].
    + apply Hr in H as [-> ?]. split; [done | lia].
    + apply Hg in H as [-> ?]. split; [done | lia].
Qed.

(** X13: The obtainability setters: afterwards [is_obtainable] is the value that
    was set, on both records and on the cat; setting the value a record
    already has changes nothing; and switching off and on again leaves the
    game version at 0, whatever it was. *)
Theorem set_obtainable_then_is_obtainable {Form Talent : Type}
    (cat : @Cat.t Form Talent) (obtainable : bool) :
  let u := Cat.unit_buy_data cat in
  Cat.is_obtainable (Cat.set_obtainable cat obtainable) = obtainable
  /\ UnitBuyData.is_obtainable (UnitBuyData.set_obtainable u obtainable)
     = obtainable
  /\ (UnitBuyData.is_obtainable u = obtainable ->
      UnitBuyData.set_obtainable u obtainable = u)
  /\ UnitBuyData.game_version
       (UnitBuyData.set_obtainable (UnitBuyData.set_obtainable u false) true)
     = 0.
Proof.
  cbv zeta. unfold Cat.is_obtainable, Cat.set_obtainable. cbn.
  assert (Hu : forall u b,
             UnitBuyData.is_obtainable (UnitBuyData.set_obtainable u b) = b).
  { intros u b. unfold UnitBuyData.is_obtainable, UnitBuyData.set_obtainable.
    destruct u. destruct b; cbn; [| reflexivity].
    destruct (Z.eqb_spec game_version (-1)) as [->|Hne]; [reflexivity |].
    by destruct (Z.eqb_spec game_version (-1)). }
  split; [| split; [apply Hu | split]].
  - rewrite Hu. by destruct obtainable.
  - unfold UnitBuyData.is_obtainable, UnitBuyData.set_obtainable.
    destruct (Cat.unit_buy_data cat). cbn.
    destruct obtainable; cbn;
      destruct (Z.eqb_spec game_version (-1)) as [->|Hne]; cbn;
      try discriminate; reflexivity.
  - reflexivity.
Qed.

(** The setters at a cat built from an empty [UnitBuyData] row, which is
    obtainable. *)
Lemma set_obtainable_then_is_obtainable_witness :
  match UnitBuyData.init 0 [] with
  | Ok u => UnitBuyData.set_obtainable u true = u
  | Raise _ => False
  end.
Proof.
  destruct (UnitBuyData.init 0 []) as [u|e] eqn:Hu;
    [| vm_compute in Hu; discriminate Hu].
  pose (cat := @Cat.mk unit unit 0 [] u None
                 (NyankoPictureBookData.mk 0 true false 1 0 0 0 0 0 []) None).
  apply (proj1 (proj2 (proj2 (set_obtainable_then_is_obtainable cat true)))).
  cbn. vm_compute in Hu. injection Hu as <-. reflexivity.
Defined.

End RecordsFacts.

(** ** Importing cats *)

Module CatsFacts.
Import Cats.

Section WithForms.

Context {Form Talent GameData : Type}.
Context (Form_eqb : Form -> Form -> bool) (Talent_eqb : Talent -> Talent -> bool).

Abbreviation CatT := (@Cat.t Form Talent).
Abbreviation CatsT := (@Cats.t Form Talent).
Abbreviation neb := (Cat_neb Form_eqb Talent_eqb).
Abbreviation step := (import_step Form_eqb Talent_eqb).

Lemma import_cats_step_lookup (gd_cats other : CatsT) (m : gmap Z CatT)
    (a id : Z) :
  step gd_cats other m a !! id
  = if decide (a = id)
    then match cats other !! id with
         | Some o =>
             match cats gd_cats !! id with
             | Some g => if neb g o then Some g else m !! id
             | None => Some o
             end
         | None => m !! id
         end
    else m !! id.
Proof.
  unfold import_step, get_cat.
  destruct (decide (a = id)) as [->|Hne].
  - destruct (cats other !! id); [| reflexivity].
    destruct (cats gd_cats !! id).
    + destruct (neb _ _); [apply lookup_insert_eq | reflexivity].
    + apply lookup_insert_eq.
  - destruct (cats other !! a); [| reflexivity].
    destruct (cats gd_cats !! a).
    + destruct (neb _ _); [by rewrite lookup_insert_ne | reflexivity].
    + by rewrite lookup_insert_ne.
Qed.

Lemma import_cats_loop_lookup (gd_cats other : CatsT) (keys : list Z)
    (m : gmap Z CatT) (id : Z) :
  fold_left (step gd_cats other) keys m !! id
  = if decide (id ∈ keys)
    then match cats other !! id with
         | Some o =>
             match cats gd_cats !! id with
             | Some g => if neb g o then Some g else m !! id
             | None => Some o
             end
         | None => m !! id
         end
    else m !! id.
Proof.
  revert m. induction keys as [|a keys IH]; intros m; cbn [fold_left].
  - destruct (decide (id ∈ [])) as [Hin|_]; [by apply elem_of_nil in Hin | done].
  - rewrite IH, import_cats_step_lookup.
    destruct (decide (a = id)) as [->|Hne].
    + destruct (decide (id ∈ id :: keys)) as [_|Hn]; [| exfalso; apply Hn; left].
      destruct (decide (id ∈ keys)); [| reflexivity].
      destruct (cats other !! id); [| reflexivity].
      destruct (cats gd_cats !! id); [| reflexivity].
      by destruct (neb _ _).
    + destruct (decide (id ∈ keys)) as [Hin|Hnin],
               (decide (id ∈ a :: keys)) as [Hin'|Hnin']; try reflexivity.
      * exfalso. apply Hnin'. by right.
      * apply elem_of_cons in Hin' as [->|Hin']; [done | contradiction].
Qed.

(** X14: After [import_cats], for every cat id: if the mod has a cat for that id
    and the base cats read from the game data have none, the result holds
    the mod's cat; if the base has one that differs from the mod's, the
    result holds the base's cat, not the mod's; otherwise the entry of the
    current cats is kept. *)
Theorem import_cats_lookup (from_game_data : GameData -> CatsT)
    (self other : CatsT) (game_data : GameData) (id : Z) :
  cats (import_cats Form_eqb Talent_eqb from_game_data self other game_data)
    !! id
  = match cats other !! id with
    | Some o =>
        match cats (from_game_data game_data) !! id with
        | Some g => if neb g o then Some g else cats self !! id
        | None => Some o
        end
    | None => cats self !! id
    end.
Proof.
  unfold import_cats, import_cats_from. cbn [cats].
  rewrite import_cats_loop_lookup.
  destruct (decide _) as [_|Hnin]; [reflexivity |].
  destruct (cats other !! id) eqn:Ho; [| reflexivity].
  exfalso. apply Hnin. apply elem_of_elements.
  apply elem_of_union_l, elem_of_union_r, elem_of_dom. by eexists.
Qed.

End WithForms.

End CatsFacts.

(** ** Stage file names and stage name sets *)

Module StageFilesFacts.
Import MapIndexType.

(** The partition [from_index] returns, interval by interval. *)
Lemma from_index_intervals (i : Z) :
  from_index i =
    if i <? 0 then Some BEHEMOTH
    else if i <? 1000 then Some SOL
    else if i <? 2000 then Some REGULAR_EVENT
    else if i <? 3000 then Some COLLAB
    else if i <? 4000 then Some STORY
    else if i <? 6000 then Some EXTRA
    else if i <? 7000 then Some DOJO_CATCLAW
    else if i <? 12000 then Some TOWER
    else if i <? 13000 then Some CHALLENGE
    else if i <? 14000 then Some UNCANNY
    else if i <? 16000 then Some DRINK
    else if i <? 20000 then Some LEGEND_QUEST
    else if i <? 21000 then Some OUTBREAKS_EOC
    else if i <? 22000 then Some OUTBREAKS_ITF
    else if i <? 23000 then Some OUTBREAKS_COTC
    else if i <? 24000 then Some FILIBUSTER
    else if i <? 25000 then Some GAUNTLET
    else if i <? 27000 then Some ENGIMA
    else if i <? 31000 then Some COLLAB_GAUNTLET
    else if i =? 31000 then Some BEHEMOTH
    else None.
Proof.
  unfold from_index.
  change (sorted_by value members) with members.
  unfold members. cbn [from_index_loop seq length].
  MapIndexTypeFacts.eval_getitem.
  MapIndexTypeFacts.split_comparisons; reflexivity.
Qed.

Ltac all_markers Hmax :=
  pose proof (Hmax SOL); pose proof (Hmax REGULAR_EVENT);
  pose proof (Hmax COLLAB); pose proof (Hmax STORY); pose proof (Hmax EXTRA);
  pose proof (Hmax DOJO_CATCLAW); pose proof (Hmax TOWER);
  pose proof (Hmax CHALLENGE); pose proof (Hmax UNCANNY);
  pose proof (Hmax DRINK); pose proof (Hmax LEGEND_QUEST);
  pose proof (Hmax OUTBREAKS_EOC); pose proof (Hmax OUTBREAKS_ITF);
  pose proof (Hmax OUTBREAKS_COTC); pose proof (Hmax FILIBUSTER);
  pose proof (Hmax GAUNTLET); pose proof (Hmax ENGIMA);
  pose proof (Hmax COLLAB_GAUNTLET); pose proof (Hmax BEHEMOTH).

(** X15: [from_index] over all the integers: it returns a partition exactly
    below zero, where the partition is [BEHEMOTH], and from 0 to the last
    marker, 31000, where it is the one with the greatest marker at most the
    index; past 31000 it returns [None]. *)
Theorem from_index_characterised (i : Z) (x : t) :
  from_index i = Some x
  <-> (i < 0 /\ x = BEHEMOTH) \/ (0 <= i <= 31000 /\ greatest_marker_le i x).
Proof.
  rewrite from_index_intervals. unfold greatest_marker_le.
  MapIndexTypeFacts.split_comparisons; (split; [intros Hr | intros Hr]).
  all: try discriminate Hr.
  all: try (injection Hr as <-;
            first [ left; split; [lia | reflexivity]
                  | right; split; [lia |];
                    split; [cbn; lia | intros y; destruct y; cbn; lia] ]).
  all: destruct Hr as [[Hneg ->] | [Hrange [Hle Hmax]]];
    try lia; try reflexivity.
  all: all_markers Hmax; destruct x; cbn in *; first [reflexivity | lia].
Qed.

Ltac by_interval i :=
  rewrite (from_index_intervals i);
  MapIndexTypeFacts.split_comparisons; cbn.

(** X16: [StageNameSet.get_file_name] raises exactly on the ids of the partitions
    that have no stage-name type of their name, [ENGIMA] (spelt [ENIGMA] in
    [StageNameNameType]) among them, and past the last marker. *)
Theorem stage_name_set_file_name_raises (base_stage_id : Z) (lang : string) :
  StageFiles.stage_name_set_file_name base_stage_id lang = Raise ValueError
  <-> (16000 <= base_stage_id < 24000
       \/ 25000 <= base_stage_id < 27000
       \/ 31000 < base_stage_id).
Proof.
  unfold StageFiles.stage_name_set_file_name.
  by_interval base_stage_id; split; intros Hr; try discriminate Hr; try lia;
    reflexivity.
Qed.

Section WithPaddedInt.

Context (PaddedInt_to_str : Z -> nat -> string).

(** X17: [MapStageData.get_file_name] gives no name exactly on the ids of
    [LEGEND_QUEST], the outbreaks and [FILIBUSTER], and past the last
    marker; an id below zero is named after [BEHEMOTH]. *)
Theorem map_stage_data_file_name_none (stage_id : Z) :
  (StageFiles.map_stage_data_file_name PaddedInt_to_str stage_id = None
   <-> (16000 <= stage_id < 24000 \/ 31000 < stage_id))
  /\ (stage_id < 0 ->
      StageFiles.map_stage_data_file_name PaddedInt_to_str stage_id
      = Some ("MapStageDataQ_" +:+ PaddedInt_to_str (stage_id - 31000) 3
              +:+ ".csv")).
Proof.
  unfold StageFiles.map_stage_data_file_name. split.
  - by_interval stage_id; split; intros Hr; try discriminate Hr; try lia;
      reflexivity.
  - intros Hneg. by_interval stage_id. reflexivity.
Qed.

(** X18: [StageStats.get_file_name] gives no name exactly on the ids of the
    partitions that have no map-name type of their name, [ENGIMA] (spelt
    [ENIGMA] in [MapNameType]) among them, and past the last marker. *)
Theorem stage_stats_file_name_none (stage_id stage_index : Z) :
  StageFiles.stage_stats_file_name PaddedInt_to_str stage_id stage_index = None
  <-> (16000 <= stage_id < 24000
       \/ 25000 <= stage_id < 27000
       \/ 31000 < stage_id).
Proof.
  unfold StageFiles.stage_stats_file_name.
  by_interval stage_id; split; intros Hr; try discriminate Hr; try lia;
    reflexivity.
Qed.

End WithPaddedInt.

(** X19: The look-ups by name between the partitions and the three name enums are
    partial inverses of each other. *)
Theorem name_types_partial_inverse :
  (forall x y, StageNameNameType.get_map_index_type x = Some y
               <-> MapIndexTypeNames.get_stage_name_name_type y = Some x)
  /\ (forall x y, MapStageDataNameType.get_map_index_type x = Some y
                  <-> MapIndexTypeNames.get_map_stage_data_name_type y = Some x)
  /\ (forall x y, MapNameType.get_map_index_type x = Some y
                  <-> MapIndexTypeNames.get_map_name_type y = Some x).
Proof.
  repeat split; intros H; destruct x, y; vm_compute in H |- *;
    first [reflexivity | discriminate H].
Qed.

End StageFilesFacts.

Module StageNameSetsFacts.
Import StageNameSets.

Section WithStageNames.

Context {StageNames : Type}.

Abbreviation Sets := (@StageNameSets.t StageNames).

#[local] Arguments MapIndexType.from_index : simpl never.

Lemma from_index_defined (stage_id : Z) :
  stage_id <= 31000 -> exists x, MapIndexType.from_index stage_id = Some x.
Proof.
  intros Hle. rewrite StageFilesFacts.from_index_intervals.
  MapIndexTypeFacts.split_comparisons; eauto.
Qed.

(** X20: [StageNameSets.set] then [get]: up to the last marker, [set] succeeds,
    [get] of the same id gives the names just stored, and [get] of any other
    id is as before. *)
Theorem set_then_get (self : Sets) (stage_id : Z) (stage_names : StageNames) :
  stage_id <= 31000 ->
  exists self',
    set self stage_id stage_names = Ok self'
    /\ get self' stage_id = Some stage_names
    /\ forall other_id, other_id <> stage_id ->
                        get self' other_id = get self other_id.
Proof.
  intros Hle. destruct (from_index_defined stage_id Hle) as [x Hx].
  unfold set, get. rewrite Hx.
  destruct (sets self !! x) as [s|] eqn:Hs.
  - cbn. eexists. split; [reflexivity |]. cbn [sets]. split.
    + rewrite lookup_insert_eq. unfold StageNameSet_get. cbn.
      apply lookup_insert_eq.
    + intros other_id Hne.
      destruct (MapIndexType.from_index other_id) as [y|]; [| reflexivity].
      destruct (decide (x = y)) as [<-|Hxy].
      * rewrite lookup_insert_eq, Hs. unfold StageNameSet_get. cbn.
        by rewrite lookup_insert_ne.
      * by rewrite lookup_insert_ne.
  - unfold StageNameSet_init. rewrite Hx. cbn. eexists.
    split; [reflexivity |]. cbn [sets]. split.
    + rewrite lookup_insert_eq. unfold StageNameSet_get. cbn.
      apply lookup_insert_eq.
    + intros other_id Hne.
      destruct (MapIndexType.from_index other_id) as [y|]; [| reflexivity].
      destruct (decide (x = y)) as [<-|Hxy].
      * rewrite lookup_insert_eq, Hs. unfold StageNameSet_get. cbn.
        by rewrite lookup_insert_ne.
      * by rewrite !lookup_insert_ne.
Qed.

(** X21: Past the last marker [StageNameSets.set] raises [ValueError] and [get]
    finds nothing. *)
Theorem set_past_last_marker (self : Sets) (stage_id : Z)
    (stage_names : StageNames) :
  31000 < stage_id ->
  set self stage_id stage_names = Raise ValueError
  /\ get self stage_id = None.
Proof.
  intros Hgt. unfold set, get.
  rewrite (MapIndexTypeFacts.from_index_past_last_marker stage_id Hgt).
  by split.
Qed.

End WithStageNames.

Lemma set_then_get_witness :
  31000 <= 31000
  /\ exists self',
      set (mk (∅ : gmap MapIndexType.t (@StageNameSet string))) 31000 "names"
      = Ok self'
      /\ get self' 31000 = Some "names"
      /\ forall other_id, other_id <> 31000 ->
                          get self' other_id = get (mk ∅) other_id.
Proof.
  split; [lia |].
  apply (set_then_get (mk ∅) 31000 "names"). lia.
Defined.

Lemma set_past_last_marker_witness :
  31000 < 31001
  /\ set (mk (∅ : gmap MapIndexType.t (@StageNameSet string))) 31001 "names"
     = Raise ValueError
  /\ get (mk (∅ : gmap MapIndexType.t (@StageNameSet string))) 31001 = None.
Proof.
  split; [lia |].
  apply (set_past_last_marker (mk ∅) 31001 "names"). lia.
Defined.

End StageNameSetsFacts.

(** ** Country codes *)

Module CountryCodeFacts.
Import CountryCode.

(** X22: The codes are read back: [from_code] undoes [get_code], and, through its
    fallback to [JP], [get_request_code]; [from_patching_code] undoes
    [get_patching_code]. *)
Theorem codes_round_trip (cc : t) :
  from_code (get_code cc) = cc
  /\ from_code (get_request_code cc) = cc
  /\ from_patching_code (get_patching_code cc) = cc.
Proof. by destruct cc. Qed.

Lemma chars_append (a b : string) :
  Str.chars (a +:+ b) = Str.chars a ++ Str.chars b.
Proof.
  unfold Str.chars. induction a as [|c a IH]; [reflexivity |].
  change (list_ascii_of_string (String c a +:+ b))
    with (c :: list_ascii_of_string (a +:+ b)).
  rewrite IH. reflexivity.
Qed.

Lemma endswith_code (base : string) (c1 c2 d1 d2 : ascii) :
  Str.endswith (base +:+ String c1 (String c2 EmptyString))
               (String d1 (String d2 EmptyString))
  = Ascii.eqb d2 c2 && Ascii.eqb d1 c1.
Proof.
  unfold Str.endswith. rewrite chars_append.
  change (Str.chars (String c1 (String c2 EmptyString))) with [c1; c2].
  change (Str.chars (String d1 (String d2 EmptyString))) with [d1; d2].
  rewrite rev_app_distr. cbn. by rewrite andb_true_r.
Qed.

(** X23: A package name that ends with a country's code is read as that country,
    whatever comes before the code. *)
Theorem from_package_name_suffix (base : string) (cc : t) :
  from_package_name (base +:+ get_code cc) = cc.
Proof.
  unfold from_package_name, members.
  destruct cc; cbn [get_code value List.find];
    rewrite ?endswith_code; reflexivity.
Qed.

End CountryCodeFacts.

(** ** Ability bits *)

Module BCUFormFacts.

(** X24: [check_ability] reads bit [id] of [abi]. *)
Theorem check_ability_testbit (abi id : Z) :
  0 <= id -> BCUForm.check_ability abi id = Ok (Z.testbit abi id).
Proof.
  intros Hid. unfold BCUForm.check_ability.
  destruct (Z.ltb_spec id 0) as [Hneg|_]; [lia |]. f_equal.
  rewrite Z.shiftl_1_l.
  destruct (Z.testbit abi id) eqn:Hbit.
  - destruct (Z.eqb_spec (Z.land abi (2 ^ id)) 0) as [Hz|]; [| reflexivity].
    assert (Hb : Z.testbit (Z.land abi (2 ^ id)) id = true).
    { rewrite Z.land_spec, Hbit, Z.pow2_bits_true by lia. reflexivity. }
    rewrite Hz, Z.bits_0 in Hb. discriminate Hb.
  - destruct (Z.eqb_spec (Z.land abi (2 ^ id)) 0) as [|Hnz]; [reflexivity |].
    exfalso. apply Hnz. apply Z.bits_inj'. intros n Hn.
    rewrite Z.land_spec, Z.bits_0.
    destruct (Z.eq_dec n id) as [->|Hne].
    + by rewrite Hbit.
    + rewrite Z.pow2_bits_false by lia. apply andb_false_r.
Qed.

Lemma check_ability_testbit_witness :
  0 <= 2 /\ BCUForm.check_ability 5 2 = Ok (Z.testbit 5 2).
Proof. split; [lia | apply (check_ability_testbit 5 2); lia]. Defined.

End BCUFormFacts.
